(** * The [sp_ai] widget: payload normalization and inbound-event reducer

    A shallow embedding of [web/src/sp_ai_widget.ts] (the full v2 generation,
    with plan, todo and background-task extraction) and of the schemas of
    [web/src/sp_ai_data.ts] it validates against.

    Conventions of the embedding:
    - a JavaScript value that comes out of [JSON.parse], or out of a property
      read, is a [jsv]; numbers are IEEE 754 binary64 values ([float]);
    - a string is the sequence of the UTF-8 bytes of the JavaScript string;
      [trim] and the class [\s] know every white-space character of the
      language, [toLowerCase] is computed on ASCII strings and is a builtin
      of the host on the others;
    - code that can throw runs in the [js] completion monad, code that also
      logs or paints runs in [Eff], which records a trace of [effect]s;
    - the builtins whose text is not fixed by this repository
      ([JSON.stringify], [JSON.parse], the digits of a number that is not an
      integer of absolute value at most 2^53, the lower-casing of a string
      that is not ASCII) and the two block schemas this generation imports
      but the tree does not declare are fields of the [Host] class. *)

From Stdlib Require Import ZArith String Ascii List Bool Lia.
From Stdlib Require Import Floats.PrimFloat Floats.SpecFloat Floats.FloatOps.
From Stdlib Require Import DecimalString.
From stdpp Require Import base option list gmap sorting.
Import ListNotations.

Set Warnings "-register-all".

Local Open Scope list_scope.
Local Open Scope string_scope.

(** ** JavaScript values *)

Inductive jsv : Type :=
| JUndefined
| JNull
| JBool (b : bool)
| JNum (x : float)
| JStr (s : string)
| JArr (xs : list jsv)
| JObj (props : list (string * jsv)).

(** Own-property lookup in a parsed object: the first binding of the key. *)
Fixpoint own_property (props : list (string * jsv)) (k : string) : option jsv :=
  match props with
  | [] => None
  | (k', v) :: rest => if String.eqb k' k then Some v else own_property rest k
  end.

(** [v[k]] on a value that is neither [null] nor [undefined]: only the keys
    of a parsed object are visible; the reads of this program never name an
    inherited property or an array index. *)
Definition get (v : jsv) (k : string) : jsv :=
  match v with
  | JObj props => default JUndefined (own_property props k)
  | _ => JUndefined
  end.

(** [Object.hasOwn(v, k)] on an object. *)
Definition hasOwn (v : jsv) (k : string) : bool :=
  match v with
  | JObj props => bool_decide (is_Some (own_property props k))
  | _ => false
  end.

Definition is_nullish (v : jsv) : bool :=
  match v with JUndefined | JNull => true | _ => false end.

(** [v?.k] *)
Definition opt_get (v : jsv) (k : string) : jsv :=
  if is_nullish v then JUndefined else get v k.

(** [a ?? b] *)
Definition nullish_or (a b : jsv) : jsv := if is_nullish a then b else a.
Infix "??" := nullish_or (at level 61, left associativity).

(** [typeof v === "object"]: objects, arrays and [null]. *)
Definition typeof_object (v : jsv) : bool :=
  match v with JNull | JArr _ | JObj _ => true | _ => false end.

(** ** Completions: a result or a thrown [TypeError] *)

Inductive js (A : Type) : Type :=
| Normal (a : A)
| Throw (msg : string).
Arguments Normal {A} a.
Arguments Throw {A} msg.

#[global] Instance js_ret : MRet js := fun A a => Normal a.
#[global] Instance js_bind : MBind js := fun A B k m =>
  match m with
  | Normal a => k a
  | Throw msg => Throw msg
  end.

(** [xs.map(f)] for a callback that can throw. *)
Fixpoint js_map {A B} (f : A -> js B) (l : list A) : js (list B) :=
  match l with
  | [] => Normal []
  | a :: rest => b ← f a; bs ← js_map f rest; Normal (b :: bs)
  end.

(** [v.k]: a property read that throws on [null] and [undefined]. *)
Definition member (v : jsv) (k : string) : js jsv :=
  if is_nullish v
  then Throw "TypeError: Cannot read properties of null or undefined"
  else Normal (get v k).

(** ** Strings *)

(** The bytes of the white-space characters: U+0009 to U+000D and U+0020
    in one byte; U+00A0 in two; U+1680, U+2000 to U+200A, U+2028, U+2029,
    U+202F, U+205F, U+3000 and U+FEFF in three.  These are the WhiteSpace and
    LineTerminator characters, which [trim] strips and [\s] matches. *)
Definition white_space_1 (a : ascii) : bool :=
  let a := nat_of_ascii a in
  (Nat.leb 9 a && Nat.leb a 13) || Nat.eqb a 32.

(** The first byte of a white-space character of two or three bytes. *)
Definition white_space_lead (a : ascii) : bool :=
  let a := nat_of_ascii a in
  Nat.eqb a 194 || Nat.eqb a 225 || Nat.eqb a 226 || Nat.eqb a 227 || Nat.eqb a 239.

Definition white_space_2 (a b : ascii) : bool :=
  Nat.eqb (nat_of_ascii a) 194 && Nat.eqb (nat_of_ascii b) 160.

Definition white_space_3 (a b c : ascii) : bool :=
  let a := nat_of_ascii a in
  let b := nat_of_ascii b in
  let c := nat_of_ascii c in
  (Nat.eqb a 225 && Nat.eqb b 154 && Nat.eqb c 128)
  || (Nat.eqb a 226 && Nat.eqb b 128
      && ((Nat.leb 128 c && Nat.leb c 138) || Nat.eqb c 168 || Nat.eqb c 169
          || Nat.eqb c 175))
  || (Nat.eqb a 226 && Nat.eqb b 129 && Nat.eqb c 159)
  || (Nat.eqb a 227 && Nat.eqb b 128 && Nat.eqb c 128)
  || (Nat.eqb a 239 && Nat.eqb b 187 && Nat.eqb c 191).

(** What follows the white-space character at the head of [s], if [s]
    starts with one. *)
Definition white_space (s : string) : option string :=
  match s with
  | EmptyString => None
  | String a rest1 =>
      if white_space_1 a then Some rest1
      else if negb (white_space_lead a) then None
      else
        match rest1 with
        | EmptyString => None
        | String b rest2 =>
            if white_space_2 a b then Some rest2
            else
              match rest2 with
              | EmptyString => None
              | String c rest3 => if white_space_3 a b c then Some rest3 else None
              end
        end
  end.

(** [s.trimStart()]: the white-space characters at the head are dropped. *)
Fixpoint trimStart (s : string) : string :=
  match s with
  | EmptyString => EmptyString
  | String a rest1 =>
      if white_space_1 a then trimStart rest1
      else if negb (white_space_lead a) then s
      else
        match rest1 with
        | EmptyString => s
        | String b rest2 =>
            if white_space_2 a b then trimStart rest2
            else
              match rest2 with
              | EmptyString => s
              | String c rest3 => if white_space_3 a b c then trimStart rest3 else s
              end
        end
  end.

(** [s.trimEnd()]: the string is cut where what is left is white space
    only, that is, where [trimStart] would leave nothing. *)
Fixpoint trimEnd (s : string) : string :=
  match s with
  | EmptyString => EmptyString
  | String c rest =>
      if String.eqb (trimStart s) "" then EmptyString else String c (trimEnd rest)
  end.

(** [s.trim()] *)
Definition trim (s : string) : string := trimEnd (trimStart s).

Definition lower_ascii (c : ascii) : ascii :=
  let n := nat_of_ascii c in
  if Nat.leb 65 n && Nat.leb n 90 then ascii_of_nat (n + 32) else c.

(** Whether every character of [s] is an ASCII character. *)
Fixpoint is_ascii_string (s : string) : bool :=
  match s with
  | EmptyString => true
  | String c rest => Nat.ltb (nat_of_ascii c) 128 && is_ascii_string rest
  end.

(** [s.toLowerCase()] for an ASCII string: the letters A to Z are folded. *)
Fixpoint toLowerCase_ascii (s : string) : string :=
  match s with
  | EmptyString => EmptyString
  | String c rest => String (lower_ascii c) (toLowerCase_ascii rest)
  end.

(** [xs.includes(s)] on an array of strings. *)
Definition includes (xs : list string) (s : string) : bool :=
  existsb (String.eqb s) xs.

(** [parts.join(sep)] *)
Fixpoint join (sep : string) (parts : list string) : string :=
  match parts with
  | [] => ""
  | [p] => p
  | p :: rest => p ++ sep ++ join sep rest
  end.

(** ** Numbers *)

Definition Number_isFinite (x : float) : bool :=
  match Prim2SF x with
  | S754_zero _ | S754_finite _ _ _ => true
  | _ => false
  end.

(** The mathematical value of a finite number, as [m * 2^e] with a signed [m]. *)
Definition exact_value (x : float) : Z * Z :=
  match Prim2SF x with
  | S754_finite s m e => ((if s then Z.neg m else Z.pos m), e)
  | _ => (0, 0)
  end%Z.

(** The number nearest to [m * 2^e] (exact whenever it is representable). *)
Definition number_of (m e : Z) : float :=
  SF2Prim (binary_normalize prec emax m e false).

(** [floor (m * 2^e * 10^f + half / 2)] for [half] in {0, 1}. *)
Definition scaled_floor (m e : Z) (f : Z) (half : Z) : Z :=
  if (0 <=? e)%Z
  then (m * 2 ^ e * 10 ^ f)%Z
  else ((2 * m * 10 ^ f + half * 2 ^ (- e)) / (2 * 2 ^ (- e)))%Z.

Definition is_integral (x : float) : bool :=
  let '(m, e) := exact_value x in
  Number_isFinite x && ((0 <=? e)%Z || (m mod 2 ^ (- e) =? 0)%Z).

(** [Math.floor(x)] *)
Definition Math_floor (x : float) : float :=
  if negb (Number_isFinite x) || is_integral x then x
  else let '(m, e) := exact_value x in number_of (scaled_floor m e 0 0) 0.

(** [Math.round(x)]: the nearest integer, a tie going towards +Infinity.
    The sign of a zero result is not tracked. *)
Definition Math_round (x : float) : float :=
  if negb (Number_isFinite x) || is_integral x then x
  else let '(m, e) := exact_value x in number_of (scaled_floor m e 0 1) 0.

(** [x % y] for finite [x] and finite non-zero [y]: the remainder of the
    truncating division, computed on the exact values. *)
Definition Number_remainder (x y : float) : float :=
  if negb (Number_isFinite x) then nan
  else match Prim2SF y with
  | S754_nan | S754_zero _ => nan
  | S754_infinity _ => x
  | S754_finite _ _ _ =>
      let '(mx, ex) := exact_value x in
      let '(my, ey) := exact_value y in
      let e := Z.min ex ey in
      number_of (Z.rem (mx * 2 ^ (ex - e)) (my * 2 ^ (ey - e))) e
  end.

Definition decimal (n : Z) : string := NilZero.string_of_uint (N.to_uint (Z.to_N n)).

(** [ToString] of a number.  An integer of absolute value at most 2^53
    prints its decimal digits; the digits of any other finite number are the
    shortest ones that read back as the same number, which [repr] supplies. *)
Definition Number_toString (repr : float -> string) (x : float) : string :=
  match Prim2SF x with
  | S754_nan => "NaN"
  | S754_zero _ => "0"
  | S754_infinity s => if s then "-Infinity" else "Infinity"
  | S754_finite s m e =>
      if is_integral x && (abs x <=? 9007199254740992)%float
      then (if s then "-" else "") ++ decimal (scaled_floor (Z.pos m) e 0 0)
      else repr x
  end.

(** [x.toFixed(f)] for [f] in {0, 1}: the integer [n] nearest to
    [x * 10^f] (a tie taking the larger [n]), printed with [f] decimals. *)
Definition toFixed (repr : float -> string) (x : float) (f : nat) : string :=
  match Prim2SF x with
  | S754_nan => "NaN"
  | S754_infinity s => if s then "-Infinity" else "Infinity"
  | S754_zero _ | S754_finite _ _ _ =>
      if (abs x <? 1e21)%float
      then
        let '(m, e) := exact_value x in
        let n := scaled_floor (Z.abs m) e (Z.of_nat f) 1 in
        let sign := if (x <? 0)%float then "-" else "" in
        match f with
        | O => sign ++ decimal n
        | _ =>
            sign ++ decimal (n / 10 ^ Z.of_nat f) ++ "." ++
            (let d := decimal (n mod 10 ^ Z.of_nat f) in
             String.concat "" (repeat "0" (f - String.length d)) ++ d)
        end
      else Number_toString repr x
  end.

(** ** Enumerations of the widget state *)

Module Kind.
Inductive t : Set :=
| thinking | tool | final | error | plan | decision | ask | budget | policy
| subagent_group.

Definition of_string (s : string) : option t :=
  if String.eqb s "thinking" then Some thinking
  else if String.eqb s "tool" then Some tool
  else if String.eqb s "final" then Some final
  else if String.eqb s "error" then Some error
  else if String.eqb s "plan" then Some plan
  else if String.eqb s "decision" then Some decision
  else if String.eqb s "ask" then Some ask
  else if String.eqb s "budget" then Some budget
  else if String.eqb s "policy" then Some policy
  else if String.eqb s "subagent_group" then Some subagent_group
  else None.
End Kind.

Module Status.
Inductive t : Set :=
| pending | running | ok | error | aborted | denied | approval_requested
| approval_responded.

Definition of_string (s : string) : option t :=
  if String.eqb s "pending" then Some pending
  else if String.eqb s "running" then Some running
  else if String.eqb s "ok" then Some ok
  else if String.eqb s "error" then Some error
  else if String.eqb s "aborted" then Some aborted
  else if String.eqb s "denied" then Some denied
  else if String.eqb s "approval_requested" then Some approval_requested
  else if String.eqb s "approval_responded" then Some approval_responded
  else None.
End Status.

Module Display.
Inductive t : Set := card_only | card_with_caption.

Definition of_string (s : string) : option t :=
  if String.eqb s "card_only" then Some card_only
  else if String.eqb s "card_with_caption" then Some card_with_caption
  else None.
End Display.

Module Channel.
(** ["stdout" | "stderr" | ""] *)
Inductive t : Set := stdout | stderr | none.

Definition to_string (c : t) : string :=
  match c with stdout => "stdout" | stderr => "stderr" | none => "" end.
End Channel.

(** ** What the v2 plan and todo block schemas hand back *)

Module PlanV2.
Record row : Type := { step : jsv; status : jsv }.
Record t : Type := { title : option string; steps : option (list row) }.
End PlanV2.

Module TodoV2.
Record row : Type := { text : jsv; checked : jsv }.
Record t : Type := { title : option string; items : option (list row) }.
End TodoV2.

(** ** The host

    [Number_digits x] is [ToString(x)] for a finite [x] that is not an
    integer of absolute value at most 2^53; [String_toLowerCase s] is
    [s.toLowerCase()] for an [s] that has a character outside ASCII;
    [JSON_stringify v] is [JSON.stringify(v, null, 2)]
    for a [v] that is not [undefined]; [JSON_parse s] is [JSON.parse(s)],
    [None] when it throws a [SyntaxError].  The last two fields are the
    [safeParse] of [sp_ai_plan_v2_block_schema] and of
    [sp_ai_todo_v2_block_schema], which [sp_ai_widget.ts] imports from
    [sp_ai_data.ts]: [None] when the block does not match. *)
Class Host : Type := {
  Number_digits : float -> string;
  String_toLowerCase : string -> string;
  JSON_stringify : jsv -> string;
  JSON_parse : string -> option jsv;
  sp_ai_plan_v2_block_schema : jsv -> option PlanV2.t;
  sp_ai_todo_v2_block_schema : jsv -> option TodoV2.t;
}.

Section Formatting.
Context `{Host}.

(** [String(v)].  An object answers ["[object Object]"] unless it carries
    an own [toString] key, whose value is then not callable and the
    conversion throws; an array joins the conversions of its elements. *)
Fixpoint ToString (v : jsv) : js string :=
  match v with
  | JUndefined => Normal "undefined"
  | JNull => Normal "null"
  | JBool b => Normal (if b then "true" else "false")
  | JNum x => Normal (Number_toString Number_digits x)
  | JStr s => Normal s
  | JArr xs =>
      parts ← (fix go (l : list jsv) : js (list string) :=
                 match l with
                 | [] => Normal []
                 | x :: rest =>
                     p ← (if is_nullish x then Normal "" else ToString x);
                     ps ← go rest;
                     Normal (p :: ps)
                 end) xs;
      Normal (join "," parts)
  | JObj props =>
      match own_property props "toString" with
      | None => Normal "[object Object]"
      | Some _ => Throw "TypeError: Cannot convert object to primitive value"
      end
  end.

(** [`${x}`] and [x.toFixed(f)] on numbers. *)
Definition num (x : float) : string := Number_toString Number_digits x.
Definition fixed (x : float) (f : nat) : string := toFixed Number_digits x f.

Definition format_duration_ms (duration_ms : float) : string :=
  if negb (Number_isFinite duration_ms) || (duration_ms <? 0)%float then ""
  else if (duration_ms <? 1000)%float then num (Math_round duration_ms) ++ "ms"
  else
    let seconds := (duration_ms / 1000)%float in
    if (seconds <? 60)%float
    then fixed seconds (if (seconds <? 10)%float then 1 else 0) ++ "s"
    else
      let minutes := Math_floor (seconds / 60)%float in
      let rem_seconds := Math_round (Number_remainder seconds 60) in
      num minutes ++ "m " ++ num rem_seconds ++ "s".

Definition format_runtime_sec (runtime_sec : float) : string :=
  if negb (Number_isFinite runtime_sec) || (runtime_sec <? 0)%float then ""
  else if (runtime_sec <? 60)%float
  then fixed runtime_sec (if (runtime_sec <? 10)%float then 1 else 0) ++ "s"
  else
    let minutes := Math_floor (runtime_sec / 60)%float in
    let rem_seconds := Math_round (Number_remainder runtime_sec 60) in
    num minutes ++ "m " ++ num rem_seconds ++ "s".

Definition format_tokens (tokens : float) : string :=
  if negb (Number_isFinite tokens) || (tokens <? 0)%float then ""
  else if (1000000 <=? tokens)%float then fixed (tokens / 1000000)%float 1 ++ "M tok"
  else if (1000 <=? tokens)%float then fixed (tokens / 1000)%float 1 ++ "k tok"
  else num (Math_round tokens) ++ " tok".
End Formatting.

(** ** Status vocabularies *)

Module SubagentStatusClass.
Inductive t : Set := running | ok | error | unknown.
End SubagentStatusClass.

Module BackgroundTaskStatusClass.
Inductive t : Set := pending | running | ok | error | aborted | unknown.
End BackgroundTaskStatusClass.

Module PlanStepStatusClass.
Inductive t : Set := pending | running | ok | error | unknown.
End PlanStepStatusClass.

Section StatusVocabularies.
Context `{Host}.

(** [s.toLowerCase()] *)
Definition toLowerCase (s : string) : string :=
  if is_ascii_string s then toLowerCase_ascii s else String_toLowerCase s.

Definition normalize_plan_step_status (raw_status : string)
  : PlanStepStatusClass.t * string :=
  let raw := trim raw_status in
  let s := toLowerCase raw in
  if includes ["ok"; "success"; "completed"; "complete"; "done"] s
  then (PlanStepStatusClass.ok, "Done")
  else if includes ["error"; "failed"; "failure"] s
  then (PlanStepStatusClass.error, "Error")
  else if includes ["running"; "in_progress"; "in-progress"; "started"] s
  then (PlanStepStatusClass.running, "In progress")
  else if includes ["pending"; "queued"; "queue"; "todo"] s
  then (PlanStepStatusClass.pending, "Todo")
  else (PlanStepStatusClass.unknown, if String.eqb raw "" then "" else raw).

Definition normalize_subagent_status (raw_status : string)
  : SubagentStatusClass.t * string :=
  let raw := trim raw_status in
  let s := toLowerCase raw in
  if includes ["ok"; "success"; "completed"; "complete"] s
  then (SubagentStatusClass.ok, "OK")
  else if includes ["error"; "failed"; "failure"] s
  then (SubagentStatusClass.error, "Error")
  else if includes ["running"; "in_progress"; "in-progress"; "started"] s
  then (SubagentStatusClass.running, "Running")
  else (SubagentStatusClass.unknown, if String.eqb raw "" then "Unknown" else raw).

Definition normalize_background_task_status (raw_status : string)
  : BackgroundTaskStatusClass.t * string :=
  let raw := trim raw_status in
  let s := toLowerCase raw in
  if includes ["ok"; "success"; "completed"; "complete"] s
  then (BackgroundTaskStatusClass.ok, "OK")
  else if includes ["error"; "failed"; "failure"] s
  then (BackgroundTaskStatusClass.error, "Error")
  else if includes ["running"; "in_progress"; "in-progress"; "started"] s
  then (BackgroundTaskStatusClass.running, "Running")
  else if includes ["pending"; "queued"; "queue"] s
  then (BackgroundTaskStatusClass.pending, "Pending")
  else if includes ["aborted"; "canceled"; "cancelled"] s
  then (BackgroundTaskStatusClass.aborted, "Aborted")
  else (BackgroundTaskStatusClass.unknown, if String.eqb raw "" then "Unknown" else raw).

End StatusVocabularies.

(** [default_title_for_turn_kind(kind)]; the argument is whatever the
    payload carries under [turn.kind]. *)
Definition default_title_for_turn_kind (kind : jsv) : string :=
  match kind with
  | JStr k =>
      if String.eqb k "subagent_group" then "Subagents"
      else if String.eqb k "tool" then "Tool"
      else if String.eqb k "assistant" then "Assistant"
      else "Agent output"
  | _ => "Agent output"
  end.

(** ** Schemas of [sp_ai_data.ts]

    [z.optional(z.string())] and its siblings on one property value:
    [None] is a validation failure, [Some None] an absent property. *)

Definition z_optional_string (v : jsv) : option (option string) :=
  match v with
  | JUndefined => Some None
  | JStr s => Some (Some s)
  | _ => None
  end.

(** [z.number()]: a finite number. *)
Definition z_number (v : jsv) : option float :=
  match v with
  | JNum x => if Number_isFinite x then Some x else None
  | _ => None
  end.

(** [z.int().check(z.nonnegative())]: a safe integer that is not below zero. *)
Definition z_nonnegative_int (v : jsv) : option float :=
  match v with
  | JNum x =>
      if is_integral x && (abs x <=? 9007199254740991)%float && (0 <=? x)%float
      then Some x else None
  | _ => None
  end.

Definition z_optional {A} (schema : jsv -> option A) (v : jsv) : option (option A) :=
  match v with
  | JUndefined => Some None
  | _ => a ← schema v; Some (Some a)
  end.

Definition z_optional_boolean (v : jsv) : option (option bool) :=
  match v with
  | JUndefined => Some None
  | JBool b => Some (Some b)
  | _ => None
  end.

(** [z.array(schema)] *)
Definition z_array {A} (schema : jsv -> option A) (v : jsv) : option (list A) :=
  match v with
  | JArr xs => mapM schema xs
  | _ => None
  end.

(** [z.literal(s)] *)
Definition z_literal (s : string) (v : jsv) : bool :=
  match v with JStr k => String.eqb k s | _ => false end.

Definition is_plain_object (v : jsv) : bool :=
  match v with JObj _ => true | _ => false end.

Module Subagent.
Record t : Type := {
  type : option string;
  description : option string;
  status : option string;
  toolCount : option float;
  totalTokens : option float;
  durationMs : option float;
  agentURL : option string;
  model : option string;
  error : option string;
}.
End Subagent.

Definition sp_ai_subagent_schema (v : jsv) : option Subagent.t :=
  if is_plain_object v then
    type ← z_optional_string (get v "type");
    description ← z_optional_string (get v "description");
    status ← z_optional_string (get v "status");
    toolCount ← z_optional z_nonnegative_int (get v "toolCount");
    totalTokens ← z_optional z_nonnegative_int (get v "totalTokens");
    durationMs ← z_optional z_nonnegative_int (get v "durationMs");
    agentURL ← z_optional_string (get v "agentURL");
    model ← z_optional_string (get v "model");
    error ← z_optional_string (get v "error");
    Some {| Subagent.type := type; Subagent.description := description;
            Subagent.status := status; Subagent.toolCount := toolCount;
            Subagent.totalTokens := totalTokens; Subagent.durationMs := durationMs;
            Subagent.agentURL := agentURL; Subagent.model := model;
            Subagent.error := error |}
  else None.

Module SubagentGroupBlock.
Record t : Type := {
  title : option string;
  agents : option (list Subagent.t);
  text : option string;
}.
End SubagentGroupBlock.

Definition sp_ai_subagent_group_block_schema (v : jsv) : option SubagentGroupBlock.t :=
  if is_plain_object v && z_literal "subagent_group" (get v "kind") then
    title ← z_optional_string (get v "title");
    agents ← z_optional (z_array sp_ai_subagent_schema) (get v "agents");
    text ← z_optional_string (get v "text");
    Some {| SubagentGroupBlock.title := title; SubagentGroupBlock.agents := agents;
            SubagentGroupBlock.text := text |}
  else None.

(** A task that passes is handed on as it came: the schema is a catch-all
    object, and the widget reads the task through [typeof] guards. *)
Definition sp_ai_background_task_schema (v : jsv) : option jsv :=
  if is_plain_object v then
    _ ← z_optional_string (get v "id");
    _ ← z_optional_string (get v "description");
    _ ← z_optional_string (get v "command");
    _ ← z_optional_string (get v "status");
    _ ← z_optional z_number (get v "runtimeSec");
    _ ← z_optional_string (get v "outputPreview");
    _ ← z_optional z_number (get v "exitCode");
    _ ← z_optional_string (get v "error");
    Some v
  else None.

Module BackgroundTasksBlock.
Record t : Type := {
  title : option string;
  tasks : option (list jsv);
}.
End BackgroundTasksBlock.

Definition sp_ai_background_tasks_block_schema (v : jsv) : option BackgroundTasksBlock.t :=
  if is_plain_object v
     && (z_literal "background_tasks" (get v "kind") || z_literal "bash_tasks" (get v "kind"))
  then
    title ← z_optional_string (get v "title");
    tasks ← z_optional (z_array sp_ai_background_task_schema) (get v "tasks");
    Some {| BackgroundTasksBlock.title := title; BackgroundTasksBlock.tasks := tasks |}
  else None.

(** ** Template records *)

Module SubagentTemplate.
Record t : Type := {
  type : string;
  description : string;
  status : SubagentStatusClass.t;
  status_label : string;
  meta_line : string;
  agentURL : string;
  error : string;
}.
End SubagentTemplate.

Module SubagentGroupTemplate.
Record t : Type := {
  title : string;
  agents : list SubagentTemplate.t;
  fallback_text : string;
}.
End SubagentGroupTemplate.

Module BackgroundTaskTemplate.
Record t : Type := {
  task_index : nat;
  description : string;
  command : string;
  status : BackgroundTaskStatusClass.t;
  status_label : string;
  meta_line : string;
  has_output_preview : bool;
  output_preview : string;
  error : string;
}.
End BackgroundTaskTemplate.

Module BackgroundTasksGroupTemplate.
Record t : Type := {
  group_index : nat;
  title : string;
  tasks : list BackgroundTaskTemplate.t;
}.
End BackgroundTasksGroupTemplate.

Module PlanStepTemplate.
Record t : Type := {
  step_index : nat;
  step : string;
  status : PlanStepStatusClass.t;
  status_label : string;
}.
End PlanStepTemplate.

Module PlanGroupTemplate.
Record t : Type := {
  group_index : nat;
  title : string;
  steps : list PlanStepTemplate.t;
}.
End PlanGroupTemplate.

Module TodoItemTemplate.
Record t : Type := {
  item_index : nat;
  text : string;
  checked : bool;
}.
End TodoItemTemplate.

Module TodoGroupTemplate.
Record t : Type := {
  group_index : nat;
  title : string;
  items : list TodoItemTemplate.t;
}.
End TodoGroupTemplate.

(** ** Small JavaScript idioms *)

(** [ToBoolean(v)] *)
Definition truthy (v : jsv) : bool :=
  match v with
  | JUndefined | JNull => false
  | JBool b => b
  | JNum x => negb ((x =? 0)%float || is_nan x)
  | JStr s => negb (String.eqb s "")
  | JArr _ | JObj _ => true
  end.

(** [a || b] *)
Definition or_else (a b : jsv) : jsv := if truthy a then a else b.

(** [typeof v === "string" ? v : d] *)
Definition string_or (v : jsv) (d : string) : string :=
  match v with JStr s => s | _ => d end.

(** [Array.isArray(v) ? v : []] *)
Definition array_or_empty (v : jsv) : list jsv :=
  match v with JArr xs => xs | _ => [] end.

(** [const rec: any = v && typeof v === "object" ? v : {}] *)
Definition as_record (v : jsv) : jsv :=
  if truthy v && typeof_object v then v else JObj [].

(** Running a list of computations in order, up to the first throw. *)
Definition js_sequence {A} (l : list (js A)) : js (list A) := js_map id l.

(** [groups.length === 1 && groups[0]?.title.trim() !== "" ? groups[0].title : fallback] *)
Definition section_title {G} (title : G -> string) (groups : list G) (fallback : string)
  : string :=
  match groups with
  | [g] => if negb (String.eqb (trim (title g)) "") then title g else fallback
  | _ => fallback
  end.

(** The legacy todo pattern ([exec] of the regular expression on [s]):
    optional white space, an opening bracket, one of space, x, X, a closing
    bracket, at least one white-space character, and the rest of the string
    as the text.  The result is the mark and the text. *)
Definition todo_item_match (s : string) : option (ascii * string) :=
  match trimStart s with
  | String "["%char (String c (String "]"%char rest)) =>
      if Ascii.eqb c " " || Ascii.eqb c "x" || Ascii.eqb c "X" then
        match white_space rest with
        | Some _ => Some (c, trimStart rest)
        | None => None
        end
      else None
  | _ => None
  end.

(** ** The specialised extractors *)

Module SubagentGroups.
Record t : Type := {
  turn_kind : jsv;
  turn_kind_label : string;
  subagent_section_title : string;
  subagent_groups : list SubagentGroupTemplate.t;
  skip_block_indexes : gset nat;
}.
End SubagentGroups.

Module BackgroundTasks.
Record t : Type := {
  background_tasks_section_title : string;
  background_task_groups : list BackgroundTasksGroupTemplate.t;
  skip_block_indexes : gset nat;
}.
End BackgroundTasks.

Module PlanBlocks.
Record t : Type := {
  plan_section_title : string;
  plan_groups : list PlanGroupTemplate.t;
  skip_block_indexes : gset nat;
}.
End PlanBlocks.

Module TodoBlocks.
Record t : Type := {
  todo_section_title : string;
  todo_groups : list TodoGroupTemplate.t;
  skip_block_indexes : gset nat;
}.
End TodoBlocks.

Section Extractors.
Context `{Host}.

(** [Array.isArray(extra_data.turn?.blocks) ? extra_data.turn?.blocks : []];
    the read of [extra_data.turn] throws on [null] and [undefined]. *)
Definition turn_blocks_of (extra_data : jsv) : js (list jsv) :=
  turn ← member extra_data "turn";
  Normal (array_or_empty (opt_get turn "blocks")).

(** *** Subagent groups *)

Definition normalize_agent (agent : Subagent.t) : SubagentTemplate.t :=
  let '(status, label) := normalize_subagent_status (default "" (Subagent.status agent)) in
  let type := default "" (trim <$> Subagent.type agent) in
  let meta_parts :=
    ((match Subagent.toolCount agent with
      | Some n => [(num n ++ " tool" ++ (if (n =? 1)%float then "" else "s"))%string]
      | None => []
      end) ++
     (match Subagent.totalTokens agent with
      | Some n => let tok := format_tokens n in
                  if negb (String.eqb tok "") then [tok] else []
      | None => []
      end) ++
     (match Subagent.durationMs agent with
      | Some n => let dur := format_duration_ms n in
                  if negb (String.eqb dur "") then [dur] else []
      | None => []
      end) ++
     (match Subagent.model agent with
      | Some m => if negb (String.eqb (trim m) "") then [trim m] else []
      | None => []
      end))%list in
  {| SubagentTemplate.type := if negb (String.eqb type "") then type else "subagent";
     SubagentTemplate.description := default "" (Subagent.description agent);
     SubagentTemplate.status := status;
     SubagentTemplate.status_label := label;
     SubagentTemplate.meta_line := join " · " meta_parts;
     SubagentTemplate.agentURL := default "" (Subagent.agentURL agent);
     SubagentTemplate.error := default "" (Subagent.error agent) |}.

(** The body of the loop on one block: the group it pushes, if any. *)
Definition subagent_group_of_block (block : jsv) : option SubagentGroupTemplate.t :=
  match sp_ai_subagent_group_block_schema block with
  | None => None
  | Some data =>
      let agents := default [] (SubagentGroupBlock.agents data) in
      let fallback_text := default "" (SubagentGroupBlock.text data) in
      if (length agents =? 0)%nat && String.eqb fallback_text "" then None
      else
        Some {| SubagentGroupTemplate.title := default "" (SubagentGroupBlock.title data);
                SubagentGroupTemplate.agents := map normalize_agent agents;
                SubagentGroupTemplate.fallback_text := fallback_text |}
  end.

(** [for (const [index, block] of blocks.entries())], from [index] on. *)
Fixpoint subagent_groups_loop (index : nat) (blocks : list jsv)
  : list SubagentGroupTemplate.t * gset nat :=
  match blocks with
  | [] => ([], ∅)
  | block :: rest =>
      match subagent_group_of_block block with
      | None => subagent_groups_loop (S index) rest
      | Some group =>
          let '(groups, skip) := subagent_groups_loop (S index) rest in
          (group :: groups, {[index]} ∪ skip)
      end
  end.

Definition normalize_subagent_groups (extra_data : jsv) : js SubagentGroups.t :=
  turn ← member extra_data "turn";
  let turn_kind := opt_get turn "kind" ?? JStr "" in
  let turn_kind_label :=
    match turn_kind with
    | JStr "" => ""
    | _ => default_title_for_turn_kind turn_kind
    end in
  let blocks := array_or_empty (opt_get turn "blocks") in
  let '(subagent_groups, skip_block_indexes) := subagent_groups_loop 0 blocks in
  Normal
    {| SubagentGroups.turn_kind := turn_kind;
       SubagentGroups.turn_kind_label := turn_kind_label;
       SubagentGroups.subagent_section_title :=
         section_title SubagentGroupTemplate.title subagent_groups "Subagents";
       SubagentGroups.subagent_groups := subagent_groups;
       SubagentGroups.skip_block_indexes := skip_block_indexes |}.

(** *** Background tasks *)

Definition background_task_template (task_index : nat) (task : jsv)
  : BackgroundTaskTemplate.t :=
  let rec := as_record task in
  let command := string_or (get rec "command") "" in
  let description := string_or (get rec "description") "" in
  let error := string_or (get rec "error") "" in
  let output_preview := string_or (get rec "outputPreview") "" in
  let has_output_preview := negb (String.eqb output_preview "") in
  let '(status, label) :=
    normalize_background_task_status (string_or (get rec "status") "") in
  let meta_parts :=
    ((match get rec "runtimeSec" with
      | JNum runtimeSec => let rt := format_runtime_sec runtimeSec in
                           if negb (String.eqb rt "") then [rt] else []
      | _ => []
      end) ++
     (match get rec "exitCode" with
      | JNum exitCode => if Number_isFinite exitCode then [("exit " ++ num exitCode)%string] else []
      | _ => []
      end))%list in
  {| BackgroundTaskTemplate.task_index := task_index;
     BackgroundTaskTemplate.description := description;
     BackgroundTaskTemplate.command := command;
     BackgroundTaskTemplate.status := status;
     BackgroundTaskTemplate.status_label := label;
     BackgroundTaskTemplate.meta_line := join " · " meta_parts;
     BackgroundTaskTemplate.has_output_preview := has_output_preview;
     BackgroundTaskTemplate.output_preview := output_preview;
     BackgroundTaskTemplate.error := error |}.

(** The predicate of the [filter] over the mapped tasks. *)
Definition background_task_is_shown (task : BackgroundTaskTemplate.t) : bool :=
  negb (String.eqb (BackgroundTaskTemplate.command task) "")
  || negb (String.eqb (BackgroundTaskTemplate.description task) "")
  || BackgroundTaskTemplate.has_output_preview task
  || negb (String.eqb (BackgroundTaskTemplate.error task) "").

Definition background_group_of_block (group_index : nat) (block : jsv)
  : option BackgroundTasksGroupTemplate.t :=
  match sp_ai_background_tasks_block_schema block with
  | None => None
  | Some data =>
      let raw_tasks := default [] (BackgroundTasksBlock.tasks data) in
      if (length raw_tasks =? 0)%nat then None
      else
        let tasks :=
          List.filter background_task_is_shown (imap background_task_template raw_tasks) in
        if (length tasks =? 0)%nat then None
        else
          Some {| BackgroundTasksGroupTemplate.group_index := group_index;
                  BackgroundTasksGroupTemplate.title :=
                    default "" (BackgroundTasksBlock.title data);
                  BackgroundTasksGroupTemplate.tasks := tasks |}
  end.

Fixpoint background_groups_loop (index group_index : nat) (blocks : list jsv)
  : list BackgroundTasksGroupTemplate.t * gset nat :=
  match blocks with
  | [] => ([], ∅)
  | block :: rest =>
      match background_group_of_block group_index block with
      | None => background_groups_loop (S index) group_index rest
      | Some group =>
          let '(groups, skip) := background_groups_loop (S index) (S group_index) rest in
          (group :: groups, {[index]} ∪ skip)
      end
  end.

Definition normalize_background_tasks (extra_data : jsv) : js BackgroundTasks.t :=
  blocks ← turn_blocks_of extra_data;
  let '(background_task_groups, skip_block_indexes) :=
    background_groups_loop 0 0 blocks in
  Normal
    {| BackgroundTasks.background_tasks_section_title :=
         section_title BackgroundTasksGroupTemplate.title background_task_groups
           "Background tasks";
       BackgroundTasks.background_task_groups := background_task_groups;
       BackgroundTasks.skip_block_indexes := skip_block_indexes |}.
End Extractors.

Section PlanAndTodo.
Context `{Host}.

(** *** Plan blocks *)

(** The callback of [raw_steps.map] in the v2 branch: [None] is the [null]
    that the following [filter(Boolean)] removes. *)
Definition plan_step_of_row (step_index : nat) (row : PlanV2.row)
  : js (option PlanStepTemplate.t) :=
  step_text ← ToString (PlanV2.step row ?? JStr "");
  let step := trim step_text in
  status_text ← ToString (PlanV2.status row ?? JStr "");
  let '(status, label) := normalize_plan_step_status status_text in
  Normal
    (if String.eqb step "" then None
     else Some {| PlanStepTemplate.step_index := step_index;
                  PlanStepTemplate.step := step;
                  PlanStepTemplate.status := status;
                  PlanStepTemplate.status_label := label |}).

Definition plan_group_of_block (group_index : nat) (block : jsv)
  : js (option PlanGroupTemplate.t) :=
  match sp_ai_plan_v2_block_schema block with
  | Some data =>
      (* v2 structured block *)
      let raw_steps := default [] (PlanV2.steps data) in
      if (length raw_steps =? 0)%nat then Normal None
      else
        rows ← js_sequence (imap plan_step_of_row raw_steps);
        let steps := omap id rows in
        if (length steps =? 0)%nat then Normal None
        else
          Normal (Some {| PlanGroupTemplate.group_index := group_index;
                          PlanGroupTemplate.title := default "" (PlanV2.title data);
                          PlanGroupTemplate.steps := steps |})
  | None =>
      (* Legacy plan list: {kind:"plan", items:["..."]} *)
      let rec := as_record block in
      kind ← ToString (or_else (get rec "kind") (JStr ""));
      if negb (String.eqb kind "plan") then Normal None
      else
        let raw_items := array_or_empty (get rec "items") in
        let items :=
          List.filter (fun s => negb (String.eqb s ""))
            (map (fun x => match x with JStr s => trim s | _ => "" end) raw_items) in
        if (length items =? 0)%nat then Normal None
        else
          let steps :=
            imap (fun step_index step =>
                    {| PlanStepTemplate.step_index := step_index;
                       PlanStepTemplate.step := step;
                       PlanStepTemplate.status := PlanStepStatusClass.unknown;
                       PlanStepTemplate.status_label := "" |}) items in
          Normal (Some {| PlanGroupTemplate.group_index := group_index;
                          PlanGroupTemplate.title := string_or (get rec "title") "";
                          PlanGroupTemplate.steps := steps |})
  end.

Fixpoint plan_groups_loop (index group_index : nat) (blocks : list jsv)
  : js (list PlanGroupTemplate.t * gset nat) :=
  match blocks with
  | [] => Normal ([], ∅)
  | block :: rest =>
      pushed ← plan_group_of_block group_index block;
      match pushed with
      | None => plan_groups_loop (S index) group_index rest
      | Some group =>
          '(groups, skip) ← plan_groups_loop (S index) (S group_index) rest;
          Normal (group :: groups, {[index]} ∪ skip)
      end
  end.

Definition normalize_plan_blocks (extra_data : jsv) : js PlanBlocks.t :=
  blocks ← turn_blocks_of extra_data;
  '(plan_groups, skip_block_indexes) ← plan_groups_loop 0 0 blocks;
  Normal
    {| PlanBlocks.plan_section_title :=
         section_title PlanGroupTemplate.title plan_groups "Plan";
       PlanBlocks.plan_groups := plan_groups;
       PlanBlocks.skip_block_indexes := skip_block_indexes |}.

(** *** Todo blocks *)

Definition todo_item_of_row (item_index : nat) (row : TodoV2.row)
  : js (option TodoItemTemplate.t) :=
  text_raw ← ToString (TodoV2.text row ?? JStr "");
  let text := trim text_raw in
  Normal
    (if String.eqb text "" then None
     else Some {| TodoItemTemplate.item_index := item_index;
                  TodoItemTemplate.text := text;
                  TodoItemTemplate.checked :=
                    match TodoV2.checked row with JBool true => true | _ => false end |}).

(** The body of the inner loop of the legacy branch on one raw item. *)
Definition legacy_todo_item (item_index : nat) (raw : jsv) : option TodoItemTemplate.t :=
  match raw with
  | JStr raw =>
      let s := trim raw in
      match todo_item_match s with
      | None => None
      | Some (mark, rest) =>
          let text := trim rest in
          if String.eqb text "" then None
          else Some {| TodoItemTemplate.item_index := item_index;
                       TodoItemTemplate.text := text;
                       TodoItemTemplate.checked := Ascii.eqb (lower_ascii mark) "x" |}
      end
  | _ => None
  end.

Definition todo_group_of_block (group_index : nat) (block : jsv)
  : js (option TodoGroupTemplate.t) :=
  match sp_ai_todo_v2_block_schema block with
  | Some data =>
      (* v2 structured block *)
      let raw_items := default [] (TodoV2.items data) in
      if (length raw_items =? 0)%nat then Normal None
      else
        rows ← js_sequence (imap todo_item_of_row raw_items);
        let items := omap id rows in
        if (length items =? 0)%nat then Normal None
        else
          Normal (Some {| TodoGroupTemplate.group_index := group_index;
                          TodoGroupTemplate.title := default "" (TodoV2.title data);
                          TodoGroupTemplate.items := items |})
  | None =>
      (* Legacy todo list: {kind:"todo", items:["[x] ...", "[ ] ..."]} *)
      let rec := as_record block in
      kind ← ToString (or_else (get rec "kind") (JStr ""));
      if negb (String.eqb kind "todo") then Normal None
      else
        let raw_items := array_or_empty (get rec "items") in
        let items := omap id (imap legacy_todo_item raw_items) in
        if (length items =? 0)%nat then Normal None
        else
          Normal (Some {| TodoGroupTemplate.group_index := group_index;
                          TodoGroupTemplate.title := string_or (get rec "title") "";
                          TodoGroupTemplate.items := items |})
  end.

Fixpoint todo_groups_loop (index group_index : nat) (blocks : list jsv)
  : js (list TodoGroupTemplate.t * gset nat) :=
  match blocks with
  | [] => Normal ([], ∅)
  | block :: rest =>
      pushed ← todo_group_of_block group_index block;
      match pushed with
      | None => todo_groups_loop (S index) group_index rest
      | Some group =>
          '(groups, skip) ← todo_groups_loop (S index) (S group_index) rest;
          Normal (group :: groups, {[index]} ∪ skip)
      end
  end.

Definition normalize_todo_blocks (extra_data : jsv) : js TodoBlocks.t :=
  blocks ← turn_blocks_of extra_data;
  '(todo_groups, skip_block_indexes) ← todo_groups_loop 0 0 blocks;
  Normal
    {| TodoBlocks.todo_section_title :=
         section_title TodoGroupTemplate.title todo_groups "Todo";
       TodoBlocks.todo_groups := todo_groups;
       TodoBlocks.skip_block_indexes := skip_block_indexes |}.
End PlanAndTodo.

(** ** Generic blocks *)

Module Block.
(** One entry of [WidgetState["blocks"]].  [S] is the type of its texts:
    [option string] while the state is a candidate, where [None] is
    [undefined], and [string] once [widget_state_schema] has accepted it. *)
Record t (S : Type) : Type := {
  index : nat;
  kind : string;
  label : string;
  title : string;
  text : S;
  language : string;
  channel : Channel.t;
  columns : list S;
  rows : list (list S);
  has_columns : bool;
  copy_text : S;
  is_table : bool;
  is_stream : bool;
  is_unknown : bool;
  is_context_usage : bool;
  has_context_usage_percent : bool;
  context_usage_percent : float;
  has_list_items : bool;
  list_items : list S;
  is_file_tree : bool;
}.
Arguments index {S}.
Arguments kind {S}.
Arguments label {S}.
Arguments title {S}.
Arguments text {S}.
Arguments language {S}.
Arguments channel {S}.
Arguments columns {S}.
Arguments rows {S}.
Arguments has_columns {S}.
Arguments copy_text {S}.
Arguments is_table {S}.
Arguments is_stream {S}.
Arguments is_unknown {S}.
Arguments is_context_usage {S}.
Arguments has_context_usage_percent {S}.
Arguments context_usage_percent {S}.
Arguments has_list_items {S}.
Arguments list_items {S}.
Arguments is_file_tree {S}.
End Block.

Definition LF : string := String (ascii_of_nat 10) EmptyString.

Definition startsWith (s p : string) : bool := String.prefix p s.

Fixpoint endsWith_char (s : string) (c : ascii) : bool :=
  match s with
  | EmptyString => false
  | String d EmptyString => Ascii.eqb d c
  | String _ rest => endsWith_char rest c
  end.

Definition Math_min (a b : float) : float :=
  if is_nan a || is_nan b then nan else if (a <? b)%float then a else b.

Definition Math_max (a b : float) : float :=
  if is_nan a || is_nan b then nan else if (a <? b)%float then b else a.

Definition block_label (kind : string) (channel : Channel.t) : string :=
  if String.eqb kind "markdown" then "Markdown"
  else if String.eqb kind "text" then "Text"
  else if String.eqb kind "code" then "Code"
  else if String.eqb kind "diff" then "Diff"
  else if String.eqb kind "json" then "JSON"
  else if String.eqb kind "table" then "Table"
  else if String.eqb kind "context_usage" then "Context usage"
  else if String.eqb kind "file_tree" then "File tree"
  else if String.eqb kind "memory_blocks" then "Memory blocks"
  else if String.eqb kind "subagent_group" then "Subagent group"
  else if String.eqb kind "background_tasks" || String.eqb kind "bash_tasks"
  then "Background tasks"
  else if String.eqb kind "queue" then "Queue"
  else if String.eqb kind "plan" then "Plan"
  else if String.eqb kind "todo" then "Todo"
  else if String.eqb kind "stream"
          && match channel with Channel.stderr => true | _ => false end
  then "Stderr"
  else if String.eqb kind "stream" then "Stdout"
  else "Block".

(** A text that may be [undefined], back as a value. *)
Definition text_value (t : option string) : jsv :=
  match t with Some s => JStr s | None => JUndefined end.

(** [items.join("\n")]: an [undefined] item joins as the empty string. *)
Definition join_lines (items : list (option string)) : string :=
  join LF (map (default "") items).

Section TurnBlocks.
Context `{Host}.

(** [stringify_unknown(value)].  [JSON.stringify] answers [undefined] for
    [undefined], and never throws on a value made of parsed JSON, so the
    [catch] branch is not reached. *)
Definition stringify_unknown (value : jsv) : option string :=
  match value with
  | JStr s => Some s
  | JUndefined => None
  | _ => Some (JSON_stringify value)
  end.

Definition try_pretty_json (text : string) : option string :=
  let trimmed := trim text in
  if String.eqb trimmed "" then None
  else
    let looks_like_json :=
      (startsWith trimmed "{" && endsWith_char trimmed "}")
      || (startsWith trimmed "[" && endsWith_char trimmed "]") in
    if negb looks_like_json then None
    else
      match JSON_parse trimmed with
      | Some parsed => Some (JSON_stringify parsed)
      | None => None
      end.

(** [push_generic_block(data)] for the block at [index]. *)
Definition generic_block (index : nat) (kind title : string)
    (text : option string) (language : string) (channel : Channel.t)
    (is_unknown : bool) (list_items : list (option string))
    (has_context_usage_percent : bool) (context_usage_percent : float)
  : Block.t (option string) :=
  {| Block.index := index;
     Block.kind := kind;
     Block.label := block_label kind channel;
     Block.title := title;
     Block.text := text;
     Block.language := language;
     Block.channel := channel;
     Block.columns := [];
     Block.rows := [];
     Block.has_columns := false;
     Block.copy_text := text;
     Block.is_table := false;
     Block.is_stream :=
       String.eqb kind "stream"
       && match channel with Channel.none => false | _ => true end;
     Block.is_unknown := is_unknown;
     Block.is_context_usage := String.eqb kind "context_usage";
     Block.has_context_usage_percent := has_context_usage_percent;
     Block.context_usage_percent := context_usage_percent;
     Block.has_list_items := negb (length list_items =? 0)%nat;
     Block.list_items := list_items;
     Block.is_file_tree := String.eqb kind "file_tree" |}.

Definition table_block (index : nat) (kind title : string) (block : jsv)
  : Block.t (option string) :=
  let columns :=
    match get block "columns" with
    | JArr values => map stringify_unknown values
    | _ => []
    end in
  let rows :=
    match get block "rows" with
    | JArr rs =>
        map (fun row =>
               match row with
               | JArr values => map stringify_unknown values
               | _ => [stringify_unknown row]
               end) rs
    | _ => []
    end in
  {| Block.index := index;
     Block.kind := kind;
     Block.label := block_label kind Channel.none;
     Block.title := title;
     Block.text := Some "";
     Block.language := "";
     Block.channel := Channel.none;
     Block.columns := columns;
     Block.rows := rows;
     Block.has_columns := negb (length columns =? 0)%nat;
     Block.copy_text :=
       stringify_unknown
         (JObj [("columns", JArr (map text_value columns));
                ("rows", JArr (map (fun row => JArr (map text_value row)) rows))]);
     Block.is_table := true;
     Block.is_stream := false;
     Block.is_unknown := false;
     Block.is_context_usage := false;
     Block.has_context_usage_percent := false;
     Block.context_usage_percent := 0;
     Block.has_list_items := false;
     Block.list_items := [];
     Block.is_file_tree := false |}.

(** One item of a [memory_blocks] summary list. *)
Definition memory_block_item (item : jsv) : option string :=
  if negb (truthy item) || negb (typeof_object item) then stringify_unknown item
  else
    let label := string_or (get item "label") "(block)" in
    let chars :=
      match get item "chars" with
      | JNum n => " (" ++ num n ++ " chars)"
      | _ => ""
      end in
    Some (label ++ chars).

(** The body of the loop of [normalize_turn_blocks] on an entry that is a
    non-null object and is not skipped: the block it pushes. *)
Definition turn_block (index : nat) (block : jsv) : Block.t (option string) :=
  let kind := string_or (get block "kind") "unknown" in
  let title := string_or (get block "title") "" in
  if String.eqb kind "table" then table_block index kind title block
  else
    let channel :=
      if String.eqb kind "stream" then
        match get block "channel" with
        | JStr c =>
            if String.eqb c "stdout" then Channel.stdout
            else if String.eqb c "stderr" then Channel.stderr
            else Channel.none
        | _ => Channel.none
        end
      else Channel.none in
    let has_channel := match channel with Channel.none => false | _ => true end in
    let push := generic_block index kind title in
    if String.eqb kind "markdown" || String.eqb kind "text"
       || (String.eqb kind "stream" && has_channel)
    then push (stringify_unknown (get block "text")) "" channel false [] false 0%float
    else if String.eqb kind "code" then
      let text := stringify_unknown (get block "code") in
      let language := string_or (get block "language") "" in
      let text :=
        if String.eqb language "json" then
          match text ≫= try_pretty_json with
          | Some pretty => Some pretty
          | None => text
          end
        else text in
      push text language channel false [] false 0%float
    else if String.eqb kind "diff" then
      push (stringify_unknown (get block "diff"))
           (string_or (get block "language") "diff") channel false [] false 0%float
    else if String.eqb kind "json" then
      let text :=
        match get block "text" with
        | JStr text => Some (default text (try_pretty_json text))
        | _ =>
            if hasOwn block "json" then stringify_unknown (get block "json")
            else stringify_unknown block
        end in
      push text "json" channel false [] false 0%float
    else if String.eqb kind "context_usage" then
      let unit := string_or (get block "unit") "tokens" in
      let breakdown := array_or_empty (get block "breakdown") in
      let list_items := map stringify_unknown breakdown in
      match get block "used", get block "limit" with
      | JNum used, JNum limit =>
          if Number_isFinite used && Number_isFinite limit && (0 <? limit)%float
          then
            push (Some (num used ++ "/" ++ num limit ++ " " ++ unit)) "" channel false
                 list_items true
                 (Math_max 0 (Math_min 100 (used / limit * 100)))%float
          else
            push (match get block "text" with
                  | JStr text => Some text
                  | _ => stringify_unknown block
                  end) "" channel false list_items false 0%float
      | _, _ =>
          push (match get block "text" with
                | JStr text => Some text
                | _ => stringify_unknown block
                end) "" channel false list_items false 0%float
      end
    else if String.eqb kind "file_tree" then
      match get block "entries" with
      | JArr entries =>
          let list_items := map stringify_unknown entries in
          push (Some (join_lines list_items)) "" channel false list_items false 0%float
      | _ =>
          push (match get block "tree" with
                | JStr tree => Some tree
                | _ => stringify_unknown (get block "entries" ?? get block "tree" ?? block)
                end) "" channel false [] false 0%float
      end
    else if String.eqb kind "memory_blocks" then
      match get block "blocks" with
      | JArr items =>
          let list_items := map memory_block_item items in
          push (Some (join_lines list_items)) "" channel false list_items false 0%float
      | _ =>
          push (match get block "text" with
                | JStr text => Some text
                | _ => stringify_unknown (get block "blocks" ?? block)
                end) "" channel false [] false 0%float
      end
    else if String.eqb kind "subagent_group" || String.eqb kind "queue"
            || String.eqb kind "plan" || String.eqb kind "todo" then
      let raw_items :=
        match get block "items" with
        | JArr items => Some items
        | _ => match get block "rows" with JArr rows => Some rows | _ => None end
        end in
      match raw_items with
      | Some raw_items =>
          let list_items := map stringify_unknown raw_items in
          push (Some (join_lines list_items)) "" channel false list_items false 0%float
      | None =>
          push (match get block "text" with
                | JStr text => Some text
                | _ => stringify_unknown block
                end) "" channel false [] false 0%float
      end
    else push (stringify_unknown block) "" channel true [] false 0%float.

(** [for (const [index, raw] of raw_blocks.entries())], from [index] on. *)
Fixpoint turn_blocks_loop (index : nat) (raw_blocks : list jsv) (skip : gset nat)
  : list (Block.t (option string)) :=
  match raw_blocks with
  | [] => []
  | raw :: rest =>
      if bool_decide (index ∈ skip) then turn_blocks_loop (S index) rest skip
      else if negb (truthy raw) || negb (typeof_object raw)
      then turn_blocks_loop (S index) rest skip
      else turn_block index raw :: turn_blocks_loop (S index) rest skip
  end.

(** [normalize_turn_blocks(raw_blocks, {skip_block_indexes})]; an absent
    option is the empty set. *)
Definition normalize_turn_blocks (raw_blocks : jsv) (skip_block_indexes : gset nat)
  : list (Block.t (option string)) :=
  match raw_blocks with
  | JArr raw_blocks => turn_blocks_loop 0 raw_blocks skip_block_indexes
  | _ => []
  end.
End TurnBlocks.

(** ** The widget state *)

Module Parallel.
Record t : Type := {
  groupId : string;
  index : float;
  count : float;
  hasPrev : bool;
  hasNext : bool;
}.
End Parallel.

Module Candidate.
(** The object handed to [widget_state_schema.safeParse]: the properties
    read from the payload are still untyped. *)
Record t : Type := {
  version : jsv;
  display : jsv;
  kind : Kind.t;
  title : jsv;
  caption : jsv;
  status : Status.t;
  tool : jsv;
  input : jsv;
  output : jsv;
  blocks : list (Block.t (option string));
  parallel : option Parallel.t;
}.
End Candidate.

Module WidgetBaseState.
Record t : Type := {
  version : float;
  display : Display.t;
  kind : Kind.t;
  title : string;
  caption : string;
  status : Status.t;
  tool : string;
  input : string;
  output : string;
  blocks : list (Block.t string);
  parallel : option Parallel.t;
}.
End WidgetBaseState.

Record WidgetState : Type := {
  version : float;
  display : Display.t;
  kind : Kind.t;
  title : string;
  caption : string;
  status : Status.t;
  tool : string;
  input : string;
  output : string;
  blocks : list (Block.t string);
  parallel : option Parallel.t;
  turn_kind : jsv;
  turn_kind_label : string;
  has_subagent_groups : bool;
  subagent_section_title : string;
  subagent_groups : list SubagentGroupTemplate.t;
  has_background_tasks : bool;
  background_tasks_section_title : string;
  background_task_groups : list BackgroundTasksGroupTemplate.t;
  has_plan_blocks : bool;
  plan_section_title : string;
  plan_groups : list PlanGroupTemplate.t;
  has_todo_blocks : bool;
  todo_section_title : string;
  todo_groups : list TodoGroupTemplate.t;
}.

(** *** [widget_state_schema] *)

Definition z_string (v : jsv) : option string :=
  match v with JStr s => Some s | _ => None end.

Definition z_display (v : jsv) : option Display.t :=
  match v with JStr s => Display.of_string s | _ => None end.

Definition z_finite (x : float) : option float :=
  if Number_isFinite x then Some x else None.

(** The element schema of [blocks]: every text has to be a string. *)
Definition block_schema (b : Block.t (option string)) : option (Block.t string) :=
  text ← Block.text b;
  columns ← mapM id (Block.columns b);
  rows ← mapM (mapM id) (Block.rows b);
  copy_text ← Block.copy_text b;
  context_usage_percent ← z_finite (Block.context_usage_percent b);
  list_items ← mapM id (Block.list_items b);
  Some {| Block.index := Block.index b;
          Block.kind := Block.kind b;
          Block.label := Block.label b;
          Block.title := Block.title b;
          Block.text := text;
          Block.language := Block.language b;
          Block.channel := Block.channel b;
          Block.columns := columns;
          Block.rows := rows;
          Block.has_columns := Block.has_columns b;
          Block.copy_text := copy_text;
          Block.is_table := Block.is_table b;
          Block.is_stream := Block.is_stream b;
          Block.is_unknown := Block.is_unknown b;
          Block.is_context_usage := Block.is_context_usage b;
          Block.has_context_usage_percent := Block.has_context_usage_percent b;
          Block.context_usage_percent := context_usage_percent;
          Block.has_list_items := Block.has_list_items b;
          Block.list_items := list_items;
          Block.is_file_tree := Block.is_file_tree b |}.

Definition parallel_schema (p : Parallel.t) : option Parallel.t :=
  _ ← z_finite (Parallel.index p);
  _ ← z_finite (Parallel.count p);
  Some p.

(** [widget_state_schema.safeParse(candidate)]: [None] when it fails. *)
Definition widget_state_schema (c : Candidate.t) : option WidgetBaseState.t :=
  version ← z_nonnegative_int (Candidate.version c);
  display ← z_display (Candidate.display c);
  title ← z_string (Candidate.title c);
  caption ← z_string (Candidate.caption c);
  tool ← z_string (Candidate.tool c);
  input ← z_string (Candidate.input c);
  output ← z_string (Candidate.output c);
  blocks ← mapM block_schema (Candidate.blocks c);
  parallel ← match Candidate.parallel c with
             | None => Some None
             | Some p => p' ← parallel_schema p; Some (Some p')
             end;
  Some {| WidgetBaseState.version := version;
          WidgetBaseState.display := display;
          WidgetBaseState.kind := Candidate.kind c;
          WidgetBaseState.title := title;
          WidgetBaseState.caption := caption;
          WidgetBaseState.status := Candidate.status c;
          WidgetBaseState.tool := tool;
          WidgetBaseState.input := input;
          WidgetBaseState.output := output;
          WidgetBaseState.blocks := blocks;
          WidgetBaseState.parallel := parallel |}.

(** ** Effects: the log and the painted snapshots *)

Inductive effect : Type :=
| Warn (msg : string)        (* blueslip.warn *)
| Error (msg : string)       (* blueslip.error *)
| Render (state : WidgetState).

Record Eff (A : Type) : Type := mkEff { trace : list effect; completion : js A }.
Arguments mkEff {A} trace completion.
Arguments trace {A} e.
Arguments completion {A} e.

#[global] Instance Eff_ret : MRet Eff := fun A a => mkEff [] (Normal a).
#[global] Instance Eff_bind : MBind Eff := fun A B k m =>
  match completion m with
  | Normal a => let r := k a in mkEff (trace m ++ trace r)%list (completion r)
  | Throw msg => mkEff (trace m) (Throw msg)
  end.

Definition lift {A} (m : js A) : Eff A := mkEff [] m.
Definition emit (e : effect) : Eff unit := mkEff [e] (Normal tt).

(** ** Payload normalization *)

Section Normalize.
Context `{Host}.

(** The immediately-invoked function that computes [parallel]. *)
Definition normalize_parallel (p : jsv) : option Parallel.t :=
  if negb (truthy p) || negb (typeof_object p) then None
  else
    let groupId := string_or (get p "groupId") "" in
    let index := match get p "index" with JNum n => n | _ => 0%float end in
    let count :=
      match get p "count" with
      | JNum n => n
      | _ => Math_max 1 (index + 1)%float
      end in
    let hasPrev :=
      match get p "hasPrev" with JBool b => b | _ => (0 <? index)%float end in
    let hasNext :=
      match get p "hasNext" with JBool b => b | _ => (index <? count - 1)%float end in
    if String.eqb groupId "" then None
    else Some {| Parallel.groupId := groupId; Parallel.index := index;
                 Parallel.count := count; Parallel.hasPrev := hasPrev;
                 Parallel.hasNext := hasNext |}.

(** The argument of [widget_state_schema.safeParse], from [ed], [turn], the
    two raw strings and the union of the skip sets. *)
Definition candidate_state (ed turn : jsv) (kindRaw statusRaw : string)
    (skip_block_indexes : gset nat) : Candidate.t :=
  {| Candidate.version := get ed "version" ?? JNum 2;
     Candidate.display := get ed "display" ?? JStr "card_only";
     Candidate.kind := default Kind.final (Kind.of_string kindRaw);
     Candidate.title := opt_get turn "title" ?? get ed "title" ?? JStr "Agent output";
     Candidate.caption := opt_get turn "subtitle" ?? get ed "caption" ?? JStr "";
     Candidate.status := default Status.running (Status.of_string statusRaw);
     Candidate.tool := opt_get (opt_get turn "tool") "name" ?? get ed "tool" ?? JStr "";
     Candidate.input :=
       opt_get (opt_get turn "tool") "argsText" ?? get ed "input" ?? JStr "";
     Candidate.output := opt_get turn "output" ?? get ed "output" ?? JStr "";
     Candidate.blocks := normalize_turn_blocks (opt_get turn "blocks") skip_block_indexes;
     Candidate.parallel := normalize_parallel (opt_get turn "parallel") |}.

(** Everything [normalize_extra_data] computes before it validates: the
    candidate and the results of the four extractors. *)
Definition prepare (extra_data : jsv)
  : js (Candidate.t * SubagentGroups.t * BackgroundTasks.t * PlanBlocks.t * TodoBlocks.t) :=
  let ed := or_else extra_data (JObj []) in
  (* v2 turn payload, if present. *)
  let turn :=
    if truthy (get ed "turn") && typeof_object (get ed "turn")
    then get ed "turn" else JNull in
  kindRaw ← ToString (or_else (opt_get turn "kind") (JStr ""));
  statusRaw ←
    ToString (or_else (or_else (opt_get turn "status") (get ed "status")) (JStr "running"));
  sub ← normalize_subagent_groups extra_data;
  bg ← normalize_background_tasks extra_data;
  plan ← normalize_plan_blocks extra_data;
  todo ← normalize_todo_blocks extra_data;
  let skip_block_indexes :=
    SubagentGroups.skip_block_indexes sub ∪ BackgroundTasks.skip_block_indexes bg
    ∪ PlanBlocks.skip_block_indexes plan ∪ TodoBlocks.skip_block_indexes todo in
  Normal (candidate_state ed turn kindRaw statusRaw skip_block_indexes, sub, bg, plan, todo).

(** The derived fields, which both [return] statements spell out alike,
    around the base fields [base]. *)
Definition with_groups (base : WidgetBaseState.t) (sub : SubagentGroups.t)
    (bg : BackgroundTasks.t) (plan : PlanBlocks.t) (todo : TodoBlocks.t) : WidgetState :=
  {| version := WidgetBaseState.version base;
     display := WidgetBaseState.display base;
     kind := WidgetBaseState.kind base;
     title := WidgetBaseState.title base;
     caption := WidgetBaseState.caption base;
     status := WidgetBaseState.status base;
     tool := WidgetBaseState.tool base;
     input := WidgetBaseState.input base;
     output := WidgetBaseState.output base;
     blocks := WidgetBaseState.blocks base;
     parallel := WidgetBaseState.parallel base;
     turn_kind := SubagentGroups.turn_kind sub;
     turn_kind_label := SubagentGroups.turn_kind_label sub;
     has_subagent_groups := negb (length (SubagentGroups.subagent_groups sub) =? 0)%nat;
     subagent_section_title := SubagentGroups.subagent_section_title sub;
     subagent_groups := SubagentGroups.subagent_groups sub;
     has_background_tasks :=
       negb (length (BackgroundTasks.background_task_groups bg) =? 0)%nat;
     background_tasks_section_title := BackgroundTasks.background_tasks_section_title bg;
     background_task_groups := BackgroundTasks.background_task_groups bg;
     has_plan_blocks := negb (length (PlanBlocks.plan_groups plan) =? 0)%nat;
     plan_section_title := PlanBlocks.plan_section_title plan;
     plan_groups := PlanBlocks.plan_groups plan;
     has_todo_blocks := negb (length (TodoBlocks.todo_groups todo) =? 0)%nat;
     todo_section_title := TodoBlocks.todo_section_title todo;
     todo_groups := TodoBlocks.todo_groups todo |}.

(** The base fields of the second [return] statement. *)
Definition fallback_base : WidgetBaseState.t :=
  {| WidgetBaseState.version := 2;
     WidgetBaseState.display := Display.card_only;
     WidgetBaseState.kind := Kind.final;
     WidgetBaseState.title := "Agent output";
     WidgetBaseState.caption := "";
     WidgetBaseState.status := Status.running;
     WidgetBaseState.tool := "";
     WidgetBaseState.input := "";
     WidgetBaseState.output := "";
     WidgetBaseState.blocks := [];
     WidgetBaseState.parallel := None |}.

Definition normalize_extra_data (extra_data : jsv) : Eff WidgetState :=
  '(candidate, sub, bg, plan, todo) ← lift (prepare extra_data);
  match widget_state_schema candidate with
  | Some data => mret (with_groups data sub bg plan todo)
  | None =>
      emit (Warn "sp_ai widget: invalid extra_data");;
      mret (with_groups fallback_base sub bg plan todo)
  end.
End Normalize.

(** ** Inbound events *)

Inductive SpAiWidgetInboundEvent : Type :=
| set_extra_data (extra_data : jsv)
| set_status (status : Status.t)
| set_output (output : string)
| append_output (chunk : string).

Definition z_status (v : jsv) : option Status.t :=
  match v with JStr s => Status.of_string s | _ => None end.

(** [sp_ai_widget_inbound_event_schema.safeParse(data)]: a discriminated
    union on [type].  [extra_data] is [z.unknown()], which accepts every
    value, a missing one included. *)
Definition sp_ai_widget_inbound_event_schema (data : jsv) : option SpAiWidgetInboundEvent :=
  if is_plain_object data then
    match get data "type" with
    | JStr type =>
        if String.eqb type "set_extra_data" then Some (set_extra_data (get data "extra_data"))
        else if String.eqb type "set_status" then set_status <$> z_status (get data "status")
        else if String.eqb type "set_output" then set_output <$> z_string (get data "output")
        else if String.eqb type "append_output" then append_output <$> z_string (get data "chunk")
        else None
    | _ => None
    end
  else None.

(** An entry of the host's event list; only [data] is read. *)
Record Event : Type := { data : jsv }.

Record AnyWidgetData : Type := { widget_type : string; extra_data : jsv }.

Definition with_status (state : WidgetState) (s : Status.t) : WidgetState :=
  {| version := version state; display := display state; kind := kind state;
     title := title state; caption := caption state; status := s;
     tool := tool state; input := input state; output := output state;
     blocks := blocks state; parallel := parallel state;
     turn_kind := turn_kind state; turn_kind_label := turn_kind_label state;
     has_subagent_groups := has_subagent_groups state;
     subagent_section_title := subagent_section_title state;
     subagent_groups := subagent_groups state;
     has_background_tasks := has_background_tasks state;
     background_tasks_section_title := background_tasks_section_title state;
     background_task_groups := background_task_groups state;
     has_plan_blocks := has_plan_blocks state;
     plan_section_title := plan_section_title state;
     plan_groups := plan_groups state;
     has_todo_blocks := has_todo_blocks state;
     todo_section_title := todo_section_title state;
     todo_groups := todo_groups state |}.

Definition with_output (state : WidgetState) (o : string) : WidgetState :=
  {| version := version state; display := display state; kind := kind state;
     title := title state; caption := caption state; status := status state;
     tool := tool state; input := input state; output := o;
     blocks := blocks state; parallel := parallel state;
     turn_kind := turn_kind state; turn_kind_label := turn_kind_label state;
     has_subagent_groups := has_subagent_groups state;
     subagent_section_title := subagent_section_title state;
     subagent_groups := subagent_groups state;
     has_background_tasks := has_background_tasks state;
     background_tasks_section_title := background_tasks_section_title state;
     background_task_groups := background_task_groups state;
     has_plan_blocks := has_plan_blocks state;
     plan_section_title := plan_section_title state;
     plan_groups := plan_groups state;
     has_todo_blocks := has_todo_blocks state;
     todo_section_title := todo_section_title state;
     todo_groups := todo_groups state |}.

(** The closure that [activate] returns: either the no-op of the [null]
    branch, or [handle_events] over the [state] variable it captured. *)
Inductive handler : Type :=
| noop
| handle_events_over (state : WidgetState).

(** What one call of a handler leaves behind: the handler with its state
    variable as the call left it, the effects in order, and the exception
    that ended the call, if one did. *)
Record outcome : Type := {
  next : handler;
  effects : list effect;
  thrown : option string;
}.

Section Reducer.
Context `{Host}.

(** [apply_inbound_event(evt)], as a function of the state variable: the
    value it assigns to it. *)
Definition apply_inbound_event (state : WidgetState) (evt : SpAiWidgetInboundEvent)
  : Eff WidgetState :=
  match evt with
  | set_extra_data extra => normalize_extra_data extra
  | set_status s => mret (with_status state s)
  | set_output o => mret (with_output state o)
  | append_output chunk =>
      let next_output :=
        if String.eqb (output state) "" then chunk else output state ++ chunk in
      mret (with_output state next_output)
  end.

(** The [for] loop of [handle_events], then [render()]. *)
Fixpoint handle_events (state : WidgetState) (events : list Event) : outcome :=
  match events with
  | [] =>
      {| next := handle_events_over state; effects := [Render state]; thrown := None |}
  | event :: rest =>
      match sp_ai_widget_inbound_event_schema (data event) with
      | None =>
          (* Ignore unknown/invalid events; don't crash the message list. *)
          handle_events state rest
      | Some evt =>
          let r := apply_inbound_event state evt in
          match completion r with
          | Normal state' =>
              let o := handle_events state' rest in
              {| next := next o; effects := (trace r ++ effects o)%list;
                 thrown := thrown o |}
          | Throw msg =>
              {| next := handle_events_over state; effects := trace r;
                 thrown := Some msg |}
          end
      end
  end.

(** Calling the function that [activate] returned. *)
Definition call (h : handler) (events : list Event) : outcome :=
  match h with
  | noop => {| next := noop; effects := []; thrown := None |}
  | handle_events_over state => handle_events state events
  end.

Definition activate (any_data : AnyWidgetData) : Eff handler :=
  if negb (String.eqb (widget_type any_data) "sp_ai")
  then lift (Throw "AssertionError: Assertion failed")
  else
    match extra_data any_data with
    | JNull =>
        emit (Error "sp_ai widget: invalid extra_data");;
        mret noop
    | extra =>
        state ← normalize_extra_data extra;
        emit (Render state);;
        mret (handle_events_over state)
    end.
End Reducer.

(** ** A host for the closed examples *)

(** Modelled from the spec: [sp_ai_plan_v2_block_schema], which
    [sp_ai_widget.ts] imports and [sp_ai_data.ts] does not declare.  The spec
    gives a plan block ordered [steps: {step, status}]; the model follows the
    sibling block schemas: the literal kind, an optional string title, and an
    optional array of rows whose [step] and [status] are optional strings. *)
Definition plan_v2_block_schema_model (v : jsv) : option PlanV2.t :=
  if is_plain_object v && z_literal "plan" (get v "kind") then
    title ← z_optional_string (get v "title");
    steps ← z_optional
              (z_array (fun row =>
                 if is_plain_object row then
                   _ ← z_optional_string (get row "step");
                   _ ← z_optional_string (get row "status");
                   Some {| PlanV2.step := get row "step"; PlanV2.status := get row "status" |}
                 else None)) (get v "steps");
    Some {| PlanV2.title := title; PlanV2.steps := steps |}
  else None.

(** Modelled from the spec: [sp_ai_todo_v2_block_schema], missing in the same
    way.  The spec gives a todo block ordered [items: {text, checked}]; the
    model takes an optional string [text] and an optional boolean [checked]. *)
Definition todo_v2_block_schema_model (v : jsv) : option TodoV2.t :=
  if is_plain_object v && z_literal "todo" (get v "kind") then
    title ← z_optional_string (get v "title");
    items ← z_optional
              (z_array (fun row =>
                 if is_plain_object row then
                   _ ← z_optional_string (get row "text");
                   _ ← z_optional_boolean (get row "checked");
                   Some {| TodoV2.text := get row "text"; TodoV2.checked := get row "checked" |}
                 else None)) (get v "items");
    Some {| TodoV2.title := title; TodoV2.items := items |}
  else None.

(** The builtins are stand-ins with a fixed answer: the examples below are
    chosen so that none of them is reached. *)
Definition sample_host : Host :=
  {| Number_digits := fun _ => "<number>";
     String_toLowerCase := fun _ => "<lower>";
     JSON_stringify := fun _ => "<json>";
     JSON_parse := fun _ => None;
     sp_ai_plan_v2_block_schema := plan_v2_block_schema_model;
     sp_ai_todo_v2_block_schema := todo_v2_block_schema_model |}.

(** ** The creation-payload schema of [sp_ai_data.ts]

    [safeParse(v).success] of the schemas that type the payload [activate]
    receives ([any_widget_data_schema] validates it upstream). *)

Definition is_some {A} (o : option A) : bool :=
  match o with Some _ => true | None => false end.

Definition sp_ai_turn_tool_schema (v : jsv) : bool :=
  is_plain_object v
  && is_some (z_string (get v "name"))
  && is_some (z_optional_string (get v "callId"))
  && is_some (z_optional_string (get v "stepId"))
  && is_some (z_optional_string (get v "lettaRunId"))
  && is_some (z_optional_string (get v "argsText")).

Definition sp_ai_turn_parallel_schema (v : jsv) : bool :=
  is_plain_object v
  && is_some (z_string (get v "groupId"))
  && is_some (z_optional z_number (get v "index"))
  && is_some (z_optional z_number (get v "count"))
  && is_some (z_optional_boolean (get v "hasPrev"))
  && is_some (z_optional_boolean (get v "hasNext")).

(** One member of [sp_ai_known_turn_block_schema] that is declared in
    place: a catch-all object with a literal [kind], an optional string
    [title], and the checks [fields] on its other declared keys. *)
Definition known_block (kind : string) (fields : jsv -> bool) (v : jsv) : bool :=
  is_plain_object v
  && z_literal kind (get v "kind")
  && is_some (z_optional_string (get v "title"))
  && fields v.

(** [z.array(z.array(z.string()))] *)
Definition z_string_rows (v : jsv) : option (list (list string)) :=
  z_array (z_array z_string) v.

Definition sp_ai_known_turn_block_schema (v : jsv) : bool :=
  known_block "markdown" (fun v => is_some (z_string (get v "text"))) v
  || known_block "text" (fun v => is_some (z_string (get v "text"))) v
  || known_block "code"
       (fun v => is_some (z_string (get v "code"))
                 && is_some (z_optional_string (get v "language"))) v
  || known_block "diff"
       (fun v => is_some (z_string (get v "diff"))
                 && is_some (z_optional_string (get v "language"))) v
  || known_block "json" (fun v => is_some (z_optional_string (get v "text"))) v
  || known_block "table"
       (fun v => is_some (z_optional (z_array z_string) (get v "columns"))
                 && is_some (z_optional z_string_rows (get v "rows"))) v
  || known_block "stream"
       (fun v => (z_literal "stdout" (get v "channel")
                  || z_literal "stderr" (get v "channel"))
                 && is_some (z_string (get v "text"))) v
  || is_some (sp_ai_subagent_group_block_schema v)
  || is_some (sp_ai_background_tasks_block_schema v).

Definition sp_ai_unknown_turn_block_schema (v : jsv) : bool :=
  is_plain_object v
  && is_some (z_optional_string (get v "kind"))
  && is_some (z_optional_string (get v "title"))
  && is_some (z_optional_string (get v "text")).

Definition sp_ai_turn_block_schema (v : jsv) : bool :=
  sp_ai_known_turn_block_schema v || sp_ai_unknown_turn_block_schema v.

Definition z_kind (v : jsv) : option Kind.t :=
  match v with JStr s => Kind.of_string s | _ => None end.

Definition sp_ai_turn_schema (v : jsv) : bool :=
  is_plain_object v
  && is_some (z_kind (get v "kind"))
  && is_some (z_status (get v "status"))
  && is_some (z_string (get v "title"))
  && is_some (z_optional_string (get v "subtitle"))
  && is_some (z_optional_string (get v "output"))
  && match get v "tool" with JUndefined => true | tool => sp_ai_turn_tool_schema tool end
  && match get v "parallel" with
     | JUndefined => true
     | parallel => sp_ai_turn_parallel_schema parallel
     end
  && match get v "blocks" with
     | JUndefined => true
     | JArr blocks => forallb sp_ai_turn_block_schema blocks
     | _ => false
     end.

Definition sp_ai_widget_extra_data_schema (v : jsv) : bool :=
  is_plain_object v
  (* v1 fields (POC) *)
  && is_some (z_optional z_nonnegative_int (get v "version"))
  && is_some (z_optional z_display (get v "display"))
  && is_some (z_optional_string (get v "title"))
  && is_some (z_optional_string (get v "caption"))
  && is_some (z_optional z_status (get v "status"))
  && is_some (z_optional_string (get v "tool"))
  && is_some (z_optional_string (get v "input"))
  && is_some (z_optional_string (get v "output"))
  (* v2 fields (turns) *)
  && match get v "turn" with JUndefined => true | turn => sp_ai_turn_schema turn end.

(** ** Presentation *)

Definition kind_label (kind : Kind.t) : string :=
  match kind with
  | Kind.thinking => "Thinking"
  | Kind.tool => "Tool"
  | Kind.final => "Final"
  | Kind.error => "Error"
  | Kind.plan => "Plan"
  | Kind.decision => "Decision"
  | Kind.ask => "Ask"
  | Kind.budget => "Budget"
  | Kind.subagent_group => "Subagents"
  | Kind.policy => "Policy"
  end.

Definition status_label (status : Status.t) : string :=
  match status with
  | Status.ok => "OK"
  | Status.pending => "Pending"
  | Status.approval_requested => "Awaiting Approval"
  | Status.approval_responded => "Responded"
  | Status.aborted => "Aborted"
  | Status.error => "Error"
  | Status.denied => "Denied"
  | Status.running => "Running"
  end.

(** Mirror Vercel AI elements wording for tool cards. *)
Definition tool_status_label (status : Status.t) : string :=
  match status with
  | Status.ok => "Completed"
  | Status.pending => "Pending"
  | Status.approval_requested => "Awaiting Approval"
  | Status.approval_responded => "Responded"
  | Status.aborted => "Aborted"
  | Status.error => "Error"
  | Status.denied => "Denied"
  | Status.running => "Running"
  end.

Definition kind_is (a b : Kind.t) : bool :=
  match a, b with
  | Kind.thinking, Kind.thinking | Kind.tool, Kind.tool | Kind.final, Kind.final
  | Kind.error, Kind.error | Kind.plan, Kind.plan | Kind.decision, Kind.decision
  | Kind.ask, Kind.ask | Kind.budget, Kind.budget | Kind.policy, Kind.policy
  | Kind.subagent_group, Kind.subagent_group => true
  | _, _ => false
  end.

Definition status_is (a b : Status.t) : bool :=
  match a, b with
  | Status.pending, Status.pending | Status.running, Status.running
  | Status.ok, Status.ok | Status.error, Status.error
  | Status.aborted, Status.aborted | Status.denied, Status.denied
  | Status.approval_requested, Status.approval_requested
  | Status.approval_responded, Status.approval_responded => true
  | _, _ => false
  end.

(** [a || b] on strings. *)
Definition string_or_else (a b : string) : string :=
  if String.eqb a "" then b else a.

Module BlockForTemplate.
Record t : Type := {
  block : Block.t string;
  is_markdown : bool;
  markdown_html : string;
}.
End BlockForTemplate.

(** The fields that [render] adds to the state for the template. *)
Module TemplateContext.
Record t : Type := {
  state : WidgetState;
  kind_label : string;
  status_label : string;
  show_status_pill : bool;
  tool_status_label : string;
  is_thinking_kind : bool;
  reasoning_label : string;
  reasoning_text : string;
  has_reasoning_text : bool;
  reasoning_expanded : string;
  reasoning_content_hidden : string;
  is_tool_kind : bool;
  tool_title : string;
  tool_open : bool;
  show_tool_approval_actions : bool;
  show_caption : bool;
  show_tool : bool;
  has_input : bool;
  has_output : bool;
  has_blocks : bool;
  blocks : list BlockForTemplate.t;
  show_abort : bool;
  show_retry : bool;
  show_approve : bool;
  show_deny : bool;
  has_widget_actions : bool;
  show_parallel : bool;
  parallel_first : bool;
  parallel_last : bool;
}.
End TemplateContext.

(** [blocks_for_template] of [render]; [markdown_render text] is
    [markdown.render(text).content], the host's markdown service. *)
Definition blocks_for_template (markdown_render : string -> string) (state : WidgetState)
  : list BlockForTemplate.t :=
  map (fun b =>
         if String.eqb (Block.kind b) "markdown"
         then {| BlockForTemplate.block := b;
                 BlockForTemplate.is_markdown := true;
                 BlockForTemplate.markdown_html := markdown_render (Block.text b) |}
         else {| BlockForTemplate.block := b;
                 BlockForTemplate.is_markdown := false;
                 BlockForTemplate.markdown_html := "" |})
      (blocks state).

(** The argument of [render_widgets_sp_ai_widget] in [render]. *)
Definition template_context (markdown_render : string -> string) (state : WidgetState)
  : TemplateContext.t :=
  let reasoning_text := string_or_else (string_or_else (output state) (caption state)) "" in
  let streaming_thought :=
    kind_is (kind state) Kind.thinking && status_is (status state) Status.running
    && negb (String.eqb reasoning_text "") in
  let no_structured_content :=
    (length (blocks state) =? 0)%nat && negb (has_subagent_groups state)
    && negb (has_background_tasks state) in
  {| TemplateContext.state := state;
     TemplateContext.kind_label := kind_label (kind state);
     TemplateContext.status_label := status_label (status state);
     TemplateContext.show_status_pill := negb (kind_is (kind state) Kind.error);
     TemplateContext.tool_status_label := tool_status_label (status state);
     TemplateContext.is_thinking_kind := kind_is (kind state) Kind.thinking;
     TemplateContext.reasoning_label :=
       if status_is (status state) Status.running then "Thinking…"
       else "Thought for a few seconds";
     TemplateContext.reasoning_text := reasoning_text;
     TemplateContext.has_reasoning_text := negb (String.eqb reasoning_text "");
     (* Auto-expand while streaming content; collapsed when done. *)
     TemplateContext.reasoning_expanded := if streaming_thought then "true" else "false";
     TemplateContext.reasoning_content_hidden := if streaming_thought then "false" else "true";
     TemplateContext.is_tool_kind := kind_is (kind state) Kind.tool;
     TemplateContext.tool_title := string_or_else (tool state) (title state);
     TemplateContext.tool_open :=
       kind_is (kind state) Kind.tool
       && (status_is (status state) Status.pending
           || status_is (status state) Status.running
           || status_is (status state) Status.approval_requested
           || status_is (status state) Status.error
           || status_is (status state) Status.denied);
     TemplateContext.show_tool_approval_actions :=
       kind_is (kind state) Kind.tool && status_is (status state) Status.approval_requested;
     TemplateContext.show_caption :=
       match display state with
       | Display.card_with_caption => negb (String.eqb (caption state) "")
       | Display.card_only => false
       end;
     TemplateContext.show_tool := negb (String.eqb (tool state) "");
     TemplateContext.has_input :=
       no_structured_content && negb (String.eqb (input state) "");
     TemplateContext.has_output :=
       no_structured_content && negb (String.eqb (output state) "");
     TemplateContext.has_blocks := negb (length (blocks state) =? 0)%nat;
     TemplateContext.blocks := blocks_for_template markdown_render state;
     TemplateContext.show_abort := status_is (status state) Status.running;
     TemplateContext.show_retry := negb (status_is (status state) Status.running);
     TemplateContext.show_approve := kind_is (kind state) Kind.ask;
     TemplateContext.show_deny := kind_is (kind state) Kind.ask;
     TemplateContext.has_widget_actions := true;
     TemplateContext.show_parallel := is_some (parallel state);
     TemplateContext.parallel_first :=
       match parallel state with Some p => negb (Parallel.hasPrev p) | None => false end;
     TemplateContext.parallel_last :=
       match parallel state with Some p => negb (Parallel.hasNext p) | None => false end |}.

(** *** Click handlers

    Each handler is taken from the point where it has read its attribute;
    its result is the text handed to [copy_text], [None] when it returns
    without copying. *)

(** [button[data-copy]]: the attribute is ["input"], ["output"] or else. *)
Definition copy_target (state : WidgetState) (target : string) : string :=
  if String.eqb target "input" then input state
  else if String.eqb target "output" then output state
  else "".

(** [button[data-copy-block]], with the attribute parsed to [index]. *)
Definition copy_block (state : WidgetState) (index : nat) : option string :=
  block ← List.find (fun item => (Block.index item =? index)%nat) (blocks state);
  Some (Block.copy_text block).

(** [button[data-copy-bg-task-command]], with the two parts of the
    attribute parsed to [group_index] and [task_index]. *)
Definition copy_background_task_command (state : WidgetState)
    (group_index task_index : nat) : option string :=
  group ← List.find
             (fun g => (BackgroundTasksGroupTemplate.group_index g =? group_index)%nat)
             (background_task_groups state);
  task ← List.find
            (fun t => (BackgroundTaskTemplate.task_index t =? task_index)%nat)
            (BackgroundTasksGroupTemplate.tasks group);
  Some (BackgroundTaskTemplate.command task).

Inductive WidgetAction : Set := abort | retry | approve | deny.

(** [button[data-action]]: the action handed to [opts.callback], if any. *)
Definition action_click (action : string) : option WidgetAction :=
  if String.eqb action "abort" then Some abort
  else if String.eqb action "retry" then Some retry
  else if String.eqb action "approve" then Some approve
  else if String.eqb action "deny" then Some deny
  else None.

(** *** The widget on the screen

    [render] replaces what the element shows by a paint of the variable
    [state] and installs the click handlers on the new buttons; a handler
    reads the variable when the click comes, and looks in it for the index
    that its button carries, the one of the block or task the button was
    painted for.  So a widget is the variable, the state that its buttons
    were painted from, and whether the last call returned. *)
Module Widget.
Record t : Type := {
  state : WidgetState;
  painted : option WidgetState;
  returned : bool;
}.
End Widget.

(** The state of the last paint among [effects]; [before] when there is
    none. *)
Fixpoint last_paint (effects : list effect) (before : option WidgetState)
  : option WidgetState :=
  match effects with
  | [] => before
  | Render state :: rest => last_paint rest (Some state)
  | _ :: rest => last_paint rest before
  end.

Section Screen.
Context `{Host}.

(** The widget that [activate] leaves when it returns [handle_events]. *)
Definition activated (any_data : AnyWidgetData) : option Widget.t :=
  let r := activate any_data in
  match completion r with
  | Normal (handle_events_over state) =>
      Some {| Widget.state := state;
              Widget.painted := last_paint (trace r) None;
              Widget.returned := true |}
  | _ => None
  end.

(** The widget after a call of its [handle_events]. *)
Definition called (w : Widget.t) (events : list Event) : Widget.t :=
  let o := handle_events (Widget.state w) events in
  {| Widget.state :=
       match next o with
       | handle_events_over state => state
       | noop => Widget.state w
       end;
     Widget.painted := last_paint (effects o) (Widget.painted w);
     Widget.returned := negb (is_some (thrown o)) |}.

(** The widgets that the host can be looking at: an activated one, after
    any number of calls. *)
Inductive running : Widget.t -> Prop :=
| running_activated (any_data : AnyWidgetData) (w : Widget.t) :
    activated any_data = Some w -> running w
| running_called (w : Widget.t) (events : list Event) :
    running w -> running (called w events).
End Screen.

(** * Vocabulary of the statements *)

(** The default state of the spec: kind final, status running, every text
    empty, no block, no group, every [has_] flag false. *)
Definition documented_default_state : WidgetState :=
  {| version := 2;
     display := Display.card_only;
     kind := Kind.final;
     title := "Agent output";
     caption := "";
     status := Status.running;
     tool := "";
     input := "";
     output := "";
     blocks := [];
     parallel := None;
     turn_kind := JStr "";
     turn_kind_label := "";
     has_subagent_groups := false;
     subagent_section_title := "Subagents";
     subagent_groups := [];
     has_background_tasks := false;
     background_tasks_section_title := "Background tasks";
     background_task_groups := [];
     has_plan_blocks := false;
     plan_section_title := "Plan";
     plan_groups := [];
     has_todo_blocks := false;
     todo_section_title := "Todo";
     todo_groups := [] |}.

(** The fields [normalize_extra_data] recognises in a payload. *)
Definition recognised_fields : list string :=
  ["version"; "display"; "title"; "caption"; "status"; "tool"; "input"; "output"; "turn"].

(** The number whose value is the integer [n] (exact up to 2^53). *)
Definition whole_number (n : Z) : float := number_of n 0.

(** [t] tenths of a second, written with one decimal. *)
Definition one_decimal (t : Z) : string :=
  decimal (t / 10) ++ "." ++ decimal (t mod 10) ++ "s".

(** [f] on every integer of [base, base + 2^depth). *)
Fixpoint range_all (depth : nat) (base : Z) (f : Z -> bool) : bool :=
  match depth with
  | O => f base
  | S d => range_all d base f && range_all d (base + 2 ^ Z.of_nat d)%Z f
  end.

(** The whole numbers of milliseconds on which the rendering is checked by
    evaluation: below 1024, and within 64 of the boundaries at 10000 and at
    60000. *)
Definition in_checked_window (n : Z) : Prop :=
  (0 <= n < 1024)%Z \/ (9936 <= n < 10064)%Z \/ (59936 <= n < 60064)%Z.

(** The synonym sets of the status normalizers. *)
Definition ok_synonyms : list string := ["ok"; "success"; "completed"; "complete"].
Definition error_synonyms : list string := ["error"; "failed"; "failure"].
Definition running_synonyms : list string :=
  ["running"; "in_progress"; "in-progress"; "started"].
Definition pending_synonyms : list string := ["pending"; "queued"; "queue"].


(** The event objects of the host's stream. *)
Definition set_extra_data_event (extra : jsv) : Event :=
  {| data := JObj [("type", JStr "set_extra_data"); ("extra_data", extra)] |}.
Definition set_status_event (s : string) : Event :=
  {| data := JObj [("type", JStr "set_status"); ("status", JStr s)] |}.
Definition append_output_event (chunk : string) : Event :=
  {| data := JObj [("type", JStr "append_output"); ("chunk", JStr chunk)] |}.

(** Whether an event passes [sp_ai_widget_inbound_event_schema]. *)
Definition event_is_valid (event : Event) : bool :=
  bool_decide (is_Some (sp_ai_widget_inbound_event_schema (data event))).

(** The entries that the generic pass turns into a block: non-null objects
    (arrays included). *)
Definition is_block_entry (raw : jsv) : bool := truthy raw && typeof_object raw.

(** A background task with nothing to show: no command, description,
    output preview or error, or an empty string for each. *)
Definition task_is_blank (task : jsv) : Prop :=
  string_or (get task "command") "" = ""
  /\ string_or (get task "description") "" = ""
  /\ string_or (get task "outputPreview") "" = ""
  /\ string_or (get task "error") "" = "".

Section StatementVocabulary.
Context `{Host}.

(** The rendering of a whole number [n] of milliseconds, checked against
    the decimal arithmetic of the three ranges: [n] itself; the tenths of a
    second nearest to [n] (at a tie, either neighbour: the quotient
    [n / 1000] is a binary fraction that can fall on either side); the
    seconds nearest to [n]; the whole minutes and the nearest remaining
    seconds. *)
Definition whole_duration_ok (n : Z) : bool :=
  let out := format_duration_ms (whole_number n) in
  if (n <? 1000)%Z then String.eqb out (decimal n ++ "ms")
  else if (n <? 10000)%Z then
    let t := ((n + 50) / 100)%Z in
    String.eqb out (one_decimal t)
    || ((n mod 100 =? 50)%Z && String.eqb out (one_decimal (t - 1)))
  else if (n <? 60000)%Z then String.eqb out (decimal ((n + 500) / 1000) ++ "s")
  else
    String.eqb out
      (decimal (n / 60000) ++ "m " ++ decimal ((n mod 60000 + 500) / 1000) ++ "s").

(** The indices the loop of [normalize_turn_blocks] emits from [index] on. *)
Definition emitted_from (index : nat) (raw_blocks : list jsv) (skip : gset nat)
  : list nat :=
  map Block.index (turn_blocks_loop index raw_blocks skip).
End StatementVocabulary.

(** Payloads and blocks of the closed instances. *)

(** A well-typed v2 payload whose markdown block has no [text]: the block
    text is [undefined], so the candidate fails the state schema. *)
Definition payload_markdown_without_text : jsv :=
  JObj [("turn",
         JObj [("kind", JStr "tool"); ("status", JStr "ok"); ("title", JStr "Run");
               ("blocks",
                JArr [JObj [("kind", JStr "markdown")];
                      JObj [("kind", JStr "subagent_group");
                            ("agents", JArr [JObj [("type", JStr "explorer")]])]])])].

(** A v2 payload that carries only a block array. *)
Definition payload_with_blocks (raw_blocks : list jsv) : jsv :=
  JObj [("turn", JObj [("blocks", JArr raw_blocks)])].

(** A subagent-group block with no agent and an empty text, a
    background-tasks block whose only task is blank, and a text block. *)
Definition empty_subagent_group_block : jsv :=
  JObj [("kind", JStr "subagent_group"); ("agents", JArr []); ("text", JStr "")].
Definition blank_background_tasks_block : jsv :=
  JObj [("kind", JStr "background_tasks");
        ("tasks", JArr [JObj [("command", JStr ""); ("status", JStr "running")]])].
Definition hello_text_block : jsv := JObj [("kind", JStr "text"); ("text", JStr "hello")].

(** Every field of a state but its output. *)
Definition fields_but_output (state : WidgetState) :=
  (version state, display state, kind state, title state, caption state, status state,
   tool state, input state, blocks state, parallel state, turn_kind state,
   turn_kind_label state,
   (has_subagent_groups state, subagent_section_title state, subagent_groups state),
   (has_background_tasks state, background_tasks_section_title state,
    background_task_groups state),
   (has_plan_blocks state, plan_section_title state, plan_groups state),
   (has_todo_blocks state, todo_section_title state, todo_groups state)).

(** The log entries of a list of effects: everything but the paints. *)
Definition is_paint (e : effect) : bool :=
  match e with Render _ => true | _ => false end.
Definition log (effects : list effect) : list effect :=
  List.filter (fun e => negb (is_paint e)) effects.

(** Whether an event is anything but a valid [set_extra_data]. *)
Definition keeps_payload (event : Event) : bool :=
  match sp_ai_widget_inbound_event_schema (data event) with
  | Some (set_extra_data _) => false
  | _ => true
  end.

(** A [set_extra_data] event that lacks its payload. *)
Definition set_extra_data_event_without_payload : Event :=
  {| data := JObj [("type", JStr "set_extra_data")] |}.

Definition set_output_event (o : string) : Event :=
  {| data := JObj [("type", JStr "set_output"); ("output", JStr o)] |}.


(** The shape that the loops of the four extractors share: [body] answers
    the group that a block pushes, if any; a pushed group takes the next
    group index and puts the block index into the skip set. *)
Fixpoint groups_loop {G} (body : nat -> jsv -> js (option G))
    (index group_index : nat) (blocks : list jsv) : js (list G * gset nat) :=
  match blocks with
  | [] => Normal ([], ∅)
  | block :: rest =>
      pushed ← body group_index block;
      match pushed with
      | None => groups_loop body (S index) group_index rest
      | Some group =>
          '(groups, skip) ← groups_loop body (S index) (S group_index) rest;
          Normal (group :: groups, {[index]} ∪ skip)
      end
  end.

(** The block array that the extractors walk. *)
Definition payload_blocks (extra_data : jsv) : list jsv :=
  array_or_empty (opt_get (get extra_data "turn") "blocks").

(** What a group that is shown has to show. *)
Definition subagent_group_has_content (g : SubagentGroupTemplate.t) : Prop :=
  (SubagentGroupTemplate.agents g <> [] \/ SubagentGroupTemplate.fallback_text g <> "")
  /\ Forall (fun a => SubagentTemplate.type a <> "") (SubagentGroupTemplate.agents g).

Definition background_group_has_content (g : BackgroundTasksGroupTemplate.t) : Prop :=
  BackgroundTasksGroupTemplate.tasks g <> []
  /\ Forall (fun t => background_task_is_shown t = true) (BackgroundTasksGroupTemplate.tasks g).

Definition plan_group_has_content (g : PlanGroupTemplate.t) : Prop :=
  PlanGroupTemplate.steps g <> []
  /\ Forall (fun s => PlanStepTemplate.step s <> "") (PlanGroupTemplate.steps g).

Definition todo_group_has_content (g : TodoGroupTemplate.t) : Prop :=
  TodoGroupTemplate.items g <> []
  /\ Forall (fun i => TodoItemTemplate.text i <> "") (TodoGroupTemplate.items g).

(** Groups numbered 0, 1, 2, ... in order, and strictly increasing
    indices inside each group. *)
Definition numbered {G T} (group_index : G -> nat) (members : G -> list T)
    (member_index : T -> nat) (groups : list G) : Prop :=
  map group_index groups = seq 0 (length groups)
  /\ Forall (fun g => StronglySorted lt (map member_index (members g))) groups.

Section Reachability.
Context `{Host}.

(** The states the widget can be in: the one [activate] starts with, and
    the one a call of the handler leaves (on a throw, the state reached
    when the exception ended the call). *)
Inductive reachable : WidgetState -> Prop :=
| reachable_activate (any_data : AnyWidgetData) (state : WidgetState) :
    completion (activate any_data) = Normal (handle_events_over state) ->
    reachable state
| reachable_call (state : WidgetState) (events : list Event) (state' : WidgetState) :
    reachable state ->
    next (handle_events state events) = handle_events_over state' ->
    reachable state'.
End Reachability.

(** What every state the widget reaches satisfies. *)
Definition well_formed_state (state : WidgetState) : Prop :=
  numbered BackgroundTasksGroupTemplate.group_index BackgroundTasksGroupTemplate.tasks
    BackgroundTaskTemplate.task_index (background_task_groups state)
  /\ numbered PlanGroupTemplate.group_index PlanGroupTemplate.steps
       PlanStepTemplate.step_index (plan_groups state)
  /\ numbered TodoGroupTemplate.group_index TodoGroupTemplate.items
       TodoItemTemplate.item_index (todo_groups state)
  /\ Forall subagent_group_has_content (subagent_groups state)
  /\ Forall background_group_has_content (background_task_groups state)
  /\ Forall plan_group_has_content (plan_groups state)
  /\ Forall todo_group_has_content (todo_groups state)
  /\ has_subagent_groups state = negb (length (subagent_groups state) =? 0)%nat
  /\ has_background_tasks state = negb (length (background_task_groups state) =? 0)%nat
  /\ has_plan_blocks state = negb (length (plan_groups state) =? 0)%nat
  /\ has_todo_blocks state = negb (length (todo_groups state) =? 0)%nat
  /\ StronglySorted lt (map Block.index (blocks state)).

(** A v2 payload with a text block, a background-tasks block whose first
    task is blank, a plan whose first step is blank and a legacy todo list,
    and the state the widget starts in on it. *)
Definition sample_turn : list (string * jsv) :=
  [("kind", JStr "tool"); ("status", JStr "running"); ("title", JStr "Build");
   ("blocks",
    JArr [hello_text_block;
          JObj [("kind", JStr "background_tasks");
                ("tasks", JArr [JObj [("status", JStr "queued")];
                                JObj [("command", JStr "make")]])];
          JObj [("kind", JStr "plan");
                ("steps", JArr [JObj [("step", JStr " ")];
                                JObj [("step", JStr "compile"); ("status", JStr "done")]])];
          JObj [("kind", JStr "todo");
                ("items", JArr [JStr "[x] write"; JStr "[ ] test"])]])].

Definition sample_payload : jsv := JObj [("turn", JObj sample_turn)].

Definition sample_state : WidgetState :=
  match completion (@normalize_extra_data sample_host sample_payload) with
  | Normal state => state
  | Throw _ => documented_default_state
  end.

(** The widget of the sample payload, and that widget after one chunk of
    output. *)
Definition sample_widget : Widget.t :=
  default {| Widget.state := sample_state; Widget.painted := None; Widget.returned := true |}
    (@activated sample_host {| widget_type := "sp_ai"; extra_data := sample_payload |}).

Definition sample_widget_after_a_chunk : Widget.t :=
  @called sample_host sample_widget [append_output_event "!"].

(** A payload whose only block is a text block with [text]. *)
Definition payload_with_text (text : string) : jsv :=
  payload_with_blocks [JObj [("kind", JStr "text"); ("text", JStr text)]].


(** The union of the four skip sets, as [normalize_extra_data] takes it. *)
Definition skipped (sub : SubagentGroups.t) (bg : BackgroundTasks.t) (plan : PlanBlocks.t)
    (todo : TodoBlocks.t) : gset nat :=
  SubagentGroups.skip_block_indexes sub ∪ BackgroundTasks.skip_block_indexes bg
  ∪ PlanBlocks.skip_block_indexes plan ∪ TodoBlocks.skip_block_indexes todo.

(** The state of a payload that has no turn: its v1 fields, each with its
    default when absent, and no block and no group. *)
Definition v1_state (extra_data : jsv) : WidgetState :=
  {| version := match get extra_data "version" with JNum x => x | _ => 2%float end;
     display := default Display.card_only (z_display (get extra_data "display"));
     kind := Kind.final;
     title := string_or (get extra_data "title") "Agent output";
     caption := string_or (get extra_data "caption") "";
     status := default Status.running (z_status (get extra_data "status"));
     tool := string_or (get extra_data "tool") "";
     input := string_or (get extra_data "input") "";
     output := string_or (get extra_data "output") "";
     blocks := [];
     parallel := None;
     turn_kind := JStr "";
     turn_kind_label := "";
     has_subagent_groups := false;
     subagent_section_title := "Subagents";
     subagent_groups := [];
     has_background_tasks := false;
     background_tasks_section_title := "Background tasks";
     background_task_groups := [];
     has_plan_blocks := false;
     plan_section_title := "Plan";
     plan_groups := [];
     has_todo_blocks := false;
     todo_section_title := "Todo";
     todo_groups := [] |}.

(** A block whose kind promises a text that the block does not carry. *)
Definition lacks_its_text (block : jsv) : bool :=
  match get block "kind" with
  | JStr kind =>
      ((String.eqb kind "markdown" || String.eqb kind "text")
       && negb (hasOwn block "text") && is_plain_object block)
      || (String.eqb kind "code" && negb (hasOwn block "code") && is_plain_object block)
      || (String.eqb kind "diff" && negb (hasOwn block "diff") && is_plain_object block)
  | _ => false
  end.

(** A v1 payload. *)
Definition sample_v1_payload : jsv :=
  JObj [("title", JStr "Search"); ("status", JStr "ok"); ("output", JStr "3 hits");
        ("display", JStr "card_with_caption"); ("future_field", JNum 1)].


(** [t] tenths, written with one decimal. *)
Definition tenths (t : Z) : string := decimal (t / 10) ++ "." ++ decimal (t mod 10).

(** A text that ends in [unit]. *)
Definition ends_in (unit text : string) : Prop := exists digits, text = digits ++ unit.

(** The token counts on which the rendering is checked by evaluation: the
    whole numbers below 1024 and within 64 of one million. *)
Definition in_token_window (n : Z) : Prop :=
  (0 <= n < 1024)%Z \/ (999936 <= n < 1000064)%Z.

Section FormatterVocabulary.
Context `{Host}.

(** The rendering of a whole number [n] of tokens, checked against the
    decimal arithmetic of the three ranges: [n] itself; the tenths of a
    thousand nearest to [n], a half going up; the tenths of a million
    nearest to [n]. *)
Definition whole_tokens_ok (n : Z) : bool :=
  let out := format_tokens (whole_number n) in
  if (n <? 1000)%Z then String.eqb out (decimal n ++ " tok")
  else if (n <? 1000000)%Z then String.eqb out (tenths ((n + 50) / 100) ++ "k tok")
  else String.eqb out (tenths ((n + 50000) / 100000) ++ "M tok").

(** The rendering of a runtime of [k] tenths of a second, checked against
    the decimal arithmetic of the three ranges: the tenths themselves; the
    nearest second, a half going up; the whole minutes and the nearest
    remaining second. *)
Definition runtime_tenths_ok (k : Z) : bool :=
  let out := format_runtime_sec (whole_number k / 10)%float in
  if (k <? 100)%Z then String.eqb out (tenths k ++ "s")
  else if (k <? 600)%Z then String.eqb out (decimal ((k + 5) / 10) ++ "s")
  else String.eqb out (decimal (k / 600) ++ "m " ++ decimal ((k mod 600 + 5) / 10) ++ "s").
End FormatterVocabulary.


(** The synonyms that only the plan-step normalizer knows. *)
Definition plan_ok_synonyms : list string := (ok_synonyms ++ ["done"])%list.
Definition plan_pending_synonyms : list string := (pending_synonyms ++ ["todo"])%list.

(** The plan-step class that a background-task class stands for. *)
Definition plan_class_of (c : BackgroundTaskStatusClass.t) : PlanStepStatusClass.t :=
  match c with
  | BackgroundTaskStatusClass.pending => PlanStepStatusClass.pending
  | BackgroundTaskStatusClass.running => PlanStepStatusClass.running
  | BackgroundTaskStatusClass.ok => PlanStepStatusClass.ok
  | BackgroundTaskStatusClass.error => PlanStepStatusClass.error
  | BackgroundTaskStatusClass.aborted => PlanStepStatusClass.unknown
  | BackgroundTaskStatusClass.unknown => PlanStepStatusClass.unknown
  end.


(** The kinds that the generic pass knows how to lay out; a stream is laid
    out when its channel is stdout or stderr. *)
Definition known_kinds : list string :=
  ["table"; "markdown"; "text"; "code"; "diff"; "json"; "context_usage"; "file_tree";
   "memory_blocks"; "subagent_group"; "queue"; "plan"; "todo"].

Definition has_stream_channel (block : jsv) : bool :=
  match get block "channel" with
  | JStr c => String.eqb c "stdout" || String.eqb c "stderr"
  | _ => false
  end.

Definition is_known_kind (kind : string) (block : jsv) : bool :=
  includes known_kinds kind || (String.eqb kind "stream" && has_stream_channel block).


(** A property value that is a string or absent. *)
Definition text_or_absent (v : jsv) : bool :=
  match v with JUndefined | JStr _ => true | _ => false end.

Section HostAssumptions.
Context `{Host}.

(** [String(v ?? "")] returns. *)
Definition prints (v : jsv) : Prop := exists s, ToString (v ?? JStr "") = Normal s.

(** The rows that the v2 plan and todo schemas accept can be turned into
    strings (as every string, number and boolean can). *)
Definition plan_rows_print : Prop :=
  forall block data,
    sp_ai_plan_v2_block_schema block = Some data ->
    Forall (fun row => prints (PlanV2.step row) /\ prints (PlanV2.status row))
      (default [] (PlanV2.steps data)).

Definition todo_rows_print : Prop :=
  forall block data,
    sp_ai_todo_v2_block_schema block = Some data ->
    Forall (fun row => prints (TodoV2.text row)) (default [] (TodoV2.items data)).
End HostAssumptions.


(** A value that JSON can carry: no [undefined] anywhere, finite numbers. *)
Fixpoint is_json (v : jsv) : bool :=
  match v with
  | JUndefined => false
  | JNull | JBool _ | JStr _ => true
  | JNum x => Number_isFinite x
  | JArr xs => forallb is_json xs
  | JObj props => forallb (fun p => is_json p.2) props
  end.


(** * Properties *)

(** ** Formatting of durations, token counts and runtimes *)

Lemma range_all_spec (depth : nat) (base : Z) (f : Z -> bool) :
  range_all depth base f = true ->
  forall n : Z, (base <= n < base + 2 ^ Z.of_nat depth)%Z -> f n = true.
Proof.
  revert base. induction depth as [| d IH]; intros base Hall n Hn.
  - cbn in Hall, Hn. now replace n with base by lia.
  - cbn [range_all] in Hall. apply andb_prop in Hall as [Hlow Hhigh].
    rewrite Nat2Z.inj_succ, Z.pow_succ_r in Hn by lia.
    destruct (Z.lt_ge_cases n (base + 2 ^ Z.of_nat d)) as [Hlt | Hge].
    + apply (IH base Hlow). lia.
    + apply (IH _ Hhigh). lia.
Qed.

Section FormattingFacts.
Context `{Host}.

(** Every whole number of milliseconds in the checked windows renders as
    the decimal arithmetic of its range says. *)
Lemma whole_durations_checked :
  range_all 10 0 whole_duration_ok
  && range_all 7 9936 whole_duration_ok
  && range_all 7 59936 whole_duration_ok = true.
Proof. vm_compute. reflexivity. Qed.

Lemma whole_duration_rendering (n : Z) :
  in_checked_window n ->
  let out := format_duration_ms (whole_number n) in
  ((n < 1000)%Z -> out = decimal n ++ "ms")
  /\ ((1000 <= n < 10000)%Z ->
      out = one_decimal ((n + 50) / 100)
      \/ ((n mod 100 = 50)%Z /\ out = one_decimal ((n + 50) / 100 - 1)))
  /\ ((10000 <= n < 60000)%Z -> out = decimal ((n + 500) / 1000) ++ "s")
  /\ ((60000 <= n)%Z ->
      out = decimal (n / 60000) ++ "m " ++ decimal ((n mod 60000 + 500) / 1000) ++ "s").
Proof.
  intros Hn out.
  assert (Hok : whole_duration_ok n = true).
  { pose proof whole_durations_checked as Hall.
    apply andb_prop in Hall as [Hall Hhigh]. apply andb_prop in Hall as [Hlow Hmid].
    destruct Hn as [Hn | [Hn | Hn]];
      [ apply (range_all_spec 10 0 _ Hlow)
      | apply (range_all_spec 7 9936 _ Hmid)
      | apply (range_all_spec 7 59936 _ Hhigh) ]; cbn; lia. }
  unfold whole_duration_ok in Hok. fold out in Hok. cbv zeta in Hok.
  assert (Hnonneg : (0 <= n)%Z) by (destruct Hn as [Hn | [Hn | Hn]]; lia).
  destruct (Z.ltb_spec n 1000) as [H1 | H1];
    [| destruct (Z.ltb_spec n 10000) as [H2 | H2];
       [| destruct (Z.ltb_spec n 60000) as [H3 | H3]]].
  - apply String.eqb_eq in Hok. repeat split; intros; (exact Hok || lia).
  - split; [intros; lia | split; [| split; intros; lia]].
    intros _. apply orb_prop in Hok as [Hok | Hok].
    + left. now apply String.eqb_eq.
    + right. apply andb_prop in Hok as [Htie Hok].
      split; [now apply Z.eqb_eq | now apply String.eqb_eq].
  - apply String.eqb_eq in Hok.
    split; [intros; lia | split; [intros; lia | split; [intros; exact Hok | intros; lia]]].
  - apply String.eqb_eq in Hok.
    split; [intros; lia | split; [intros; lia | split; [intros; lia | intros; exact Hok]]].
Qed.

(** C5: the boundary values of [format_duration_ms] (999, 1000, 9999, 10000
    and 60000 milliseconds); its three ranges for every finite duration
    that is not negative: below 1000 the rounded value and "ms"; then, with
    [seconds = duration_ms / 1000], below 60 the seconds with one decimal
    when below 10 and with none otherwise, and "s"; from 60 seconds on the
    whole minutes, "m", the rounded remaining seconds and "s"; and, for
    the whole numbers of milliseconds below 1024 and around the boundaries
    at 10000 and 60000, the digits it prints. *)
Theorem C5_format_duration_ms_boundaries :
  format_duration_ms 999 = "999ms"
  /\ format_duration_ms 1000 = "1.0s"
  /\ format_duration_ms 9999 = "10.0s"
  /\ format_duration_ms 10000 = "10s"
  /\ format_duration_ms 60000 = "1m 0s"
  /\ (forall duration_ms : float,
        Number_isFinite duration_ms = true ->
        (duration_ms <? 0)%float = false ->
        let seconds := (duration_ms / 1000)%float in
        ((duration_ms <? 1000)%float = true ->
         format_duration_ms duration_ms = num (Math_round duration_ms) ++ "ms")
        /\ ((duration_ms <? 1000)%float = false ->
            (seconds <? 60)%float = true ->
            (seconds <? 10)%float = true ->
            format_duration_ms duration_ms = fixed seconds 1 ++ "s")
        /\ ((duration_ms <? 1000)%float = false ->
            (seconds <? 60)%float = true ->
            (seconds <? 10)%float = false ->
            format_duration_ms duration_ms = fixed seconds 0 ++ "s")
        /\ ((duration_ms <? 1000)%float = false ->
            (seconds <? 60)%float = false ->
            format_duration_ms duration_ms =
              num (Math_floor (seconds / 60)%float) ++ "m "
              ++ num (Math_round (Number_remainder seconds 60)) ++ "s"))
  /\ (forall n : Z,
        in_checked_window n ->
        let out := format_duration_ms (whole_number n) in
        ((n < 1000)%Z -> out = decimal n ++ "ms")
        /\ ((1000 <= n < 10000)%Z ->
            out = one_decimal ((n + 50) / 100)
            \/ ((n mod 100 = 50)%Z /\ out = one_decimal ((n + 50) / 100 - 1)))
        /\ ((10000 <= n < 60000)%Z -> out = decimal ((n + 500) / 1000) ++ "s")
        /\ ((60000 <= n)%Z ->
            out = decimal (n / 60000) ++ "m "
                  ++ decimal ((n mod 60000 + 500) / 1000) ++ "s")).
Proof.
  do 5 (split; [vm_compute; reflexivity |]).
  split; [| exact whole_duration_rendering].
  intros duration_ms Hfinite Hsign seconds. subst seconds.
  unfold format_duration_ms. rewrite Hfinite, Hsign. cbn [negb orb].
  repeat split; intros;
    repeat match goal with
           | E : (_ <? _)%float = _ |- _ => rewrite E; clear E
           end; reflexivity.
Qed.

(** C10: a negative or non-finite argument makes each of the three
    formatters answer the empty string. *)
Theorem C10_formatters_reject_negative_and_non_finite (x : float) :
  Number_isFinite x = false \/ (x <? 0)%float = true ->
  format_duration_ms x = "" /\ format_tokens x = "" /\ format_runtime_sec x = "".
Proof.
  intros Hbad.
  assert (Hguard : negb (Number_isFinite x) || (x <? 0)%float = true).
  { destruct Hbad as [-> | ->]; [reflexivity | apply orb_true_r]. }
  unfold format_duration_ms, format_tokens, format_runtime_sec.
  rewrite Hguard. auto.
Qed.

Example formatter_examples :
  format_duration_ms 59999 = "60s"
  /\ format_duration_ms 119999 = "1m 60s"
  /\ format_duration_ms 1150 = "1.1s"
  /\ format_tokens 999 = "999 tok"
  /\ format_tokens 1500 = "1.5k tok"
  /\ format_tokens 2500000 = "2.5M tok"
  /\ format_runtime_sec 75 = "1m 15s"
  /\ format_duration_ms nan = ""
  /\ format_duration_ms neg_infinity = "".
Proof. repeat split; vm_compute; reflexivity. Qed.
End FormattingFacts.

(** ** Status vocabularies *)

Lemma includes_In (xs : list string) (s : string) :
  includes xs s = true <-> In s xs.
Proof.
  unfold includes. rewrite existsb_exists. split.
  - intros (x & Hin & Heq). apply String.eqb_eq in Heq. now subst.
  - intros Hin. exists s. split; [assumption | apply String.eqb_refl].
Qed.

Lemma includes_not_In (xs : list string) (s : string) :
  ~ In s xs -> includes xs s = false.
Proof.
  intros Hn. destruct (includes xs s) eqn:E; [| reflexivity].
  apply includes_In in E. contradiction.
Qed.

Section StatusFacts.
Context `{Host}.


Example status_examples :
  normalize_subagent_status "OK" = (SubagentStatusClass.ok, "OK")
  /\ normalize_subagent_status "success" = (SubagentStatusClass.ok, "OK")
  /\ normalize_subagent_status "Completed" = (SubagentStatusClass.ok, "OK")
  /\ normalize_subagent_status "complete" = (SubagentStatusClass.ok, "OK")
  /\ normalize_subagent_status "ERROR" = (SubagentStatusClass.error, "Error")
  /\ normalize_subagent_status "Failed" = (SubagentStatusClass.error, "Error")
  /\ normalize_subagent_status "failure" = (SubagentStatusClass.error, "Error")
  /\ normalize_subagent_status "  Paused " = (SubagentStatusClass.unknown, "Paused")
  /\ normalize_subagent_status "   " = (SubagentStatusClass.unknown, "Unknown")
  /\ normalize_subagent_status "queued" = (SubagentStatusClass.unknown, "queued")
  /\ normalize_background_task_status "queued"
     = (BackgroundTaskStatusClass.pending, "Pending")
  /\ normalize_background_task_status " In-Progress"
     = (BackgroundTaskStatusClass.running, "Running").
Proof. repeat split; reflexivity. Qed.

End StatusFacts.

(** ** The reducer *)

Lemma with_output_with_output (state : WidgetState) (a b : string) :
  with_output (with_output state a) b = with_output state b.
Proof. reflexivity. Qed.

Lemma append_not_empty (a b : string) : a <> "" -> String.eqb (a ++ b) "" = false.
Proof. destruct a; [congruence | reflexivity]. Qed.

Lemma string_app_assoc (a b c : string) : (a ++ b) ++ c = a ++ (b ++ c).
Proof.
  induction a as [| x a IH]; [reflexivity |].
  change (String x ((a ++ b) ++ c) = String x (a ++ (b ++ c))). now rewrite IH.
Qed.

(** The output after two appended chunks is the output after the one
    concatenated chunk. *)
Lemma next_output_twice (o c1 c2 : string) :
  (let o1 := if String.eqb o "" then c1 else o ++ c1 in
   if String.eqb o1 "" then c2 else o1 ++ c2)
  = (if String.eqb o "" then c1 ++ c2 else o ++ (c1 ++ c2)).
Proof.
  cbv zeta. destruct (String.eqb_spec o "") as [-> | Hne].
  - destruct (String.eqb_spec c1 "") as [-> | _]; reflexivity.
  - rewrite append_not_empty by assumption. apply string_app_assoc.
Qed.

Section ReducerFacts.
Context `{Host}.

(** C7: two [append_output] events in a row leave the widget exactly where
    the single event with the concatenated chunk leaves it, for every state
    and every pair of chunks: on a state whose output is the old output
    followed by the first chunk and then the second, every other field as it
    was, painted once.  From an empty output, "a" then "b" give "ab". *)
Theorem C7_append_output_is_concatenation (state : WidgetState) :
  (forall c1 c2 : string,
     handle_events state [append_output_event c1; append_output_event c2]
     = handle_events state [append_output_event (c1 ++ c2)])
  /\ (forall (c1 c2 : string) (state1 : WidgetState),
        completion (apply_inbound_event state (append_output c1)) = Normal state1 ->
        apply_inbound_event state1 (append_output c2)
        = apply_inbound_event state (append_output (c1 ++ c2)))
  /\ (output state = "" ->
      handle_events state [append_output_event "a"; append_output_event "b"]
      = {| next := handle_events_over (with_output state "ab");
           effects := [Render (with_output state "ab")];
           thrown := None |})
  /\ (forall c1 c2 : string,
        exists final : WidgetState,
          handle_events state [append_output_event c1; append_output_event c2]
          = {| next := handle_events_over final; effects := [Render final]; thrown := None |}
          /\ output final = (output state ++ c1) ++ c2
          /\ fields_but_output final = fields_but_output state)
  /\ (output state = "" ->
      exists final : WidgetState,
        handle_events state [append_output_event "a"; append_output_event "b"]
        = {| next := handle_events_over final; effects := [Render final]; thrown := None |}
        /\ output final = "ab"
        /\ fields_but_output final = fields_but_output state).
Proof.
  assert (Hgen : forall c1 c2 : string,
     handle_events state [append_output_event c1; append_output_event c2]
     = handle_events state [append_output_event (c1 ++ c2)]).
  { intros c1 c2. cbn.
    rewrite with_output_with_output.
    pose proof (next_output_twice (output state) c1 c2) as Htwice.
    cbv zeta in Htwice. rewrite Htwice.
    destruct (String.eqb (output state) ""); reflexivity. }
  assert (Hvalue : forall c1 c2 : string,
        exists final : WidgetState,
          handle_events state [append_output_event c1; append_output_event c2]
          = {| next := handle_events_over final; effects := [Render final]; thrown := None |}
          /\ output final = (output state ++ c1) ++ c2
          /\ fields_but_output final = fields_but_output state).
  { intros c1 c2. rewrite Hgen. eexists. split; [reflexivity |].
    split; [| reflexivity].
    cbn [output with_output]. rewrite string_app_assoc.
    destruct (String.eqb_spec (output state) "") as [-> | _]; reflexivity. }
  split; [exact Hgen | split; [| split; [| split; [exact Hvalue |]]]].
  - intros c1 c2 state1 Hfirst. cbn in Hfirst. injection Hfirst as <-.
    unfold apply_inbound_event. rewrite with_output_with_output.
    do 2 f_equal. apply (next_output_twice (output state) c1 c2).
  - intros Hempty. rewrite Hgen. cbn. rewrite Hempty. reflexivity.
  - intros Hempty. destruct (Hvalue "a" "b") as (final & Hfinal & Houtput & Hframe).
    exists final. rewrite Hempty in Houtput. auto.
Qed.

(** C2: a [set_extra_data] event assigns the normalization of its payload
    and nothing else: whenever that normalization returns a state, the
    handler ends on that state, whatever the state before was.  On the
    payload that holds only [status: "running"], every prior state, one with
    status ok and output "X" included, is replaced by the default state,
    whose output is empty. *)
Theorem C2_set_extra_data_replaces_state (state : WidgetState) :
  (forall extra : jsv,
     apply_inbound_event state (set_extra_data extra) = normalize_extra_data extra)
  /\ (forall (extra : jsv) (fresh : WidgetState),
        completion (normalize_extra_data extra) = Normal fresh ->
        handle_events state [set_extra_data_event extra]
        = {| next := handle_events_over fresh;
             effects := (trace (normalize_extra_data extra) ++ [Render fresh])%list;
             thrown := None |})
  /\ handle_events (with_output (with_status state Status.ok) "X")
       [set_extra_data_event (JObj [("status", JStr "running")])]
     = {| next := handle_events_over documented_default_state;
          effects := [Render documented_default_state];
          thrown := None |}
  /\ output documented_default_state = "".
Proof.
  split; [reflexivity | split; [| split; [| reflexivity]]].
  - intros extra fresh Hfresh. cbn. rewrite Hfresh. reflexivity.
  - vm_compute. reflexivity.
Qed.

(** An event that fails the schema changes nothing, wherever it stands. *)
Lemma handle_events_skips_invalid (state : WidgetState) (before after : list Event)
    (bad : Event) :
  sp_ai_widget_inbound_event_schema (data bad) = None ->
  handle_events state (before ++ bad :: after) = handle_events state (before ++ after).
Proof.
  intros Hbad. revert state.
  induction before as [| event before IH]; intros state; cbn [app handle_events].
  - rewrite Hbad. reflexivity.
  - destruct (sp_ai_widget_inbound_event_schema (data event)) as [evt |]; [| apply IH].
    destruct (completion (apply_inbound_event state evt)); [| reflexivity].
    rewrite IH. reflexivity.
Qed.

(** Only the events that pass the schema count. *)
Lemma handle_events_valid_only (state : WidgetState) (events : list Event) :
  handle_events state events = handle_events state (List.filter event_is_valid events).
Proof.
  revert state. induction events as [| event events IH]; intros state; [reflexivity |].
  cbn [List.filter]. unfold event_is_valid at 1.
  destruct (sp_ai_widget_inbound_event_schema (data event)) as [evt |] eqn:Hparsed.
  - rewrite bool_decide_eq_true_2 by eauto.
    cbn [handle_events]. rewrite Hparsed.
    destruct (completion (apply_inbound_event state evt)); [| reflexivity].
    rewrite IH. reflexivity.
  - rewrite bool_decide_eq_false_2 by (intros [? ?]; discriminate).
    cbn [handle_events]. rewrite Hparsed. apply IH.
Qed.

(** C3: an event that fails the inbound-event schema is dropped: the events
    before it and after it are processed as if it were not there, so the
    state it meets is the state the next event meets.  A [set_status] with
    the status "bogus" and an event of an unknown type both fail the schema,
    and alone they leave the state as it was.  A list of events is handled
    as the list of its valid events. *)
Theorem C3_invalid_events_leave_state_unchanged (state : WidgetState) :
  sp_ai_widget_inbound_event_schema (data (set_status_event "bogus")) = None
  /\ sp_ai_widget_inbound_event_schema
       (JObj [("type", JStr "set_title"); ("title", JStr "t")]) = None
  /\ (forall (before after : list Event) (bad : Event),
        sp_ai_widget_inbound_event_schema (data bad) = None ->
        handle_events state (before ++ bad :: after)
        = handle_events state (before ++ after))
  /\ (forall bad : Event,
        sp_ai_widget_inbound_event_schema (data bad) = None ->
        handle_events state [bad]
        = {| next := handle_events_over state; effects := [Render state];
             thrown := None |})
  /\ (forall events : list Event,
        handle_events state events
        = handle_events state (List.filter event_is_valid events)).
Proof.
  split; [reflexivity | split; [reflexivity | split; [| split]]].
  - intros before after bad. apply handle_events_skips_invalid.
  - intros bad Hbad. cbn. rewrite Hbad. reflexivity.
  - apply handle_events_valid_only.
Qed.

(** C9: activated on [extra_data = null], the widget logs an error, builds
    no state, paints nothing, and returns a handler on which every list of
    events is a no-op. *)
Theorem C9_activate_on_null_is_inert (events : list Event) :
  activate {| widget_type := "sp_ai"; extra_data := JNull |}
  = mkEff [Error "sp_ai widget: invalid extra_data"] (Normal noop)
  /\ call noop events = {| next := noop; effects := []; thrown := None |}.
Proof. split; reflexivity. Qed.

(** The [null] that [activate] keeps away from [normalize_extra_data] would
    make it throw, and so does a [set_extra_data] event that carries it: the
    handler stops on the exception with its state as it was. *)
Example set_extra_data_null_throws (state : WidgetState) :
  completion (normalize_extra_data JNull)
  = Throw "TypeError: Cannot read properties of null or undefined"
  /\ handle_events state [set_extra_data_event JNull]
     = {| next := handle_events_over state; effects := [];
          thrown := Some "TypeError: Cannot read properties of null or undefined" |}.
Proof. split; reflexivity. Qed.
End ReducerFacts.

(** ** Order of the generic blocks *)

Section TurnBlockOrder.
Context `{Host}.

Lemma turn_block_index (index : nat) (block : jsv) :
  Block.index (turn_block index block) = index.
Proof.
  unfold turn_block.
  repeat match goal with
         | |- context [if ?c then _ else _] => destruct c
         | |- context [match ?x with _ => _ end] => destruct x
         end;
    reflexivity.
Qed.

Lemma emitted_from_cons (index : nat) (raw : jsv) (rest : list jsv) (skip : gset nat) :
  emitted_from index (raw :: rest) skip
  = if bool_decide (index ∈ skip) then emitted_from (S index) rest skip
    else if is_block_entry raw then index :: emitted_from (S index) rest skip
    else emitted_from (S index) rest skip.
Proof.
  unfold emitted_from, is_block_entry. cbn [turn_blocks_loop].
  destruct (bool_decide (index ∈ skip)); [reflexivity |].
  destruct (truthy raw); destruct (typeof_object raw); cbn [negb orb andb map];
    rewrite ?turn_block_index; reflexivity.
Qed.

Lemma emitted_from_sublist (raw_blocks : list jsv) (skip : gset nat) (index : nat) :
  emitted_from index raw_blocks skip `sublist_of` seq index (length raw_blocks).
Proof.
  revert index. induction raw_blocks as [| raw rest IH]; intros index.
  - constructor.
  - rewrite emitted_from_cons. cbn [length seq].
    destruct (bool_decide (index ∈ skip)); [apply sublist_cons, IH |].
    destruct (is_block_entry raw); [apply sublist_skip | apply sublist_cons]; apply IH.
Qed.

(** Membership in the tail of the array, seen from the whole array. *)
Lemma kept_in_tail (raw : jsv) (rest : list jsv) (skip : gset nat) (index i : nat) :
  (S index <= i) /\ (i ∉ skip)
  /\ (exists entry, rest !! (i - S index) = Some entry /\ is_block_entry entry = true)
  <-> (index < i) /\ (i ∉ skip)
      /\ (exists entry, (raw :: rest) !! (i - index) = Some entry
                        /\ is_block_entry entry = true).
Proof.
  split; intros (Hle & Hskip & entry & Hentry & Hobj);
    (repeat split; [lia | assumption |]); exists entry; (split; [| assumption]).
  - replace (i - index) with (S (i - S index)) by lia. exact Hentry.
  - replace (i - index) with (S (i - S index)) in Hentry by lia. exact Hentry.
Qed.

Lemma emitted_from_elem (raw_blocks : list jsv) (skip : gset nat) (index i : nat) :
  i ∈ emitted_from index raw_blocks skip
  <-> (index <= i) /\ (i ∉ skip)
      /\ exists raw, raw_blocks !! (i - index) = Some raw /\ is_block_entry raw = true.
Proof.
  revert index. induction raw_blocks as [| raw rest IH]; intros index.
  - unfold emitted_from. cbn. split.
    + intros Hin. inversion Hin.
    + intros (_ & _ & raw & Hraw & _). discriminate.
  - rewrite emitted_from_cons.
    pose proof (kept_in_tail raw rest skip index i) as Htail.
    rewrite <- IH in Htail.
    assert (Hhead : (index <= i) /\ (i ∉ skip)
                    /\ (exists entry, (raw :: rest) !! (i - index) = Some entry
                                      /\ is_block_entry entry = true)
                    <-> (i = index /\ (i ∉ skip) /\ is_block_entry raw = true)
                        \/ i ∈ emitted_from (S index) rest skip).
    { rewrite Htail. split.
      - intros (Hle & Hskip & entry & Hentry & Hobj).
        destruct (decide (i = index)) as [-> | Hne].
        + left. rewrite Nat.sub_diag in Hentry. cbn in Hentry.
          injection Hentry as <-. auto.
        + right. repeat split; [lia | assumption |]. eauto.
      - intros [(-> & Hskip & Hobj) | (Hlt & Hskip & Hex)].
        + repeat split; [lia | assumption |]. exists raw.
          rewrite Nat.sub_diag. auto.
        + repeat split; [lia | assumption | assumption]. }
    rewrite Hhead.
    destruct (bool_decide (index ∈ skip)) eqn:Hdec.
    + apply bool_decide_eq_true in Hdec. split; [auto |].
      intros [(-> & Hskip & _) | Hin]; [contradiction | assumption].
    + apply bool_decide_eq_false in Hdec.
      destruct (is_block_entry raw) eqn:Hobj.
      * rewrite elem_of_cons. split.
        -- intros [-> | Hin]; auto.
        -- intros [(-> & _ & _) | Hin]; auto.
      * split; [auto |]. intros [(_ & _ & Habs) | Hin]; [discriminate | assumption].
Qed.

Lemma sublist_seq_sorted (l : list nat) (index n : nat) :
  l `sublist_of` seq index n -> StronglySorted lt l.
Proof.
  revert l index. induction n as [| n IH]; intros l index Hsub; cbn in Hsub.
  - apply sublist_nil_r in Hsub. subst. constructor.
  - apply sublist_cons_r in Hsub as [Hsub | (l' & -> & Hsub)]; [eauto |].
    constructor; [eauto |].
    apply Forall_forall. intros j Hj.
    assert (Hin : j ∈ seq (S index) n) by (eapply sublist_subseteq; eassumption).
    apply elem_of_seq in Hin. lia.
Qed.

(** C4, as the code has it: the [index] values of the emitted blocks are
    strictly increasing and form a subsequence of the indices of the input
    array; an index is emitted exactly when it is not in the skip set and
    the entry there is a non-null object.  Besides the skipped indices, the
    entries that are not objects ([null], strings, numbers, booleans) are
    left out. *)
Theorem C4_emitted_indices_keep_order (raw_blocks : list jsv) (skip : gset nat) :
  let emitted := map Block.index (normalize_turn_blocks (JArr raw_blocks) skip) in
  StronglySorted lt emitted
  /\ emitted `sublist_of` seq 0 (length raw_blocks)
  /\ (forall i : nat,
        i ∈ emitted
        <-> (i ∉ skip)
            /\ exists raw, raw_blocks !! i = Some raw /\ is_block_entry raw = true).
Proof.
  cbv zeta. cbn [normalize_turn_blocks]. fold (emitted_from 0 raw_blocks skip).
  pose proof (emitted_from_sublist raw_blocks skip 0) as Hsub.
  split; [eapply sublist_seq_sorted; exact Hsub | split; [exact Hsub |]].
  intros i. rewrite emitted_from_elem, Nat.sub_0_r. split.
  - intros (_ & Hskip & Hex). auto.
  - intros (Hskip & Hex). repeat split; [lia | assumption | assumption].
Qed.
End TurnBlockOrder.

(** ** Empty groups *)

Lemma get_as_record (v : jsv) (k : string) : get (as_record v) k = get v k.
Proof.
  unfold as_record.
  destruct v as [| | b | x | s | xs | props]; cbn [typeof_object];
    rewrite ?andb_false_r; reflexivity.
Qed.

(** Moves a goal [a ∈ skip] to the same index written [i + S n]. *)
Ltac same_index i n :=
  match goal with
  | |- ?a ∈ _ => replace a with (i + S n) by lia
  end.

Section ExtractorFacts.
Context `{Host}.

Lemma subagent_groups_loop_groups (blocks : list jsv) (i j : nat) :
  (subagent_groups_loop i blocks).1 = (subagent_groups_loop j blocks).1.
Proof.
  revert i j. induction blocks as [| block rest IH]; intros i j; cbn; [reflexivity |].
  destruct (subagent_group_of_block block); [| apply IH].
  specialize (IH (S i) (S j)).
  destruct (subagent_groups_loop (S i) rest), (subagent_groups_loop (S j) rest).
  cbn in *. now f_equal.
Qed.

Lemma subagent_groups_loop_skip_ge (blocks : list jsv) (i x : nat) :
  x ∈ (subagent_groups_loop i blocks).2 -> i <= x.
Proof.
  revert i. induction blocks as [| block rest IH]; intros i; cbn.
  - intros Hin. set_solver.
  - destruct (subagent_group_of_block block).
    + specialize (IH (S i)). destruct (subagent_groups_loop (S i) rest). cbn in *.
      rewrite elem_of_union, elem_of_singleton. intros [-> | Hin]; [lia |].
      apply IH in Hin. lia.
    + intros Hin. apply IH in Hin. lia.
Qed.

Lemma subagent_groups_loop_drop (block : jsv) (before after : list jsv) (i : nat) :
  subagent_group_of_block block = None ->
  (subagent_groups_loop i (before ++ block :: after)).1
  = (subagent_groups_loop i (before ++ after)).1
  /\ i + length before ∉ (subagent_groups_loop i (before ++ block :: after)).2.
Proof.
  intros Hnone. revert i.
  induction before as [| b before IH]; intros i; cbn [app length subagent_groups_loop].
  - rewrite Hnone. split; [apply subagent_groups_loop_groups |].
    intros Hin. apply subagent_groups_loop_skip_ge in Hin. lia.
  - destruct (IH (S i)) as [IHg IHs].
    destruct (subagent_group_of_block b).
    + destruct (subagent_groups_loop (S i) (before ++ block :: after)),
        (subagent_groups_loop (S i) (before ++ after)). cbn in *.
      split; [now f_equal |].
      rewrite elem_of_union, elem_of_singleton. intros [Heq | Hin]; [lia |].
      apply IHs. same_index i (length before). exact Hin.
    + split; [exact IHg |].
      intros Hin. apply IHs. same_index i (length before). exact Hin.
Qed.

Lemma background_groups_loop_groups (blocks : list jsv) (i j g : nat) :
  (background_groups_loop i g blocks).1 = (background_groups_loop j g blocks).1.
Proof.
  revert i j g. induction blocks as [| block rest IH]; intros i j g; cbn; [reflexivity |].
  destruct (background_group_of_block g block); [| apply IH].
  specialize (IH (S i) (S j) (S g)).
  destruct (background_groups_loop (S i) (S g) rest),
    (background_groups_loop (S j) (S g) rest).
  cbn in *. now f_equal.
Qed.

Lemma background_groups_loop_skip_ge (blocks : list jsv) (i g x : nat) :
  x ∈ (background_groups_loop i g blocks).2 -> i <= x.
Proof.
  revert i g. induction blocks as [| block rest IH]; intros i g; cbn.
  - intros Hin. set_solver.
  - destruct (background_group_of_block g block).
    + specialize (IH (S i) (S g)). destruct (background_groups_loop (S i) (S g) rest).
      cbn in *. rewrite elem_of_union, elem_of_singleton. intros [-> | Hin]; [lia |].
      apply IH in Hin. lia.
    + intros Hin. apply IH in Hin. lia.
Qed.

Lemma background_groups_loop_drop (block : jsv) (before after : list jsv) (i g : nat) :
  (forall group_index, background_group_of_block group_index block = None) ->
  (background_groups_loop i g (before ++ block :: after)).1
  = (background_groups_loop i g (before ++ after)).1
  /\ i + length before ∉ (background_groups_loop i g (before ++ block :: after)).2.
Proof.
  intros Hnone. revert i g.
  induction before as [| b before IH]; intros i g;
    cbn [app length background_groups_loop].
  - rewrite Hnone. split; [apply background_groups_loop_groups |].
    intros Hin. apply background_groups_loop_skip_ge in Hin. lia.
  - destruct (background_group_of_block g b).
    + destruct (IH (S i) (S g)) as [IHg IHs].
      destruct (background_groups_loop (S i) (S g) (before ++ block :: after)),
        (background_groups_loop (S i) (S g) (before ++ after)). cbn in *.
      split; [now f_equal |].
      rewrite elem_of_union, elem_of_singleton. intros [Heq | Hin]; [lia |].
      apply IHs. same_index i (length before). exact Hin.
    + destruct (IH (S i) g) as [IHg IHs]. split; [exact IHg |].
      intros Hin. apply IHs. same_index i (length before). exact Hin.
Qed.

Lemma blank_task_is_not_shown (task_index : nat) (task : jsv) :
  task_is_blank task ->
  background_task_is_shown (background_task_template task_index task) = false.
Proof.
  intros (Hcommand & Hdescription & Hpreview & Herror).
  unfold background_task_is_shown, background_task_template. cbv zeta.
  destruct (normalize_background_task_status _) as [status label].
  cbn. rewrite !get_as_record, Hcommand, Hdescription, Hpreview, Herror. reflexivity.
Qed.

Lemma blank_tasks_are_filtered {T} (f : nat -> jsv -> T) (shown : T -> bool)
    (tasks : list jsv) :
  (forall i task, task_is_blank task -> shown (f i task) = false) ->
  Forall task_is_blank tasks ->
  List.filter shown (imap f tasks) = [].
Proof.
  revert f. induction tasks as [| task tasks IH]; intros f Hf Hblank; [reflexivity |].
  apply Forall_cons in Hblank as [Htask Htasks].
  cbn. rewrite Hf by assumption. apply IH; [| assumption].
  intros i t. apply Hf.
Qed.

Lemma empty_subagent_group_pushes_nothing (block : jsv) (data : SubagentGroupBlock.t) :
  sp_ai_subagent_group_block_schema block = Some data ->
  default [] (SubagentGroupBlock.agents data) = [] ->
  default "" (SubagentGroupBlock.text data) = "" ->
  subagent_group_of_block block = None.
Proof.
  intros Hparsed Hagents Htext. unfold subagent_group_of_block.
  rewrite Hparsed, Hagents, Htext. reflexivity.
Qed.

Lemma blank_background_tasks_push_nothing (block : jsv) (data : BackgroundTasksBlock.t)
    (group_index : nat) :
  sp_ai_background_tasks_block_schema block = Some data ->
  Forall task_is_blank (default [] (BackgroundTasksBlock.tasks data)) ->
  background_group_of_block group_index block = None.
Proof.
  intros Hparsed Hblank. unfold background_group_of_block. rewrite Hparsed.
  destruct (length (default [] (BackgroundTasksBlock.tasks data)) =? 0)%nat; [reflexivity |].
  rewrite (blank_tasks_are_filtered _ _ _ blank_task_is_not_shown Hblank). reflexivity.
Qed.

(** What the two normalizers return is what their loops compute over the
    block array of the payload. *)
Lemma normalizers_run_loops (extra_data : jsv) :
  is_nullish extra_data = false ->
  let blocks := array_or_empty (opt_get (get extra_data "turn") "blocks") in
  (exists r, normalize_subagent_groups extra_data = Normal r
             /\ SubagentGroups.subagent_groups r = (subagent_groups_loop 0 blocks).1
             /\ SubagentGroups.skip_block_indexes r = (subagent_groups_loop 0 blocks).2)
  /\ (exists r, normalize_background_tasks extra_data = Normal r
                /\ BackgroundTasks.background_task_groups r
                   = (background_groups_loop 0 0 blocks).1
                /\ BackgroundTasks.skip_block_indexes r
                   = (background_groups_loop 0 0 blocks).2).
Proof.
  intros Hvalue blocks. subst blocks.
  unfold normalize_subagent_groups, normalize_background_tasks, turn_blocks_of, member.
  rewrite Hvalue. cbn.
  destruct (subagent_groups_loop 0 _) as [groups skip].
  destruct (background_groups_loop 0 0 _) as [groups' skip'].
  split; eexists; (split; [reflexivity | split; reflexivity]).
Qed.

(** C8: a subagent-group block that parses with no agents and an empty
    fallback text pushes no group and is not added to the skip set, wherever
    it stands in the block array; the groups are those of the array without
    it.  The same holds for a background-tasks block all of whose tasks are
    blank: every task is filtered out and the group is dropped. *)
Theorem C8_empty_groups_are_suppressed (before after : list jsv) (block : jsv) :
  (forall data : SubagentGroupBlock.t,
     sp_ai_subagent_group_block_schema block = Some data ->
     default [] (SubagentGroupBlock.agents data) = [] ->
     default "" (SubagentGroupBlock.text data) = "" ->
     subagent_group_of_block block = None
     /\ (subagent_groups_loop 0 (before ++ block :: after)).1
        = (subagent_groups_loop 0 (before ++ after)).1
     /\ length before ∉ (subagent_groups_loop 0 (before ++ block :: after)).2)
  /\ (forall data : BackgroundTasksBlock.t,
        sp_ai_background_tasks_block_schema block = Some data ->
        Forall task_is_blank (default [] (BackgroundTasksBlock.tasks data)) ->
        List.filter background_task_is_shown
          (imap background_task_template (default [] (BackgroundTasksBlock.tasks data)))
        = []
        /\ (forall group_index, background_group_of_block group_index block = None)
        /\ (background_groups_loop 0 0 (before ++ block :: after)).1
           = (background_groups_loop 0 0 (before ++ after)).1
        /\ length before ∉ (background_groups_loop 0 0 (before ++ block :: after)).2).
Proof.
  split.
  - intros data Hparsed Hagents Htext.
    pose proof (empty_subagent_group_pushes_nothing _ _ Hparsed Hagents Htext) as Hnone.
    split; [exact Hnone |].
    exact (subagent_groups_loop_drop block before after 0 Hnone).
  - intros data Hparsed Hblank.
    assert (Hnone : forall group_index, background_group_of_block group_index block = None).
    { intros g. eapply blank_background_tasks_push_nothing; eassumption. }
    split; [exact (blank_tasks_are_filtered _ _ _ blank_task_is_not_shown Hblank) |].
    split; [exact Hnone |].
    exact (background_groups_loop_drop block before after 0 0 Hnone).
Qed.
End ExtractorFacts.

(** ** Malformed and minimal creation payloads *)

Section NormalizeFacts.
Context `{Host}.

Lemma normalize_extra_data_invalid (extra_data : jsv) candidate sub bg plan todo :
  prepare extra_data = Normal (candidate, sub, bg, plan, todo) ->
  widget_state_schema candidate = None ->
  normalize_extra_data extra_data
  = mkEff [Warn "sp_ai widget: invalid extra_data"]
      (Normal (with_groups fallback_base sub bg plan todo)).
Proof.
  intros Hprepared Hinvalid. unfold normalize_extra_data.
  unfold mbind, Eff_bind, lift. cbn [completion trace]. rewrite Hprepared.
  cbn. rewrite Hinvalid. reflexivity.
Qed.

Lemma normalize_extra_data_minimal (extra_data : jsv) :
  is_nullish extra_data = false ->
  (forall k, In k recognised_fields -> get extra_data k = JUndefined) ->
  normalize_extra_data extra_data = mkEff [] (Normal documented_default_state).
Proof.
  intros Hvalue Hmissing.
  assert (Hed : forall k, In k recognised_fields ->
                          get (or_else extra_data (JObj [])) k = JUndefined).
  { intros k Hk. unfold or_else. destruct (truthy extra_data); [auto | reflexivity]. }
  unfold normalize_extra_data, prepare, candidate_state, normalize_subagent_groups,
    normalize_background_tasks, normalize_plan_blocks, normalize_todo_blocks,
    turn_blocks_of, member.
  rewrite Hvalue.
  rewrite !Hed by (unfold recognised_fields; simpl; tauto).
  rewrite !Hmissing by (unfold recognised_fields; simpl; tauto).
  reflexivity.
Qed.

(** C1: whenever the candidate state that [normalize_extra_data] builds
    from a payload fails [widget_state_schema], the function returns, logs
    one warning, and its result has the base fields of the safe default:
    kind final, status running, version 2, display card_only, title
    "Agent output", empty caption, tool, input and output, no block, no
    parallel marker.  A payload that is a value and carries none of the
    recognised fields normalizes, without a warning, to the default state,
    with every group list empty and every [has_] flag false. *)
Theorem C1_malformed_payload_falls_back (extra_data : jsv) :
  (forall candidate sub bg plan todo,
     prepare extra_data = Normal (candidate, sub, bg, plan, todo) ->
     widget_state_schema candidate = None ->
     exists state : WidgetState,
       normalize_extra_data extra_data
       = mkEff [Warn "sp_ai widget: invalid extra_data"] (Normal state)
       /\ state = with_groups fallback_base sub bg plan todo
       /\ kind state = Kind.final
       /\ status state = Status.running
       /\ version state = 2%float
       /\ display state = Display.card_only
       /\ title state = "Agent output"
       /\ caption state = ""
       /\ tool state = ""
       /\ input state = ""
       /\ output state = ""
       /\ blocks state = []
       /\ parallel state = None)
  /\ (is_nullish extra_data = false ->
      (forall k, In k recognised_fields -> get extra_data k = JUndefined) ->
      normalize_extra_data extra_data = mkEff [] (Normal documented_default_state)
      /\ subagent_groups documented_default_state = []
      /\ background_task_groups documented_default_state = []
      /\ plan_groups documented_default_state = []
      /\ todo_groups documented_default_state = []
      /\ has_subagent_groups documented_default_state = false
      /\ has_background_tasks documented_default_state = false
      /\ has_plan_blocks documented_default_state = false
      /\ has_todo_blocks documented_default_state = false).
Proof.
  split.
  - intros candidate sub bg plan todo Hprepared Hinvalid.
    exists (with_groups fallback_base sub bg plan todo).
    split; [now apply normalize_extra_data_invalid with (candidate := candidate) |].
    repeat split.
  - intros Hvalue Hmissing.
    split; [now apply normalize_extra_data_minimal |].
    repeat split.
Qed.
End NormalizeFacts.

(** ** Batches of events *)

Lemma string_app_empty_r (s : string) : s ++ "" = s.
Proof.
  induction s as [| c s IH]; [reflexivity |].
  change (String c (s ++ "") = String c s). now rewrite IH.
Qed.

Lemma string_concat_cons (c : string) (rest : list string) :
  String.concat "" (c :: rest) = c ++ String.concat "" rest.
Proof. destruct rest; [symmetry; apply string_app_empty_r | reflexivity]. Qed.

Lemma next_output_append (o chunk : string) :
  (if String.eqb o "" then chunk else o ++ chunk) = o ++ chunk.
Proof. destruct (String.eqb_spec o "") as [-> | _]; reflexivity. Qed.

Lemma with_output_same (state : WidgetState) : with_output state (output state) = state.
Proof. destruct state. reflexivity. Qed.

Lemma with_status_same (state : WidgetState) : with_status state (status state) = state.
Proof. destruct state. reflexivity. Qed.

Section BatchFacts.
Context `{Host}.

Lemma normalize_extra_data_trace (extra : jsv) :
  log (trace (normalize_extra_data extra)) = trace (normalize_extra_data extra).
Proof.
  unfold normalize_extra_data, mbind, Eff_bind, lift. cbn [completion trace].
  destruct (prepare extra) as [[[[[candidate sub] bg] plan] todo] | msg]; [| reflexivity].
  cbn. destruct (widget_state_schema candidate); reflexivity.
Qed.

Lemma apply_inbound_event_trace (state : WidgetState) (evt : SpAiWidgetInboundEvent) :
  log (trace (apply_inbound_event state evt)) = trace (apply_inbound_event state evt).
Proof. destruct evt; [apply normalize_extra_data_trace | reflexivity ..]. Qed.

Lemma log_app (a b : list effect) : log (a ++ b)%list = (log a ++ log b)%list.
Proof. unfold log. apply List.filter_app. Qed.

(** The shape of every outcome: the log, then one paint of the final state
    unless an event threw. *)
Lemma handle_events_shape (state : WidgetState) (events : list Event) :
  let o := handle_events state events in
  exists final,
    next o = handle_events_over final
    /\ effects o
       = (log (effects o) ++ match thrown o with None => [Render final] | Some _ => [] end)%list.
Proof.
  revert state. induction events as [| event rest IH]; intros state; cbn [handle_events].
  - exists state. split; reflexivity.
  - destruct (sp_ai_widget_inbound_event_schema (data event)) as [evt |]; [| apply IH].
    pose proof (apply_inbound_event_trace state evt) as Htrace.
    destruct (completion (apply_inbound_event state evt)) as [state' | msg].
    + destruct (IH state') as (final & Hnext & Heffects). cbv zeta in *.
      exists final. cbn [next effects thrown]. split; [exact Hnext |].
      rewrite log_app, Htrace, <- app_assoc. f_equal. exact Heffects.
    + exists state. cbn [next effects thrown]. split; [reflexivity |].
      rewrite Htrace, app_nil_r. reflexivity.
Qed.

(** X1: a stream of [append_output] events, of any length, is painted
    once, on the state that the handler keeps: its output is the old output
    followed by the chunks in order, and every other field is as it was. *)
Theorem X1_append_output_stream (state : WidgetState) (chunks : list string) :
  exists final : WidgetState,
    handle_events state (map append_output_event chunks)
    = {| next := handle_events_over final; effects := [Render final]; thrown := None |}
    /\ output final = output state ++ String.concat "" chunks
    /\ fields_but_output final = fields_but_output state.
Proof.
  revert state.
  induction chunks as [| chunk rest IH]; intros state; cbn [map handle_events].
  - exists state. cbn [String.concat]. rewrite string_app_empty_r. auto.
  - change (sp_ai_widget_inbound_event_schema (data (append_output_event chunk)))
      with (Some (append_output chunk)).
    cbn [apply_inbound_event mret Eff_ret completion trace app].
    destruct (IH (with_output state
                    (if String.eqb (output state) "" then chunk else output state ++ chunk)))
      as (final & -> & Houtput & Hframe).
    exists final. cbn [next effects thrown]. split; [reflexivity |].
    split; [| exact Hframe].
    rewrite Houtput, string_concat_cons, <- string_app_assoc.
    cbn [output with_output].
    destruct (String.eqb_spec (output state) "") as [-> | _]; reflexivity.
Qed.

(** X2: a call of the handler paints at most once, and last: when no event
    throws, its effects are its log entries followed by one paint of the
    state it ends on; when an event throws, nothing is painted. *)
Theorem X2_one_paint_per_batch (state : WidgetState) (events : list Event) :
  let o := handle_events state events in
  exists final : WidgetState,
    next o = handle_events_over final
    /\ match thrown o with
       | None => effects o = (log (effects o) ++ [Render final])%list
       | Some _ => effects o = log (effects o)
       end.
Proof.
  destruct (handle_events_shape state events) as (final & Hnext & Heffects).
  cbv zeta in *. exists final. split; [exact Hnext |].
  destruct (thrown (handle_events state events)); [| exact Heffects].
  now rewrite app_nil_r in Heffects.
Qed.

Lemma handle_events_app (state : WidgetState) (l1 l2 : list Event) :
  let first := handle_events state l1 in
  handle_events state (l1 ++ l2)
  = match thrown first with
    | Some _ => first
    | None =>
        let second := call (next first) l2 in
        {| next := next second;
           effects := (log (effects first) ++ effects second)%list;
           thrown := thrown second |}
    end.
Proof.
  cbv zeta. revert state.
  induction l1 as [| event rest IH]; intros state; cbn [app handle_events].
  - cbn. destruct (handle_events state l2); reflexivity.
  - destruct (sp_ai_widget_inbound_event_schema (data event)) as [evt |]; [| apply IH].
    pose proof (apply_inbound_event_trace state evt) as Htrace.
    destruct (completion (apply_inbound_event state evt)) as [state' | msg];
      [| reflexivity].
    rewrite IH. cbn [thrown next effects].
    destruct (thrown (handle_events state' rest)) eqn:Hthrown.
    + cbn [thrown]. now rewrite Hthrown.
    + rewrite log_app, Htrace, <- app_assoc. reflexivity.
Qed.

(** X3: delivering events in two calls or in one makes no difference to
    the state: when the first part does not throw, the whole batch ends
    where the second part ends from the state the first part left, with the
    log entries of both and the paint of the second only; when the first
    part throws, the rest of the batch is never looked at. *)
Theorem X3_batches_compose (state : WidgetState) (l1 l2 : list Event) :
  let first := handle_events state l1 in
  let second := call (next first) l2 in
  (thrown first = None ->
   handle_events state (l1 ++ l2)
   = {| next := next second;
        effects := (log (effects first) ++ effects second)%list;
        thrown := thrown second |})
  /\ (thrown first <> None -> handle_events state (l1 ++ l2) = first).
Proof.
  cbv zeta. pose proof (handle_events_app state l1 l2) as Happ. cbv zeta in Happ.
  split; intros Hthrown.
  - now rewrite Hthrown in Happ.
  - destruct (thrown (handle_events state l1)); [exact Happ | congruence].
Qed.

(** X4: events other than [set_extra_data] (valid or not) touch nothing
    but [status] and [output]: the call never throws, logs nothing, and
    paints once a state that differs from the old one in those two fields
    at most. *)
Theorem X4_direct_mutations_keep_the_frame (state : WidgetState) (events : list Event) :
  forallb keeps_payload events = true ->
  exists (s : Status.t) (o : string),
    let final := with_output (with_status state s) o in
    handle_events state events
    = {| next := handle_events_over final; effects := [Render final]; thrown := None |}.
Proof.
  cbv zeta. revert state.
  induction events as [| event rest IH]; intros state Hkeeps; cbn [handle_events].
  - exists (status state), (output state).
    now rewrite with_status_same, with_output_same.
  - cbn [forallb] in Hkeeps. apply andb_prop in Hkeeps as [Hkeep Hrest].
    unfold keeps_payload in Hkeep.
    destruct (sp_ai_widget_inbound_event_schema (data event)) as [evt |];
      [| exact (IH state Hrest)].
    destruct evt as [extra | s | o | chunk]; [discriminate | ..]; cbn;
      match goal with
      | |- context [handle_events ?st rest] =>
          destruct (IH st Hrest) as (s' & o' & ->)
      end; exists s', o'; reflexivity.
Qed.

(** X5: a [set_extra_data] event whose payload is [null] or missing makes
    the call throw: the events before it have been applied, the events
    after it are never looked at, and nothing is painted. *)
Theorem X5_missing_payload_aborts_the_batch (state : WidgetState)
    (before after : list Event) (bad : Event) (payload : jsv) :
  sp_ai_widget_inbound_event_schema (data bad) = Some (set_extra_data payload) ->
  is_nullish payload = true ->
  thrown (handle_events state before) = None ->
  handle_events state (before ++ bad :: after)
  = {| next := next (handle_events state before);
       effects := log (effects (handle_events state before));
       thrown := Some "TypeError: Cannot read properties of null or undefined" |}.
Proof.
  intros Hbad Hpayload Hbefore.
  pose proof (handle_events_app state before (bad :: after)) as Happ. cbv zeta in Happ.
  rewrite Hbefore in Happ. rewrite Happ.
  destruct (handle_events_shape state before) as (final & Hnext & _). cbv zeta in Hnext.
  rewrite Hnext. cbn [call handle_events]. rewrite Hbad.
  assert (Hthrows : normalize_extra_data payload
                    = mkEff [] (Throw "TypeError: Cannot read properties of null or undefined")).
  { destruct payload; try discriminate; reflexivity. }
  cbn [apply_inbound_event]. rewrite Hthrows. cbn. rewrite app_nil_r. reflexivity.
Qed.
End BatchFacts.


(** ** Invariants of the extractors *)

Section GroupLoops.
Context `{Host}.

Lemma subagent_groups_loop_generic (i g : nat) (blocks : list jsv) :
  groups_loop (fun _ block => Normal (subagent_group_of_block block)) i g blocks
  = Normal (subagent_groups_loop i blocks).
Proof.
  revert i g. induction blocks as [| block rest IH]; intros i g; [reflexivity |].
  cbn [groups_loop subagent_groups_loop]. cbn.
  destruct (subagent_group_of_block block); rewrite IH; [| reflexivity].
  cbn. now destruct (subagent_groups_loop (S i) rest).
Qed.

Lemma background_groups_loop_generic (i g : nat) (blocks : list jsv) :
  groups_loop (fun k block => Normal (background_group_of_block k block)) i g blocks
  = Normal (background_groups_loop i g blocks).
Proof.
  revert i g. induction blocks as [| block rest IH]; intros i g; [reflexivity |].
  cbn [groups_loop background_groups_loop]. cbn.
  destruct (background_group_of_block g block); rewrite IH; [| reflexivity].
  cbn. now destruct (background_groups_loop (S i) (S g) rest).
Qed.

Lemma plan_groups_loop_generic (i g : nat) (blocks : list jsv) :
  groups_loop plan_group_of_block i g blocks = plan_groups_loop i g blocks.
Proof.
  revert i g. induction blocks as [| block rest IH]; intros i g; [reflexivity |].
  cbn [groups_loop plan_groups_loop].
  destruct (plan_group_of_block g block) as [[group |] | msg]; cbn;
    rewrite ?IH; reflexivity.
Qed.

Lemma todo_groups_loop_generic (i g : nat) (blocks : list jsv) :
  groups_loop todo_group_of_block i g blocks = todo_groups_loop i g blocks.
Proof.
  revert i g. induction blocks as [| block rest IH]; intros i g; [reflexivity |].
  cbn [groups_loop todo_groups_loop].
  destruct (todo_group_of_block g block) as [[group |] | msg]; cbn;
    rewrite ?IH; reflexivity.
Qed.
End GroupLoops.

(** One group per skipped block, and only positions of the array are
    skipped. *)
Lemma groups_loop_skip {G} (body : nat -> jsv -> js (option G)) (blocks : list jsv)
    (i g : nat) (groups : list G) (skip : gset nat) :
  groups_loop body i g blocks = Normal (groups, skip) ->
  size skip = length groups /\ forall x, x ∈ skip -> i <= x < i + length blocks.
Proof.
  revert i g groups skip.
  induction blocks as [| block rest IH]; intros i g groups skip; cbn [groups_loop].
  - intros [= <- <-]. split; [apply size_empty | set_solver].
  - destruct (body g block) as [[group |] | msg]; cbn; [| | discriminate].
    + destruct (groups_loop body (S i) (S g) rest) as [[groups' skip'] | msg] eqn:Hrest;
        cbn; [| discriminate].
      intros [= <- <-]. destruct (IH _ _ _ _ Hrest) as [Hsize Hrange].
      split.
      * rewrite size_union, size_singleton, Hsize; [reflexivity |].
        apply disjoint_singleton_l. intros Hin. apply Hrange in Hin. lia.
      * intros x. rewrite elem_of_union, elem_of_singleton. cbn [length].
        intros [-> | Hin]; [lia |]. apply Hrange in Hin. lia.
    + intros Hrest. destruct (IH _ _ _ _ Hrest) as [Hsize Hrange].
      split; [exact Hsize |]. intros x Hin. apply Hrange in Hin. cbn [length]. lia.
Qed.

(** What the body guarantees about a group it pushes with group index [k]
    holds of the [n]-th group with [k = g + n]. *)
Lemma groups_loop_lookup {G} (body : nat -> jsv -> js (option G)) (P : nat -> G -> Prop)
    (blocks : list jsv) (i g : nat) (groups : list G) (skip : gset nat) :
  (forall k block group, body k block = Normal (Some group) -> P k group) ->
  groups_loop body i g blocks = Normal (groups, skip) ->
  forall n group, groups !! n = Some group -> P (g + n) group.
Proof.
  intros Hbody. revert i g groups skip.
  induction blocks as [| block rest IH]; intros i g groups skip; cbn [groups_loop].
  - intros [= <- <-] n group Hn. discriminate.
  - destruct (body g block) as [[group |] | msg] eqn:Hpushed; cbn; [| | discriminate].
    + destruct (groups_loop body (S i) (S g) rest) as [[groups' skip'] | msg] eqn:Hrest;
        cbn; [| discriminate].
      intros [= <- <-] [| n] group' Hn; cbn in Hn.
      * injection Hn as <-. rewrite Nat.add_0_r. eauto.
      * replace (g + S n) with (S g + n) by lia. eapply IH; eassumption.
    + intros Hrest. eapply IH; eassumption.
Qed.

Lemma lookup_numbering {G} (group_index : G -> nat) (groups : list G) (g : nat) :
  (forall n group, groups !! n = Some group -> group_index group = g + n) ->
  map group_index groups = seq g (length groups).
Proof.
  revert g. induction groups as [| group groups IH]; intros g Hlookup; [reflexivity |].
  cbn [map length seq]. f_equal.
  - rewrite (Hlookup 0 group eq_refl). lia.
  - apply IH. intros n group' Hn. rewrite (Hlookup (S n) group' Hn). lia.
Qed.

Lemma lookup_Forall {G} (P : G -> Prop) (groups : list G) :
  (forall n group, groups !! n = Some group -> P group) -> Forall P groups.
Proof.
  intros Hlookup. apply Forall_forall. intros group Hin.
  apply list_elem_of_lookup in Hin as [n Hn]. eauto.
Qed.

(** *** Indices that survive a filter *)

Lemma filter_imap_indices {A T} (f : nat -> A -> T) (idx : T -> nat) (keep : T -> bool)
    (l : list A) (n : nat) :
  (forall i x, idx (f i x) = n + i) ->
  map idx (List.filter keep (imap f l)) `sublist_of` seq n (length l).
Proof.
  revert f n. induction l as [| x l IH]; intros f n Hidx; [constructor |].
  cbn [imap List.filter length seq].
  assert (Hrest : map idx (List.filter keep (imap (f ∘ S) l)) `sublist_of` seq (S n) (length l)).
  { apply IH. intros i y. cbn. rewrite Hidx. lia. }
  destruct (keep (f 0 x)); cbn [map].
  - rewrite Hidx, Nat.add_0_r. now apply sublist_skip.
  - now apply sublist_cons.
Qed.

Lemma omap_imap_indices {A T} (f : nat -> A -> option T) (idx : T -> nat) (P : T -> Prop)
    (l : list A) (n : nat) :
  (forall i x t, f i x = Some t -> idx t = n + i /\ P t) ->
  map idx (omap id (imap f l)) `sublist_of` seq n (length l)
  /\ Forall P (omap id (imap f l)).
Proof.
  revert f n. induction l as [| x l IH]; intros f n Hf; [split; constructor |].
  cbn [imap length seq].
  destruct (IH (f ∘ S) (S n)) as [Hsub Hall].
  { intros i y t Ht. cbn in Ht. apply Hf in Ht as [Hi Ht]. split; [lia | exact Ht]. }
  destruct (f 0 x) as [t |] eqn:Hhead; cbn.
  - destruct (Hf 0 x t Hhead) as [Hi Ht]. rewrite Hi, Nat.add_0_r.
    split; [now apply sublist_skip | now constructor].
  - split; [now apply sublist_cons | exact Hall].
Qed.

Lemma js_sequence_imap_indices {A T} (f : nat -> A -> js (option T)) (idx : T -> nat)
    (P : T -> Prop) (l : list A) (n : nat) (rows : list (option T)) :
  (forall i x t, f i x = Normal (Some t) -> idx t = n + i /\ P t) ->
  js_sequence (imap f l) = Normal rows ->
  map idx (omap id rows) `sublist_of` seq n (length l) /\ Forall P (omap id rows).
Proof.
  unfold js_sequence. revert f n rows.
  induction l as [| x l IH]; intros f n rows Hf; cbn [imap js_map].
  - intros [= <-]. split; constructor.
  - change (id (f 0 x)) with (f 0 x).
    destruct (f 0 x) as [row | msg] eqn:Hhead; cbn [mbind js_bind]; [| discriminate].
    destruct (js_map id (imap (f ∘ S) l)) as [rows' | msg] eqn:Hrest;
      cbn [mbind js_bind]; [| discriminate].
    intros [= <-].
    destruct (IH (f ∘ S) (S n) rows') as [Hsub Hall]; [| exact Hrest |].
    { intros i y t Ht. cbn in Ht. apply Hf in Ht as [Hi Ht]. split; [lia | exact Ht]. }
    cbn [length seq]. destruct row as [t |]; cbn.
    + destruct (Hf 0 x t Hhead) as [Hi Ht]. rewrite Hi, Nat.add_0_r.
      split; [now apply sublist_skip | now constructor].
    + split; [now apply sublist_cons | exact Hall].
Qed.

Lemma length_eqb_0_nil {A} (l : list A) : (length l =? 0)%nat = false -> l <> [].
Proof. destruct l; [discriminate | discriminate]. Qed.

Lemma imap_indices {A T} (f : nat -> A -> T) (idx : T -> nat) (l : list A) (n : nat) :
  (forall i x, idx (f i x) = n + i) ->
  map idx (imap f l) = seq n (length l).
Proof.
  revert f n. induction l as [| x l IH]; intros f n Hidx; [reflexivity |].
  cbn [imap map length seq]. rewrite Hidx, Nat.add_0_r. f_equal.
  apply IH. intros i y. cbn. rewrite Hidx. lia.
Qed.

Lemma Forall_imap {A T} (f : nat -> A -> T) (Q : A -> Prop) (P : T -> Prop) (l : list A) :
  (forall i x, Q x -> P (f i x)) -> Forall Q l -> Forall P (imap f l).
Proof.
  revert f. induction l as [| x l IH]; intros f Hf Hl; [constructor |].
  apply Forall_cons in Hl as [Hx Hl]. cbn [imap]. constructor; [auto |].
  apply IH; [| exact Hl]. intros i y. apply Hf.
Qed.

Lemma sorted_of_sublist (l : list nat) (n m : nat) :
  l `sublist_of` seq n m -> StronglySorted lt l.
Proof. apply sublist_seq_sorted. Qed.

Section ExtractorInvariants.
Context `{Host}.

Lemma normalize_agent_type (agent : Subagent.t) :
  SubagentTemplate.type (normalize_agent agent) <> "".
Proof.
  unfold normalize_agent. destruct (normalize_subagent_status _) as [status label].
  cbn [SubagentTemplate.type].
  destruct (String.eqb_spec (default "" (trim <$> Subagent.type agent)) "") as [E | E];
    cbn [negb]; [discriminate | exact E].
Qed.

Lemma subagent_group_of_block_content (block : jsv) (group : SubagentGroupTemplate.t) :
  subagent_group_of_block block = Some group -> subagent_group_has_content group.
Proof.
  unfold subagent_group_of_block.
  destruct (sp_ai_subagent_group_block_schema block) as [data |]; [| discriminate].
  cbv zeta.
  destruct ((length (default [] (SubagentGroupBlock.agents data)) =? 0)%nat
            && String.eqb (default "" (SubagentGroupBlock.text data)) "") eqn:Hempty;
    [discriminate |].
  intros [= <-]. split; cbn.
  - apply andb_false_iff in Hempty as [Hagents | Htext].
    + left. destruct (default [] (SubagentGroupBlock.agents data)); discriminate.
    + right. now apply String.eqb_neq.
  - apply List.Forall_map, Forall_forall. intros agent _. apply normalize_agent_type.
Qed.

Lemma background_task_template_index (i : nat) (task : jsv) :
  BackgroundTaskTemplate.task_index (background_task_template i task) = i.
Proof.
  unfold background_task_template. cbv zeta.
  destruct (normalize_background_task_status _). reflexivity.
Qed.

Lemma background_group_of_block_spec (k : nat) (block : jsv)
    (group : BackgroundTasksGroupTemplate.t) :
  background_group_of_block k block = Some group ->
  BackgroundTasksGroupTemplate.group_index group = k
  /\ StronglySorted lt
       (map BackgroundTaskTemplate.task_index (BackgroundTasksGroupTemplate.tasks group))
  /\ background_group_has_content group.
Proof.
  unfold background_group_of_block.
  destruct (sp_ai_background_tasks_block_schema block) as [data |]; [| discriminate].
  cbv zeta.
  destruct (length (default [] (BackgroundTasksBlock.tasks data)) =? 0)%nat; [discriminate |].
  destruct (length (List.filter _ _) =? 0)%nat eqn:Hshown; [discriminate |].
  intros [= <-]. cbn. split; [reflexivity | split; [| split]].
  - eapply sorted_of_sublist, filter_imap_indices with (n := 0).
    intros i task. apply background_task_template_index.
  - now apply length_eqb_0_nil.
  - apply Forall_forall. intros task Hin.
    apply list_elem_of_In, List.filter_In in Hin. tauto.
Qed.

Lemma plan_step_of_row_spec (i : nat) (row : PlanV2.row) (step : PlanStepTemplate.t) :
  plan_step_of_row i row = Normal (Some step) ->
  PlanStepTemplate.step_index step = 0 + i /\ PlanStepTemplate.step step <> "".
Proof.
  unfold plan_step_of_row.
  destruct (ToString (PlanV2.step row ?? JStr "")) as [step_text | msg];
    cbn [mbind js_bind]; [| discriminate].
  destruct (ToString (PlanV2.status row ?? JStr "")) as [status_text | msg];
    cbn [mbind js_bind]; [| discriminate].
  destruct (normalize_plan_step_status status_text) as [status label].
  destruct (String.eqb_spec (trim step_text) "") as [E | E]; [discriminate |].
  intros [= <-]. split; [reflexivity | exact E].
Qed.

Lemma plan_group_of_block_spec (k : nat) (block : jsv) (group : PlanGroupTemplate.t) :
  plan_group_of_block k block = Normal (Some group) ->
  PlanGroupTemplate.group_index group = k
  /\ StronglySorted lt (map PlanStepTemplate.step_index (PlanGroupTemplate.steps group))
  /\ plan_group_has_content group.
Proof.
  unfold plan_group_of_block.
  destruct (sp_ai_plan_v2_block_schema block) as [data |].
  - cbv zeta.
    destruct (length (default [] (PlanV2.steps data)) =? 0)%nat; [discriminate |].
    destruct (js_sequence (imap plan_step_of_row (default [] (PlanV2.steps data))))
      as [rows | msg] eqn:Hrows; cbn [mbind js_bind]; [| discriminate].
    destruct (js_sequence_imap_indices _ PlanStepTemplate.step_index
                (fun s => PlanStepTemplate.step s <> "") _ 0 rows plan_step_of_row_spec Hrows)
      as [Hsub Hall].
    destruct (length (omap id rows) =? 0)%nat eqn:Hsteps; [discriminate |].
    intros [= <-]. cbn. split; [reflexivity | split; [| split]].
    + eapply sorted_of_sublist, Hsub.
    + now apply length_eqb_0_nil.
    + exact Hall.
  - cbv zeta.
    destruct (ToString (or_else (get (as_record block) "kind") (JStr ""))) as [kind | msg];
      cbn [mbind js_bind]; [| discriminate].
    destruct (negb (String.eqb kind "plan")); [discriminate |].
    match goal with
    | |- context [Nat.eqb (length ?items) 0] =>
        set (texts := items); destruct (Nat.eqb (length texts) 0) eqn:Hitems
    end; [discriminate |].
    assert (Hall : Forall (fun s => s <> "") texts).
    { apply Forall_forall. intros s Hin. subst texts.
      apply list_elem_of_In, List.filter_In in Hin as [_ Hs].
      apply negb_true_iff in Hs. now apply String.eqb_neq. }
    apply length_eqb_0_nil in Hitems. clearbody texts.
    intros [= <-]. cbn [PlanGroupTemplate.group_index PlanGroupTemplate.steps].
    split; [reflexivity | split; [| split]].
    + rewrite imap_indices with (n := 0) by reflexivity.
      eapply sorted_of_sublist. reflexivity.
    + cbn [PlanGroupTemplate.steps]. destruct texts; [congruence | discriminate].
    + cbn [PlanGroupTemplate.steps].
      apply Forall_imap with (Q := fun s => s <> ""); [auto | exact Hall].
Qed.

Lemma todo_item_of_row_spec (i : nat) (row : TodoV2.row) (item : TodoItemTemplate.t) :
  todo_item_of_row i row = Normal (Some item) ->
  TodoItemTemplate.item_index item = 0 + i /\ TodoItemTemplate.text item <> "".
Proof.
  unfold todo_item_of_row.
  destruct (ToString (TodoV2.text row ?? JStr "")) as [text_raw | msg];
    cbn [mbind js_bind]; [| discriminate].
  destruct (String.eqb_spec (trim text_raw) "") as [E | E]; [discriminate |].
  intros [= <-]. split; [reflexivity | exact E].
Qed.

Lemma legacy_todo_item_spec (i : nat) (raw : jsv) (item : TodoItemTemplate.t) :
  legacy_todo_item i raw = Some item ->
  TodoItemTemplate.item_index item = 0 + i /\ TodoItemTemplate.text item <> "".
Proof.
  unfold legacy_todo_item. destruct raw as [| | | | s | |]; try discriminate.
  destruct (todo_item_match (trim s)) as [[mark rest] |]; [| discriminate].
  destruct (String.eqb_spec (trim rest) "") as [E | E]; [discriminate |].
  intros [= <-]. split; [reflexivity | exact E].
Qed.

Lemma todo_group_of_block_spec (k : nat) (block : jsv) (group : TodoGroupTemplate.t) :
  todo_group_of_block k block = Normal (Some group) ->
  TodoGroupTemplate.group_index group = k
  /\ StronglySorted lt (map TodoItemTemplate.item_index (TodoGroupTemplate.items group))
  /\ todo_group_has_content group.
Proof.
  unfold todo_group_of_block.
  destruct (sp_ai_todo_v2_block_schema block) as [data |].
  - cbv zeta.
    destruct (length (default [] (TodoV2.items data)) =? 0)%nat; [discriminate |].
    destruct (js_sequence (imap todo_item_of_row (default [] (TodoV2.items data))))
      as [rows | msg] eqn:Hrows; cbn [mbind js_bind]; [| discriminate].
    destruct (js_sequence_imap_indices _ TodoItemTemplate.item_index
                (fun i => TodoItemTemplate.text i <> "") _ 0 rows todo_item_of_row_spec Hrows)
      as [Hsub Hall].
    destruct (length (omap id rows) =? 0)%nat eqn:Hitems; [discriminate |].
    intros [= <-]. cbn. split; [reflexivity | split; [| split]].
    + eapply sorted_of_sublist, Hsub.
    + now apply length_eqb_0_nil.
    + exact Hall.
  - cbv zeta.
    destruct (ToString (or_else (get (as_record block) "kind") (JStr ""))) as [kind | msg];
      cbn [mbind js_bind]; [| discriminate].
    destruct (negb (String.eqb kind "todo")); [discriminate |].
    destruct (omap_imap_indices legacy_todo_item TodoItemTemplate.item_index
                (fun i => TodoItemTemplate.text i <> "")
                (array_or_empty (get (as_record block) "items")) 0 legacy_todo_item_spec)
      as [Hsub Hall].
    destruct (length (omap id _) =? 0)%nat eqn:Hitems; [discriminate |].
    intros [= <-]. cbn. split; [reflexivity | split; [| split]].
    + eapply sorted_of_sublist, Hsub.
    + now apply length_eqb_0_nil.
    + exact Hall.
Qed.
End ExtractorInvariants.

(** *** From the loops to the normalizers and to the state *)

Section NormalizerInvariants.
Context `{Host}.

Lemma normalize_subagent_groups_spec (extra_data : jsv) (r : SubagentGroups.t) :
  normalize_subagent_groups extra_data = Normal r ->
  Forall subagent_group_has_content (SubagentGroups.subagent_groups r)
  /\ size (SubagentGroups.skip_block_indexes r) = length (SubagentGroups.subagent_groups r)
  /\ forall x, x ∈ SubagentGroups.skip_block_indexes r -> x < length (payload_blocks extra_data).
Proof.
  unfold normalize_subagent_groups, member.
  destruct (is_nullish extra_data); [discriminate |]. cbn [mbind js_bind]. cbv zeta.
  fold (payload_blocks extra_data).
  pose proof (subagent_groups_loop_generic 0 0 (payload_blocks extra_data)) as Hloop.
  destruct (subagent_groups_loop 0 (payload_blocks extra_data)) as [groups skip].
  intros [= <-]. cbn.
  destruct (groups_loop_skip _ _ _ _ _ _ Hloop) as [Hsize Hrange].
  split; [| split; [exact Hsize |]].
  - apply lookup_Forall. intros n group Hn.
    eapply (groups_loop_lookup _ (fun _ => subagent_group_has_content)); [| exact Hloop | exact Hn].
    intros k block g [= Hg]. now apply subagent_group_of_block_content in Hg.
  - intros x Hx. apply Hrange in Hx. lia.
Qed.

Lemma normalize_background_tasks_spec (extra_data : jsv) (r : BackgroundTasks.t) :
  normalize_background_tasks extra_data = Normal r ->
  numbered BackgroundTasksGroupTemplate.group_index BackgroundTasksGroupTemplate.tasks
    BackgroundTaskTemplate.task_index (BackgroundTasks.background_task_groups r)
  /\ Forall background_group_has_content (BackgroundTasks.background_task_groups r)
  /\ size (BackgroundTasks.skip_block_indexes r)
     = length (BackgroundTasks.background_task_groups r)
  /\ forall x, x ∈ BackgroundTasks.skip_block_indexes r -> x < length (payload_blocks extra_data).
Proof.
  unfold normalize_background_tasks, turn_blocks_of, member.
  destruct (is_nullish extra_data); [discriminate |]. cbn [mbind js_bind]. cbv zeta.
  fold (payload_blocks extra_data).
  pose proof (background_groups_loop_generic 0 0 (payload_blocks extra_data)) as Hloop.
  destruct (background_groups_loop 0 0 (payload_blocks extra_data)) as [groups skip].
  intros [= <-]. cbn.
  destruct (groups_loop_skip _ _ _ _ _ _ Hloop) as [Hsize Hrange].
  pose proof (groups_loop_lookup _
                (fun k g => BackgroundTasksGroupTemplate.group_index g = k
                            /\ StronglySorted lt
                                 (map BackgroundTaskTemplate.task_index
                                    (BackgroundTasksGroupTemplate.tasks g))
                            /\ background_group_has_content g) _ _ _ _ _
                (fun k block g (E : Normal _ = Normal (Some g)) =>
                   background_group_of_block_spec k block g
                     (f_equal (fun m => match m with Normal a => a | Throw _ => None end) E))
                Hloop) as Hgroups.
  split; [split |]; [| | split; [| split; [exact Hsize |]]].
  - apply lookup_numbering. intros n g Hn. now apply Hgroups.
  - apply lookup_Forall. intros n g Hn. now apply Hgroups in Hn.
  - apply lookup_Forall. intros n g Hn. now apply Hgroups in Hn.
  - intros x Hx. apply Hrange in Hx. lia.
Qed.

Lemma normalize_plan_blocks_spec (extra_data : jsv) (r : PlanBlocks.t) :
  normalize_plan_blocks extra_data = Normal r ->
  numbered PlanGroupTemplate.group_index PlanGroupTemplate.steps
    PlanStepTemplate.step_index (PlanBlocks.plan_groups r)
  /\ Forall plan_group_has_content (PlanBlocks.plan_groups r)
  /\ size (PlanBlocks.skip_block_indexes r) = length (PlanBlocks.plan_groups r)
  /\ forall x, x ∈ PlanBlocks.skip_block_indexes r -> x < length (payload_blocks extra_data).
Proof.
  unfold normalize_plan_blocks, turn_blocks_of, member.
  destruct (is_nullish extra_data); [discriminate |]. cbn [mbind js_bind].
  fold (payload_blocks extra_data).
  rewrite <- plan_groups_loop_generic.
  destruct (groups_loop plan_group_of_block 0 0 (payload_blocks extra_data))
    as [[groups skip] | msg] eqn:Hloop; cbn [mbind js_bind]; [| discriminate].
  intros [= <-]. cbn.
  destruct (groups_loop_skip _ _ _ _ _ _ Hloop) as [Hsize Hrange].
  pose proof (groups_loop_lookup _
                (fun k g => PlanGroupTemplate.group_index g = k
                            /\ StronglySorted lt
                                 (map PlanStepTemplate.step_index (PlanGroupTemplate.steps g))
                            /\ plan_group_has_content g) _ _ _ _ _
                plan_group_of_block_spec Hloop) as Hgroups.
  split; [split |]; [| | split; [| split; [exact Hsize |]]].
  - apply lookup_numbering. intros n g Hn. now apply Hgroups.
  - apply lookup_Forall. intros n g Hn. now apply Hgroups in Hn.
  - apply lookup_Forall. intros n g Hn. now apply Hgroups in Hn.
  - intros x Hx. apply Hrange in Hx. lia.
Qed.

Lemma normalize_todo_blocks_spec (extra_data : jsv) (r : TodoBlocks.t) :
  normalize_todo_blocks extra_data = Normal r ->
  numbered TodoGroupTemplate.group_index TodoGroupTemplate.items
    TodoItemTemplate.item_index (TodoBlocks.todo_groups r)
  /\ Forall todo_group_has_content (TodoBlocks.todo_groups r)
  /\ size (TodoBlocks.skip_block_indexes r) = length (TodoBlocks.todo_groups r)
  /\ forall x, x ∈ TodoBlocks.skip_block_indexes r -> x < length (payload_blocks extra_data).
Proof.
  unfold normalize_todo_blocks, turn_blocks_of, member.
  destruct (is_nullish extra_data); [discriminate |]. cbn [mbind js_bind].
  fold (payload_blocks extra_data).
  rewrite <- todo_groups_loop_generic.
  destruct (groups_loop todo_group_of_block 0 0 (payload_blocks extra_data))
    as [[groups skip] | msg] eqn:Hloop; cbn [mbind js_bind]; [| discriminate].
  intros [= <-]. cbn.
  destruct (groups_loop_skip _ _ _ _ _ _ Hloop) as [Hsize Hrange].
  pose proof (groups_loop_lookup _
                (fun k g => TodoGroupTemplate.group_index g = k
                            /\ StronglySorted lt
                                 (map TodoItemTemplate.item_index (TodoGroupTemplate.items g))
                            /\ todo_group_has_content g) _ _ _ _ _
                todo_group_of_block_spec Hloop) as Hgroups.
  split; [split |]; [| | split; [| split; [exact Hsize |]]].
  - apply lookup_numbering. intros n g Hn. now apply Hgroups.
  - apply lookup_Forall. intros n g Hn. now apply Hgroups in Hn.
  - apply lookup_Forall. intros n g Hn. now apply Hgroups in Hn.
  - intros x Hx. apply Hrange in Hx. lia.
Qed.

(** What [prepare] hands on is what the four extractors return, and the
    candidate built over the union of their skip sets. *)
Lemma prepare_inv (extra_data : jsv) candidate sub bg plan todo :
  prepare extra_data = Normal (candidate, sub, bg, plan, todo) ->
  normalize_subagent_groups extra_data = Normal sub
  /\ normalize_background_tasks extra_data = Normal bg
  /\ normalize_plan_blocks extra_data = Normal plan
  /\ normalize_todo_blocks extra_data = Normal todo
  /\ Candidate.blocks candidate
     = normalize_turn_blocks
         (opt_get (if truthy (get (or_else extra_data (JObj [])) "turn")
                      && typeof_object (get (or_else extra_data (JObj [])) "turn")
                   then get (or_else extra_data (JObj [])) "turn" else JNull) "blocks")
         (SubagentGroups.skip_block_indexes sub ∪ BackgroundTasks.skip_block_indexes bg
          ∪ PlanBlocks.skip_block_indexes plan ∪ TodoBlocks.skip_block_indexes todo).
Proof.
  unfold prepare. cbv zeta.
  destruct (ToString (or_else _ (JStr ""))) as [kindRaw | msg];
    cbn [mbind js_bind]; [| discriminate].
  destruct (ToString (or_else _ (JStr "running"))) as [statusRaw | msg];
    cbn [mbind js_bind]; [| discriminate].
  destruct (normalize_subagent_groups extra_data) as [sub' | msg];
    cbn [mbind js_bind]; [| discriminate].
  destruct (normalize_background_tasks extra_data) as [bg' | msg];
    cbn [mbind js_bind]; [| discriminate].
  destruct (normalize_plan_blocks extra_data) as [plan' | msg];
    cbn [mbind js_bind]; [| discriminate].
  destruct (normalize_todo_blocks extra_data) as [todo' | msg];
    cbn [mbind js_bind]; [| discriminate].
  intros [= <- <- <- <- <-]. repeat split.
Qed.

Lemma normalize_extra_data_inv (extra_data : jsv) (state : WidgetState) :
  completion (normalize_extra_data extra_data) = Normal state ->
  exists candidate base sub bg plan todo,
    prepare extra_data = Normal (candidate, sub, bg, plan, todo)
    /\ state = with_groups base sub bg plan todo
    /\ (base = fallback_base \/ widget_state_schema candidate = Some base).
Proof.
  unfold normalize_extra_data, mbind at 1, Eff_bind, lift. cbn [completion trace].
  destruct (prepare extra_data) as [[[[[candidate sub] bg] plan] todo] | msg];
    cbn [completion]; [| discriminate].
  destruct (widget_state_schema candidate) as [base |] eqn:Hvalid; cbn; intros [= <-].
  - exists candidate, base, sub, bg, plan, todo. auto.
  - exists candidate, fallback_base, sub, bg, plan, todo. auto.
Qed.

Lemma block_schema_index (b : Block.t (option string)) (b' : Block.t string) :
  block_schema b = Some b' -> Block.index b' = Block.index b.
Proof. unfold block_schema. intros Hb. simplify_option_eq. reflexivity. Qed.

Lemma mapM_block_schema_indices (bs : list (Block.t (option string)))
    (bs' : list (Block.t string)) :
  mapM block_schema bs = Some bs' -> map Block.index bs' = map Block.index bs.
Proof.
  rewrite mapM_Some. induction 1 as [| b b' bs bs' Hb _ IH]; [reflexivity |].
  cbn [map]. f_equal; [now apply block_schema_index | exact IH].
Qed.

Lemma widget_state_schema_blocks (c : Candidate.t) (base : WidgetBaseState.t) :
  widget_state_schema c = Some base ->
  mapM block_schema (Candidate.blocks c) = Some (WidgetBaseState.blocks base).
Proof.
  unfold widget_state_schema. intros Hc. simplify_option_eq. assumption.
Qed.

Lemma normalize_turn_blocks_sorted (raw_blocks : jsv) (skip : gset nat) :
  StronglySorted lt (map Block.index (normalize_turn_blocks raw_blocks skip)).
Proof.
  destruct raw_blocks as [| | | | | raw_blocks |]; try constructor.
  cbn [normalize_turn_blocks]. eapply sublist_seq_sorted.
  apply (emitted_from_sublist raw_blocks skip 0).
Qed.

Lemma normalize_extra_data_well_formed (extra_data : jsv) (state : WidgetState) :
  completion (normalize_extra_data extra_data) = Normal state -> well_formed_state state.
Proof.
  intros Hstate.
  apply normalize_extra_data_inv in Hstate
    as (candidate & base & sub & bg & plan & todo & Hprepared & -> & Hbase).
  apply prepare_inv in Hprepared as (Hsub & Hbg & Hplan & Htodo & Hblocks).
  apply normalize_subagent_groups_spec in Hsub as (Hsub & _).
  apply normalize_background_tasks_spec in Hbg as (Hbgn & Hbg & _).
  apply normalize_plan_blocks_spec in Hplan as (Hplann & Hplan & _).
  apply normalize_todo_blocks_spec in Htodo as (Htodon & Htodo & _).
  unfold well_formed_state. cbn.
  repeat (split; [first [assumption | reflexivity] |]).
  destruct Hbase as [-> | Hvalid]; [constructor |].
  apply widget_state_schema_blocks, mapM_block_schema_indices in Hvalid.
  rewrite Hvalid, Hblocks. apply normalize_turn_blocks_sorted.
Qed.

Lemma handle_events_invariant (P : WidgetState -> Prop) :
  (forall extra state, completion (normalize_extra_data extra) = Normal state -> P state) ->
  (forall state s, P state -> P (with_status state s)) ->
  (forall state o, P state -> P (with_output state o)) ->
  forall events state state',
    P state -> next (handle_events state events) = handle_events_over state' -> P state'.
Proof.
  intros Hfresh Hstatus Houtput.
  induction events as [| event rest IH]; intros state state' Hstate; cbn [handle_events].
  - cbn. now intros [= <-].
  - destruct (sp_ai_widget_inbound_event_schema (data event)) as [evt |]; [| now apply IH].
    destruct (completion (apply_inbound_event state evt)) as [state1 | msg] eqn:Happlied;
      cbn [next].
    + apply IH. destruct evt as [extra | s | o | chunk]; cbn in Happlied.
      * eapply Hfresh, Happlied.
      * injection Happlied as <-. now apply Hstatus.
      * injection Happlied as <-. now apply Houtput.
      * injection Happlied as <-. now apply Houtput.
    + now intros [= <-].
Qed.

Lemma reachable_invariant (P : WidgetState -> Prop) :
  (forall extra state, completion (normalize_extra_data extra) = Normal state -> P state) ->
  (forall state s, P state -> P (with_status state s)) ->
  (forall state o, P state -> P (with_output state o)) ->
  forall state, reachable state -> P state.
Proof.
  intros Hfresh Hstatus Houtput state Hreach.
  induction Hreach as [any_data state Hactivated | state events state' _ IH Hcall].
  - unfold activate in Hactivated.
    destruct (negb (String.eqb (widget_type any_data) "sp_ai")); [discriminate |].
    assert (Hnormal : forall extra,
               completion (state ← normalize_extra_data extra;
                           emit (Render state);; mret (handle_events_over state))
               = Normal (handle_events_over state) -> P state).
    { intros extra. unfold mbind at 1, Eff_bind.
      destruct (completion (normalize_extra_data extra)) as [fresh |] eqn:Hfresh';
        cbn; [| discriminate].
      intros [= <-]. eapply Hfresh, Hfresh'. }
    destruct (extra_data any_data); try (eapply Hnormal, Hactivated). discriminate.
  - eapply handle_events_invariant; eassumption.
Qed.

Lemma reachable_well_formed (state : WidgetState) :
  reachable state -> well_formed_state state.
Proof.
  apply reachable_invariant.
  - apply normalize_extra_data_well_formed.
  - intros s st Hs. exact Hs.
  - intros s o Hs. exact Hs.
Qed.
End NormalizerInvariants.

Lemma find_by_index {T} (idx : T -> nat) (l : list T) (x : T) :
  StronglySorted lt (map idx l) ->
  x ∈ l ->
  List.find (fun y => (idx y =? idx x)%nat) l = Some x.
Proof.
  induction l as [| a l IH]; intros Hsorted Hin; [inversion Hin |].
  cbn [map] in Hsorted. apply StronglySorted_inv in Hsorted as [Hrest Hhead].
  cbn [List.find]. apply elem_of_cons in Hin as [-> | Hin].
  - now rewrite Nat.eqb_refl.
  - assert (Hlt : idx a < idx x).
    { rewrite Forall_forall in Hhead. apply Hhead.
      apply list_elem_of_In, in_map, list_elem_of_In, Hin. }
    destruct (Nat.eqb_spec (idx a) (idx x)); [lia | auto].
Qed.

Lemma find_by_index_none {T} (idx : T -> nat) (l : list T) (i : nat) :
  i ∉ map idx l -> List.find (fun y => (idx y =? i)%nat) l = None.
Proof.
  induction l as [| a l IH]; intros Hnot; [reflexivity |].
  cbn [map] in Hnot. apply not_elem_of_cons in Hnot as [Hne Hnot].
  cbn [List.find]. destruct (Nat.eqb_spec (idx a) i); [congruence | auto].
Qed.

Lemma seq_sorted (n m : nat) : StronglySorted lt (seq n m).
Proof. eapply sublist_seq_sorted. reflexivity. Qed.

Section StateInvariants.
Context `{Host}.

(** X6: in every state the widget reaches, the background-task groups,
    the plan groups and the todo groups are numbered 0, 1, 2, ... in the
    order they are shown, whatever blocks were dropped in between, and the
    tasks, steps and items of a group carry strictly increasing indices. *)
Theorem X6_groups_are_numbered_in_order (state : WidgetState) :
  reachable state ->
  numbered BackgroundTasksGroupTemplate.group_index BackgroundTasksGroupTemplate.tasks
    BackgroundTaskTemplate.task_index (background_task_groups state)
  /\ numbered PlanGroupTemplate.group_index PlanGroupTemplate.steps
       PlanStepTemplate.step_index (plan_groups state)
  /\ numbered TodoGroupTemplate.group_index TodoGroupTemplate.items
       TodoItemTemplate.item_index (todo_groups state).
Proof.
  intros Hreach. apply reachable_well_formed in Hreach. unfold well_formed_state in Hreach.
  tauto.
Qed.

(** X7: each extractor skips exactly one block per group it returns, and
    only positions of the block array: the size of its skip set is the
    number of its groups, and every skipped index is below the length of
    the array. *)
Theorem X7_one_skipped_block_per_group (extra_data : jsv) candidate sub bg plan todo :
  prepare extra_data = Normal (candidate, sub, bg, plan, todo) ->
  size (SubagentGroups.skip_block_indexes sub) = length (SubagentGroups.subagent_groups sub)
  /\ size (BackgroundTasks.skip_block_indexes bg)
     = length (BackgroundTasks.background_task_groups bg)
  /\ size (PlanBlocks.skip_block_indexes plan) = length (PlanBlocks.plan_groups plan)
  /\ size (TodoBlocks.skip_block_indexes todo) = length (TodoBlocks.todo_groups todo)
  /\ forall x,
       x ∈ SubagentGroups.skip_block_indexes sub ∪ BackgroundTasks.skip_block_indexes bg
           ∪ PlanBlocks.skip_block_indexes plan ∪ TodoBlocks.skip_block_indexes todo ->
       x < length (payload_blocks extra_data).
Proof.
  intros Hprepared.
  apply prepare_inv in Hprepared as (Hsub & Hbg & Hplan & Htodo & _).
  apply normalize_subagent_groups_spec in Hsub as (_ & Hsub & Hsubr).
  apply normalize_background_tasks_spec in Hbg as (_ & _ & Hbg & Hbgr).
  apply normalize_plan_blocks_spec in Hplan as (_ & _ & Hplan & Hplanr).
  apply normalize_todo_blocks_spec in Htodo as (_ & _ & Htodo & Htodor).
  repeat (split; [assumption |]).
  intros x. rewrite !elem_of_union. intros [[[Hx | Hx] | Hx] | Hx]; auto.
Qed.

(** X8: in every state the widget reaches, no shown group is empty: a
    subagent group has an agent or a fallback text, and no agent has an
    empty type; a background-task group has a task, and each of its tasks
    has a command, a description, an output preview or an error; a plan
    group has a step and a todo group an item, none of them blank.  Each
    [has_] flag says whether its list of groups is non-empty. *)
Theorem X8_shown_groups_have_content (state : WidgetState) :
  reachable state ->
  Forall subagent_group_has_content (subagent_groups state)
  /\ Forall background_group_has_content (background_task_groups state)
  /\ Forall plan_group_has_content (plan_groups state)
  /\ Forall todo_group_has_content (todo_groups state)
  /\ has_subagent_groups state = negb (length (subagent_groups state) =? 0)%nat
  /\ has_background_tasks state = negb (length (background_task_groups state) =? 0)%nat
  /\ has_plan_blocks state = negb (length (plan_groups state) =? 0)%nat
  /\ has_todo_blocks state = negb (length (todo_groups state) =? 0)%nat.
Proof.
  intros Hreach. apply reachable_well_formed in Hreach. unfold well_formed_state in Hreach.
  tauto.
Qed.

Lemma last_paint_app (a b : list effect) (before : option WidgetState) :
  last_paint (a ++ b) before = last_paint b (last_paint a before).
Proof.
  revert before. induction a as [| e a IH]; intros before; [reflexivity |].
  destruct e; cbn; apply IH.
Qed.

Lemma activated_inv (any_data : AnyWidgetData) (w : Widget.t) :
  activated any_data = Some w ->
  completion (activate any_data) = Normal (handle_events_over (Widget.state w))
  /\ Widget.painted w = Some (Widget.state w)
  /\ Widget.returned w = true.
Proof.
  unfold activated. cbv zeta.
  destruct (completion (activate any_data)) as [[| state] | msg] eqn:Hdone;
    try discriminate.
  intros [= <-]. cbn [Widget.state Widget.painted Widget.returned].
  repeat split.
  revert Hdone. unfold activate.
  destruct (negb (String.eqb (widget_type any_data) "sp_ai")); [discriminate |].
  destruct (extra_data any_data) eqn:Hextra; try discriminate;
    unfold mbind, Eff_bind;
    destruct (completion (normalize_extra_data _)) as [fresh | msg] eqn:Hfresh;
    cbn; try discriminate;
    intros [= <-]; rewrite last_paint_app; reflexivity.
Qed.

Lemma called_inv (w : Widget.t) (events : list Event) :
  next (handle_events (Widget.state w) events)
  = handle_events_over (Widget.state (called w events))
  /\ (Widget.returned (called w events) = true ->
      Widget.painted (called w events) = Some (Widget.state (called w events))).
Proof.
  destruct (handle_events_shape (Widget.state w) events) as (final & Hnext & Heffects).
  cbv zeta in *. unfold called. cbv zeta.
  cbn [Widget.state Widget.painted Widget.returned]. rewrite Hnext. split; [reflexivity |].
  rewrite Heffects.
  destruct (thrown (handle_events (Widget.state w) events)); [discriminate |].
  intros _. rewrite last_paint_app. reflexivity.
Qed.

Lemma running_reachable (w : Widget.t) : running w -> reachable (Widget.state w).
Proof.
  induction 1 as [any_data w Hw | w events _ IH].
  - apply activated_inv in Hw as (Hdone & _). exact (reachable_activate _ _ Hdone).
  - exact (reachable_call _ events _ IH (proj1 (called_inv w events))).
Qed.

(** After [activate] and after every call that returned, the screen shows
    the variable. *)
Lemma running_in_step (w : Widget.t) :
  running w -> Widget.returned w = true -> Widget.painted w = Some (Widget.state w).
Proof.
  destruct 1 as [any_data w Hw | w events _].
  - intros _. now apply activated_inv in Hw.
  - apply called_inv.
Qed.

(** X9: while the widget runs, the lookup by block index finds the one
    block of the variable [state] that carries the index, and an index that
    no block carries copies nothing.  After [activate] and after every call
    of the handler that returned, the screen is the paint of the variable,
    so the copy button painted for a block copies the text of that very
    block.  (After a call that threw, the screen keeps the paint of an older
    state: see [a_throw_leaves_the_screen_stale].) *)
Theorem X9_copy_block_finds_its_block (w : Widget.t) :
  running w ->
  (forall block, block ∈ blocks (Widget.state w) ->
                 copy_block (Widget.state w) (Block.index block)
                 = Some (Block.copy_text block))
  /\ (forall index, index ∉ map Block.index (blocks (Widget.state w)) ->
                    copy_block (Widget.state w) index = None)
  /\ (Widget.returned w = true ->
      Widget.painted w = Some (Widget.state w)
      /\ forall shown block,
           Widget.painted w = Some shown ->
           block ∈ blocks shown ->
           copy_block (Widget.state w) (Block.index block) = Some (Block.copy_text block)).
Proof.
  intros Hrun.
  assert (Hfound : forall block, block ∈ blocks (Widget.state w) ->
                     copy_block (Widget.state w) (Block.index block)
                     = Some (Block.copy_text block)).
  { pose proof (reachable_well_formed _ (running_reachable w Hrun)) as Hwf.
    destruct Hwf as (_ & _ & _ & _ & _ & _ & _ & _ & _ & _ & _ & Hsorted).
    intros block Hin. unfold copy_block.
    now rewrite (find_by_index Block.index _ block Hsorted Hin). }
  split; [exact Hfound | split].
  - intros index Hnot. unfold copy_block. now rewrite find_by_index_none.
  - intros Hreturned. pose proof (running_in_step w Hrun Hreturned) as Hstep.
    split; [exact Hstep |].
    intros shown block Hshown. rewrite Hstep in Hshown. injection Hshown as <-.
    apply Hfound.
Qed.

(** X10: while the widget runs, the lookup by group index and task index
    finds the one task of the variable [state] that carries them.  After
    [activate] and after every call of the handler that returned, the
    screen is the paint of the variable, so the copy button painted for a
    background task copies the command of that very task. *)
Theorem X10_copy_command_finds_its_task (w : Widget.t) :
  running w ->
  (forall group task,
     group ∈ background_task_groups (Widget.state w) ->
     task ∈ BackgroundTasksGroupTemplate.tasks group ->
     copy_background_task_command (Widget.state w)
       (BackgroundTasksGroupTemplate.group_index group)
       (BackgroundTaskTemplate.task_index task)
     = Some (BackgroundTaskTemplate.command task))
  /\ (Widget.returned w = true ->
      forall shown group task,
        Widget.painted w = Some shown ->
        group ∈ background_task_groups shown ->
        task ∈ BackgroundTasksGroupTemplate.tasks group ->
        copy_background_task_command (Widget.state w)
          (BackgroundTasksGroupTemplate.group_index group)
          (BackgroundTaskTemplate.task_index task)
        = Some (BackgroundTaskTemplate.command task)).
Proof.
  intros Hrun.
  assert (Hfound : forall group task,
     group ∈ background_task_groups (Widget.state w) ->
     task ∈ BackgroundTasksGroupTemplate.tasks group ->
     copy_background_task_command (Widget.state w)
       (BackgroundTasksGroupTemplate.group_index group)
       (BackgroundTaskTemplate.task_index task)
     = Some (BackgroundTaskTemplate.command task)).
  { pose proof (reachable_well_formed _ (running_reachable w Hrun)) as Hwf.
    destruct Hwf as ((Hnumbers & Htasks) & _).
    intros group task Hgroup Htask. unfold copy_background_task_command.
    rewrite (find_by_index BackgroundTasksGroupTemplate.group_index _ group);
      [| | exact Hgroup].
    - cbn. rewrite (find_by_index BackgroundTaskTemplate.task_index _ task);
        [reflexivity | | exact Htask].
      rewrite Forall_forall in Htasks. apply Htasks, Hgroup.
    - rewrite Hnumbers. apply seq_sorted. }
  split; [exact Hfound |].
  intros Hreturned shown group task Hshown.
  rewrite (running_in_step w Hrun Hreturned) in Hshown. injection Hshown as <-.
  apply Hfound.
Qed.
End StateInvariants.


(** ** Creation payloads that pass the schema *)

Lemma get_or_else_empty (extra_data : jsv) (k : string) :
  get (or_else extra_data (JObj [])) k = get extra_data k.
Proof.
  unfold or_else. destruct (truthy extra_data) eqn:Htruthy; [reflexivity |].
  destruct extra_data; try reflexivity; discriminate.
Qed.

Lemma guarded_turn_blocks (turn : jsv) :
  opt_get (if truthy turn && typeof_object turn then turn else JNull) "blocks"
  = opt_get turn "blocks".
Proof.
  destruct turn as [| | b | x | s | xs | props]; try reflexivity.
  - destruct b; reflexivity.
  - cbn [typeof_object]. rewrite andb_false_r. reflexivity.
  - cbn [typeof_object]. rewrite andb_false_r. reflexivity.
Qed.

Lemma sp_ai_turn_block_schema_object (block : jsv) :
  sp_ai_turn_block_schema block = true -> is_block_entry block = true.
Proof. destruct block; try reflexivity; cbn; discriminate. Qed.

Section ValidPayloads.
Context `{Host}.

Lemma normalize_turn_blocks_loop (raw_blocks : jsv) (skip : gset nat) :
  normalize_turn_blocks raw_blocks skip
  = turn_blocks_loop 0 (array_or_empty raw_blocks) skip.
Proof. destruct raw_blocks; reflexivity. Qed.

(** The blocks of the candidate are those of the loop over the block array
    that the extractors walk. *)
Lemma candidate_blocks (extra_data : jsv) candidate sub bg plan todo :
  prepare extra_data = Normal (candidate, sub, bg, plan, todo) ->
  Candidate.blocks candidate
  = turn_blocks_loop 0 (payload_blocks extra_data) (skipped sub bg plan todo).
Proof.
  intros Hprepared. apply prepare_inv in Hprepared as (_ & _ & _ & _ & ->).
  rewrite normalize_turn_blocks_loop, guarded_turn_blocks, get_or_else_empty.
  reflexivity.
Qed.

Lemma valid_payload_blocks (extra_data : jsv) :
  sp_ai_widget_extra_data_schema extra_data = true ->
  Forall (fun block => is_block_entry block = true) (payload_blocks extra_data).
Proof.
  unfold sp_ai_widget_extra_data_schema, payload_blocks. intros Hvalid.
  apply andb_prop in Hvalid as [_ Hturn].
  destruct (get extra_data "turn") as [| | b | x | s | xs | props] eqn:Eturn;
    try (cbn; constructor).
  unfold sp_ai_turn_schema in Hturn. apply andb_prop in Hturn as [_ Hblocks].
  cbn [opt_get is_nullish].
  destruct (get (JObj props) "blocks") as [| | b | x | s | blocks | props'];
    try discriminate; try constructor.
  cbn [array_or_empty]. rewrite forallb_forall in Hblocks.
  apply Forall_forall. intros block Hin.
  apply sp_ai_turn_block_schema_object, Hblocks, list_elem_of_In, Hin.
Qed.

(** X11: every block of a payload that passes the creation schema is shown
    exactly once: the generic blocks of the candidate state carry exactly
    the positions of the block array that no extractor took, each once and
    in order. *)
Theorem X11_valid_blocks_are_shown_once (extra_data : jsv) candidate sub bg plan todo :
  sp_ai_widget_extra_data_schema extra_data = true ->
  prepare extra_data = Normal (candidate, sub, bg, plan, todo) ->
  StronglySorted lt (map Block.index (Candidate.blocks candidate))
  /\ forall i : nat,
       i ∈ map Block.index (Candidate.blocks candidate)
       <-> i < length (payload_blocks extra_data) /\ (i ∉ skipped sub bg plan todo).
Proof.
  intros Hvalid Hprepared.
  rewrite (candidate_blocks _ _ _ _ _ _ Hprepared).
  fold (emitted_from 0 (payload_blocks extra_data) (skipped sub bg plan todo)).
  split; [eapply sublist_seq_sorted, emitted_from_sublist |].
  intros i. rewrite emitted_from_elem, Nat.sub_0_r.
  pose proof (valid_payload_blocks _ Hvalid) as Hobjects.
  rewrite Forall_forall in Hobjects. split.
  - intros (_ & Hskip & raw & Hraw & _). split; [| exact Hskip].
    eapply lookup_lt_Some, Hraw.
  - intros [Hlt Hskip]. split; [lia | split; [exact Hskip |]].
    apply lookup_lt_is_Some in Hlt as [raw Hraw]. exists raw. split; [exact Hraw |].
    eapply Hobjects, list_elem_of_lookup_2, Hraw.
Qed.
End ValidPayloads.


(** *** Payloads without a turn *)

Lemma optional_string_field (v : jsv) (d : string) :
  is_some (z_optional_string v) = true -> v ?? JStr d = JStr (string_or v d).
Proof. destruct v; try discriminate; reflexivity. Qed.

Lemma optional_version_field (v : jsv) :
  is_some (z_optional z_nonnegative_int v) = true ->
  z_nonnegative_int (v ?? JNum 2)
  = Some (match v with JNum x => x | _ => 2%float end).
Proof.
  destruct v as [| | b | x | s | xs | props]; try discriminate; [reflexivity |].
  cbn. destruct (is_integral x && (abs x <=? 9007199254740991)%float && (0 <=? x)%float);
    [reflexivity | discriminate].
Qed.

Lemma optional_display_field (v : jsv) :
  is_some (z_optional z_display v) = true ->
  z_display (v ?? JStr "card_only") = Some (default Display.card_only (z_display v)).
Proof.
  destruct v as [| | b | x | s | xs | props]; try discriminate; [reflexivity |].
  cbn. destruct (Display.of_string s); [reflexivity | discriminate].
Qed.

Lemma status_of_string_not_empty (s : string) :
  Status.of_string s <> None -> String.eqb s "" = false.
Proof. destruct s; [intros Habs; now contradiction Habs | reflexivity]. Qed.

Section V1Payloads.
Context `{Host}.

Lemma optional_status_field (v : jsv) :
  is_some (z_optional z_status v) = true ->
  exists statusRaw,
    ToString (or_else (or_else JUndefined v) (JStr "running")) = Normal statusRaw
    /\ default Status.running (Status.of_string statusRaw)
       = default Status.running (z_status v).
Proof.
  destruct v as [| | b | x | s | xs | props]; try discriminate.
  - intros _. exists "running". split; reflexivity.
  - cbn. destruct (Status.of_string s) as [status |] eqn:Hs; [| discriminate].
    intros _. exists s. unfold or_else. cbn [truthy].
    rewrite status_of_string_not_empty by congruence. cbn. rewrite Hs. split; reflexivity.
Qed.

(** X12: a payload that passes the creation schema and has no turn never
    falls back: it normalizes, without a warning, to the state of its v1
    fields, where an absent field takes its default (version 2, display
    card_only, title "Agent output", status running, empty texts), the kind
    is final, and there is no block and no group. *)
Theorem X12_valid_v1_payload_is_kept (extra_data : jsv) :
  sp_ai_widget_extra_data_schema extra_data = true ->
  get extra_data "turn" = JUndefined ->
  normalize_extra_data extra_data = mkEff [] (Normal (v1_state extra_data)).
Proof.
  intros Hvalid Hturn. unfold sp_ai_widget_extra_data_schema in Hvalid.
  repeat match type of Hvalid with
         | _ && _ = true => let Hfield := fresh "Hfield" in
                            apply andb_prop in Hvalid as [Hvalid Hfield]
         end.
  assert (Hvalue : is_nullish extra_data = false) by (destruct extra_data; now try discriminate).
  destruct (optional_status_field _ Hfield3) as (statusRaw & HstatusRaw & Hstatus).
  unfold normalize_extra_data, prepare, candidate_state, normalize_subagent_groups,
    normalize_background_tasks, normalize_plan_blocks, normalize_todo_blocks,
    turn_blocks_of, member.
  rewrite !get_or_else_empty, Hvalue, Hturn. cbn [truthy andb opt_get is_nullish].
  rewrite HstatusRaw.
  change (JUndefined ?? ?a) with a.
  rewrite (optional_string_field _ _ Hfield5), (optional_string_field _ _ Hfield4),
    (optional_string_field _ _ Hfield2), (optional_string_field _ _ Hfield1),
    (optional_string_field _ _ Hfield0).
  cbn. unfold widget_state_schema. cbn [Candidate.version Candidate.display].
  rewrite (optional_version_field _ Hfield7), (optional_display_field _ Hfield6).
  cbn. unfold v1_state. rewrite Hstatus. reflexivity.
Qed.
End V1Payloads.

(** *** A block without its text *)

Section MissingText.
Context `{Host}.

Lemma turn_blocks_loop_elem (raw_blocks : list jsv) (skip : gset nat) (index n : nat)
    (raw : jsv) :
  raw_blocks !! n = Some raw ->
  is_block_entry raw = true ->
  (index + n ∉ skip) ->
  turn_block (index + n) raw ∈ turn_blocks_loop index raw_blocks skip.
Proof.
  revert index n. induction raw_blocks as [| head rest IH]; intros index n Hraw Hobj Hskip;
    [discriminate |].
  cbn [turn_blocks_loop].
  assert (Htail : forall m, rest !! m = Some raw -> index + S m ∉ skip ->
                            turn_block (index + S m) raw ∈ turn_blocks_loop (S index) rest skip).
  { intros m Hm Hs. replace (index + S m) with (S index + m) in * by lia. now apply IH. }
  destruct n as [| m]; cbn in Hraw.
  - injection Hraw as ->. rewrite Nat.add_0_r in *.
    rewrite bool_decide_eq_false_2 by assumption.
    unfold is_block_entry in Hobj. apply andb_prop in Hobj as [-> ->].
    cbn [negb orb]. apply list_elem_of_here.
  - destruct (bool_decide (index ∈ skip)); [now apply Htail |].
    destruct (negb (truthy head) || negb (typeof_object head)); [now apply Htail |].
    apply list_elem_of_further. now apply Htail.
Qed.

Lemma get_without_own_property (block : jsv) (k : string) :
  hasOwn block k = false -> get block k = JUndefined.
Proof.
  destruct block as [| | | | | | props]; try reflexivity. cbn.
  destruct (own_property props k); [| reflexivity].
  intros Habs. apply bool_decide_eq_false in Habs. contradiction Habs. eauto.
Qed.

Lemma lacks_its_text_block (index : nat) (block : jsv) :
  lacks_its_text block = true ->
  is_block_entry block = true /\ Block.text (turn_block index block) = None.
Proof.
  unfold lacks_its_text.
  destruct (get block "kind") as [| | | | kind | |] eqn:Hkind; try discriminate.
  intros Hlacks.
  assert (Hobject : is_plain_object block = true).
  { repeat (apply orb_prop in Hlacks as [Hlacks | Hlacks]);
      apply andb_prop in Hlacks as [_ Hobject]; exact Hobject. }
  split; [destruct block; try discriminate; reflexivity |].
  unfold turn_block. rewrite Hkind. cbn [string_or].
  repeat (apply orb_prop in Hlacks as [Hlacks | Hlacks]);
    apply andb_prop in Hlacks as [Hlacks _]; apply andb_prop in Hlacks as [Hkind' Hown];
    apply negb_true_iff, get_without_own_property in Hown.
  - apply orb_prop in Hkind' as [Hk | Hk]; apply String.eqb_eq in Hk; subst kind;
      cbn; rewrite Hown; reflexivity.
  - apply String.eqb_eq in Hkind'. subst kind. cbn. rewrite Hown. cbn.
    destruct (String.eqb (string_or (get block "language") "") "json"); reflexivity.
  - apply String.eqb_eq in Hkind'. subst kind. cbn. rewrite Hown. reflexivity.
Qed.

Lemma block_without_text_fails (bs : list (Block.t (option string)))
    (b : Block.t (option string)) :
  b ∈ bs -> Block.text b = None -> mapM block_schema bs = None.
Proof.
  intros Hin Htext. destruct (mapM block_schema bs) as [bs' |] eqn:Hbs; [| reflexivity].
  assert (Hall : is_Some (mapM block_schema bs)) by eauto.
  apply mapM_is_Some_1 in Hall. rewrite Forall_forall in Hall.
  destruct (Hall b Hin) as [b' Hb]. unfold block_schema in Hb. rewrite Htext in Hb.
  discriminate.
Qed.

(** X13: one block that lacks its text takes the whole payload down: when
    a markdown or text block without [text], a code block without [code] or
    a diff block without [diff] is not taken by an extractor, the candidate
    state fails its schema, so the widget logs the warning and shows the
    fallback state with no generic block at all (the groups of the
    extractors stay). *)
Theorem X13_block_without_text_forces_fallback (extra_data : jsv)
    candidate sub bg plan todo (i : nat) (block : jsv) :
  prepare extra_data = Normal (candidate, sub, bg, plan, todo) ->
  payload_blocks extra_data !! i = Some block ->
  lacks_its_text block = true ->
  (i ∉ skipped sub bg plan todo) ->
  normalize_extra_data extra_data
  = mkEff [Warn "sp_ai widget: invalid extra_data"]
      (Normal (with_groups fallback_base sub bg plan todo)).
Proof.
  intros Hprepared Hblock Hlacks Hskip.
  destruct (lacks_its_text_block i block Hlacks) as [Hobject Htext].
  apply normalize_extra_data_invalid with (candidate := candidate); [exact Hprepared |].
  destruct (widget_state_schema candidate) as [base |] eqn:Hvalid; [| reflexivity].
  apply widget_state_schema_blocks in Hvalid.
  rewrite (candidate_blocks _ _ _ _ _ _ Hprepared) in Hvalid.
  rewrite (block_without_text_fails _ (turn_block i block)) in Hvalid;
    [discriminate | | exact Htext].
  apply (turn_blocks_loop_elem _ _ 0 i); assumption.
Qed.
End MissingText.


(** ** What [render] shows *)

Lemma kind_is_eq (a b : Kind.t) : kind_is a b = true <-> a = b.
Proof. destruct a, b; cbn; split; congruence. Qed.

Lemma status_is_eq (a b : Status.t) : status_is a b = true <-> a = b.
Proof. destruct a, b; cbn; split; congruence. Qed.

Lemma string_or_else_empty (a b : string) :
  String.eqb (string_or_else (string_or_else a b) "") "" = false <-> a <> "" \/ b <> "".
Proof.
  unfold string_or_else.
  destruct (String.eqb_spec a "") as [-> | Ha]; destruct (String.eqb_spec b "") as [-> | Hb];
    cbn; rewrite ?(proj2 (String.eqb_neq _ _) Ha), ?(proj2 (String.eqb_neq _ _) Hb);
    cbn; rewrite ?(proj2 (String.eqb_neq _ _) Ha), ?(proj2 (String.eqb_neq _ _) Hb);
    split; intros; try tauto; try congruence; try discriminate.
Qed.

Lemma blocks_for_template_blocks (markdown_render : string -> string) (state : WidgetState) :
  map BlockForTemplate.block (blocks_for_template markdown_render state) = blocks state.
Proof.
  unfold blocks_for_template. induction (blocks state) as [| b bs IH]; [reflexivity |].
  cbn [map]. rewrite IH. destruct (String.eqb (Block.kind b) "markdown"); reflexivity.
Qed.

(** X14: the flags that [render] hands to the template never contradict
    one another, in any state and with any markdown renderer: exactly one of
    abort and retry is offered; approve and deny come together; the plain
    input and output panes are shown only when there is no generic block, no
    subagent group and no background task; the approval actions are offered
    only on an open tool card; the reasoning pane is expanded exactly when
    its content is not hidden, and only for a running thinking turn that has
    text; a tool card whose status is ok is closed; and the blocks handed
    over are the blocks of the state, in order, with rendered markdown on
    the markdown blocks only. *)
Theorem X14_template_flags_are_consistent (markdown_render : string -> string)
    (state : WidgetState) :
  let ctx := template_context markdown_render state in
  TemplateContext.show_abort ctx = negb (TemplateContext.show_retry ctx)
  /\ TemplateContext.show_approve ctx = TemplateContext.show_deny ctx
  /\ (TemplateContext.has_input ctx || TemplateContext.has_output ctx = true ->
      TemplateContext.has_blocks ctx = false
      /\ has_subagent_groups state = false
      /\ has_background_tasks state = false)
  /\ (TemplateContext.show_tool_approval_actions ctx = true ->
      TemplateContext.tool_open ctx = true /\ TemplateContext.is_tool_kind ctx = true)
  /\ (TemplateContext.tool_open ctx = true ->
      kind state = Kind.tool /\ status state <> Status.ok)
  /\ (TemplateContext.reasoning_expanded ctx = "true"
      <-> TemplateContext.reasoning_content_hidden ctx = "false")
  /\ (TemplateContext.reasoning_expanded ctx = "true" ->
      kind state = Kind.thinking
      /\ TemplateContext.show_abort ctx = true
      /\ (output state <> "" \/ caption state <> ""))
  /\ map BlockForTemplate.block (TemplateContext.blocks ctx) = blocks state
  /\ Forall (fun b =>
               BlockForTemplate.is_markdown b
               = String.eqb (Block.kind (BlockForTemplate.block b)) "markdown"
               /\ BlockForTemplate.markdown_html b
                  = if BlockForTemplate.is_markdown b
                    then markdown_render (Block.text (BlockForTemplate.block b))
                    else "")
       (TemplateContext.blocks ctx).
Proof.
  cbv zeta. unfold template_context.
  cbn [TemplateContext.show_abort TemplateContext.show_retry TemplateContext.show_approve
       TemplateContext.show_deny TemplateContext.has_input TemplateContext.has_output
       TemplateContext.has_blocks TemplateContext.show_tool_approval_actions
       TemplateContext.tool_open TemplateContext.is_tool_kind
       TemplateContext.reasoning_expanded TemplateContext.reasoning_content_hidden
       TemplateContext.blocks].
  split; [now rewrite negb_involutive | split; [reflexivity |]].
  split.
  { intros Hpane.
    assert (Hplain : (length (blocks state) =? 0)%nat && negb (has_subagent_groups state)
                     && negb (has_background_tasks state) = true).
    { apply orb_prop in Hpane as [Hpane | Hpane]; apply andb_prop in Hpane as [Hpane _];
        exact Hpane. }
    apply andb_prop in Hplain as [Hplain Hbg]. apply andb_prop in Hplain as [Hblocks Hsub].
    rewrite Hblocks. apply negb_true_iff in Hbg, Hsub. auto. }
  split.
  { intros Happroval. apply andb_prop in Happroval as [Hkind Hstatus].
    rewrite Hkind, Hstatus, !orb_true_r. auto. }
  split.
  { intros Hopen. apply andb_prop in Hopen as [Hkind Hstatus].
    apply kind_is_eq in Hkind. split; [exact Hkind |].
    intros Hok. rewrite Hok in Hstatus. discriminate. }
  match goal with
  | |- context [if ?c then "true" else "false"] => destruct c eqn:Hstreaming
  end.
  - split; [split; reflexivity |]. split.
    + intros _. apply andb_prop in Hstreaming as [Hstreaming Htext].
      apply andb_prop in Hstreaming as [Hkind Hstatus].
      apply kind_is_eq in Hkind. apply negb_true_iff, string_or_else_empty in Htext.
      rewrite Hstatus. auto.
    + split; [apply blocks_for_template_blocks |].
      unfold blocks_for_template. apply List.Forall_map, Forall_forall. intros b _.
      destruct (String.eqb (Block.kind b) "markdown") eqn:Hb; cbn; rewrite Hb; auto.
  - split; [split; discriminate |]. split; [discriminate |].
    split; [apply blocks_for_template_blocks |].
    unfold blocks_for_template. apply List.Forall_map, Forall_forall. intros b _.
    destruct (String.eqb (Block.kind b) "markdown") eqn:Hb; cbn; rewrite Hb; auto.
Qed.

(** X15: the status pill tells the statuses apart: [status_label] and
    [tool_status_label] each give different statuses different labels, and
    the two differ on the status ok only ("OK" against "Completed"); the
    kind label tells the kinds apart too. *)
Theorem X15_labels_tell_values_apart :
  (forall a b : Status.t, status_label a = status_label b -> a = b)
  /\ (forall a b : Status.t, tool_status_label a = tool_status_label b -> a = b)
  /\ (forall s : Status.t, tool_status_label s = status_label s <-> s <> Status.ok)
  /\ (forall a b : Kind.t, kind_label a = kind_label b -> a = b).
Proof.
  repeat apply conj.
  - intros a b. destruct a, b; cbn; intros Hlabel; first [reflexivity | discriminate].
  - intros a b. destruct a, b; cbn; intros Hlabel; first [reflexivity | discriminate].
  - intros s. destruct s; cbn; split; intros Hs; congruence.
  - intros a b. destruct a, b; cbn; intros Hlabel; first [reflexivity | discriminate].
Qed.


(** ** More on the formatters *)

Lemma append_suffix_not_empty (a : string) (c : ascii) (b : string) :
  a ++ String c b <> "".
Proof. destruct a; discriminate. Qed.

Section FormatterFacts.
Context `{Host}.

(** X16: a formatter answers the empty string exactly when its argument
    is negative or not finite, so a metadata line drops a value for that
    reason only; every other argument gives a text that ends in a unit: a
    duration in "ms" or in "s", a token count in " tok", "k tok" or
    "M tok", a runtime in "s". *)
Theorem X16_formatters_are_empty_only_on_rejected_input (x : float) :
  (format_duration_ms x = "" <-> Number_isFinite x = false \/ (x <? 0)%float = true)
  /\ (format_tokens x = "" <-> Number_isFinite x = false \/ (x <? 0)%float = true)
  /\ (format_runtime_sec x = "" <-> Number_isFinite x = false \/ (x <? 0)%float = true)
  /\ (Number_isFinite x = true -> (x <? 0)%float = false ->
      (ends_in "ms" (format_duration_ms x) \/ ends_in "s" (format_duration_ms x))
      /\ (ends_in " tok" (format_tokens x) \/ ends_in "k tok" (format_tokens x)
          \/ ends_in "M tok" (format_tokens x))
      /\ ends_in "s" (format_runtime_sec x)).
Proof.
  assert (Hguard : negb (Number_isFinite x) || (x <? 0)%float = true
                   <-> Number_isFinite x = false \/ (x <? 0)%float = true).
  { rewrite orb_true_iff, negb_true_iff. reflexivity. }
  unfold format_duration_ms, format_tokens, format_runtime_sec.
  rewrite <- Hguard.
  destruct (negb (Number_isFinite x) || (x <? 0)%float) eqn:Hrejected.
  - split; [tauto | split; [tauto | split; [tauto |]]].
    intros Hfinite Hsign. rewrite Hfinite, Hsign in Hrejected. discriminate.
  - split; [| split; [| split]];
      try (split; try discriminate; intros Hempty; exfalso; revert Hempty;
           repeat match goal with
                  | |- context [if ?c then _ else _] => destruct c
                  end;
           apply append_suffix_not_empty).
    intros _ _. unfold ends_in. split; [| split].
    + destruct (x <? 1000)%float; [left; eauto |].
      right. destruct (x / 1000 <? 60)%float; [eauto |].
      cbv zeta. rewrite <- !string_app_assoc. eauto.
    + destruct (1000000 <=? x)%float; [right; right; eauto |].
      destruct (1000 <=? x)%float; [right; left; eauto | left; eauto].
    + destruct (x <? 60)%float; [eauto |].
      cbv zeta. rewrite <- !string_app_assoc. eauto.
Qed.

Lemma whole_tokens_checked :
  range_all 10 0 whole_tokens_ok && range_all 7 999936 whole_tokens_ok = true.
Proof. vm_compute. reflexivity. Qed.

(** X17: the digits that [format_tokens] prints for a whole number of
    tokens, below 1024 and around one million: below 1000 the number itself
    and " tok"; below a million the thousands with one decimal, rounded to
    the nearest tenth, and "k tok" (999950 tokens, halfway between two
    tenths, print "1000.0k tok"); from a million on the millions with one
    decimal and "M tok". *)
Theorem X17_format_tokens_digits (n : Z) :
  in_token_window n ->
  let out := format_tokens (whole_number n) in
  ((n < 1000)%Z -> out = decimal n ++ " tok")
  /\ ((1000 <= n < 1000000)%Z -> out = tenths ((n + 50) / 100) ++ "k tok")
  /\ ((1000000 <= n)%Z -> out = tenths ((n + 50000) / 100000) ++ "M tok").
Proof.
  intros Hn out.
  assert (Hok : whole_tokens_ok n = true).
  { pose proof whole_tokens_checked as Hall. apply andb_prop in Hall as [Hlow Hhigh].
    destruct Hn as [Hn | Hn];
      [ apply (range_all_spec 10 0 _ Hlow) | apply (range_all_spec 7 999936 _ Hhigh) ];
      cbn; lia. }
  unfold whole_tokens_ok in Hok. fold out in Hok. cbv zeta in Hok.
  destruct (Z.ltb_spec n 1000) as [H1 | H1];
    [| destruct (Z.ltb_spec n 1000000) as [H2 | H2]];
    apply String.eqb_eq in Hok; repeat split; intros; (exact Hok || lia).
Qed.

Lemma runtime_tenths_checked : range_all 11 0 runtime_tenths_ok = true.
Proof. vm_compute. reflexivity. Qed.

(** X18: the digits that [format_runtime_sec] prints for a runtime of [k]
    tenths of a second, up to 204.7 seconds: below 10 seconds the tenths
    themselves and "s"; below 60 seconds the nearest second, a half going
    up, and "s"; from 60 seconds on the whole minutes, "m", the nearest
    remaining second and "s" (so 119.5 seconds print "1m 60s"). *)
Theorem X18_format_runtime_sec_digits (k : Z) :
  (0 <= k < 2048)%Z ->
  let out := format_runtime_sec (whole_number k / 10)%float in
  ((k < 100)%Z -> out = tenths k ++ "s")
  /\ ((100 <= k < 600)%Z -> out = decimal ((k + 5) / 10) ++ "s")
  /\ ((600 <= k)%Z ->
      out = decimal (k / 600) ++ "m " ++ decimal ((k mod 600 + 5) / 10) ++ "s").
Proof.
  intros Hk out.
  assert (Hok : runtime_tenths_ok k = true).
  { apply (range_all_spec 11 0 _ runtime_tenths_checked). cbn. lia. }
  unfold runtime_tenths_ok in Hok. fold out in Hok. cbv zeta in Hok.
  destruct (Z.ltb_spec k 100) as [H1 | H1]; [| destruct (Z.ltb_spec k 600) as [H2 | H2]];
    apply String.eqb_eq in Hok; repeat split; intros; (exact Hok || lia).
Qed.
End FormatterFacts.


(** ** Status of a plan step *)

Lemma includes_app (a b : list string) (s : string) :
  includes (a ++ b)%list s = includes a s || includes b s.
Proof. apply existsb_app. Qed.

Section PlanStepStatusFacts.
Context `{Host}.

(** X19: [normalize_plan_step_status] on the lower-cased trimmed string:
    an "ok" synonym or "done" gives ok with the label "Done", an "error"
    synonym error with "Error", a "running" synonym running with
    "In progress", a "pending" synonym or "todo" pending with "Todo", and
    anything else unknown, labelled with the trimmed original (empty for a
    blank status, where the other normalizers say "Unknown").  Whenever the
    background-task normalizer knows a status as pending, running, ok or
    error, the plan-step normalizer gives it the same class; "done" and
    "todo" are the only additions. *)
Theorem X19_plan_step_status (raw_status : string) :
  let s := toLowerCase (trim raw_status) in
  (In s plan_ok_synonyms ->
   normalize_plan_step_status raw_status = (PlanStepStatusClass.ok, "Done"))
  /\ (In s error_synonyms ->
      normalize_plan_step_status raw_status = (PlanStepStatusClass.error, "Error"))
  /\ (In s running_synonyms ->
      normalize_plan_step_status raw_status = (PlanStepStatusClass.running, "In progress"))
  /\ (In s plan_pending_synonyms ->
      normalize_plan_step_status raw_status = (PlanStepStatusClass.pending, "Todo"))
  /\ (~ In s (plan_ok_synonyms ++ error_synonyms ++ running_synonyms
              ++ plan_pending_synonyms)%list ->
      normalize_plan_step_status raw_status = (PlanStepStatusClass.unknown, trim raw_status))
  /\ (s <> "done" -> s <> "todo" ->
      (normalize_plan_step_status raw_status).1
      = plan_class_of (normalize_background_task_status raw_status).1).
Proof.
  cbv zeta. repeat apply conj.
  1-4: intros Hin; simpl in Hin;
       repeat (destruct Hin as [Hin | Hin]; [| try contradiction ]);
       unfold normalize_plan_step_status; cbv zeta; rewrite <- Hin; reflexivity.
  - intros Hn. unfold normalize_plan_step_status. cbv zeta.
    rewrite !includes_not_In.
    + destruct (String.eqb_spec (trim raw_status) "") as [-> | _]; reflexivity.
    + intros Hin; apply Hn; simpl in *; tauto.
    + intros Hin; apply Hn; simpl in *; tauto.
    + intros Hin; apply Hn; simpl in *; tauto.
    + intros Hin; apply Hn; simpl in *; tauto.
  - intros Hdone Htodo.
    unfold normalize_plan_step_status, normalize_background_task_status. cbv zeta.
    set (s := toLowerCase (trim raw_status)) in *.
    change ["ok"; "success"; "completed"; "complete"; "done"]
      with (["ok"; "success"; "completed"; "complete"] ++ ["done"])%list.
    change ["pending"; "queued"; "queue"; "todo"]
      with (["pending"; "queued"; "queue"] ++ ["todo"])%list.
    rewrite !includes_app.
    assert (Hd : includes ["done"] s = false).
    { unfold includes. cbn [existsb]. now rewrite (proj2 (String.eqb_neq _ _) Hdone). }
    assert (Ht : includes ["todo"] s = false).
    { unfold includes. cbn [existsb]. now rewrite (proj2 (String.eqb_neq _ _) Htodo). }
    rewrite Hd, Ht, !orb_false_r.
    destruct (includes ["ok"; "success"; "completed"; "complete"] s); [reflexivity |].
    destruct (includes ["error"; "failed"; "failure"] s); [reflexivity |].
    destruct (includes ["running"; "in_progress"; "in-progress"; "started"] s);
      [reflexivity |].
    destruct (includes ["pending"; "queued"; "queue"] s); [reflexivity |].
    destruct (includes ["aborted"; "canceled"; "cancelled"] s); reflexivity.
Qed.


End PlanStepStatusFacts.

(** ** Legacy todo lines *)

Lemma string_cons_app (c : ascii) (r b : string) : String c r ++ b = String c (r ++ b).
Proof. reflexivity. Qed.

Lemma trimStart_eq (s : string) :
  trimStart s = match white_space s with Some rest => trimStart rest | None => s end.
Proof.
  destruct s as [| a rest1]; [reflexivity |]. cbn [trimStart white_space].
  destruct (white_space_1 a); [reflexivity |].
  destruct (negb (white_space_lead a)); [reflexivity |].
  destruct rest1 as [| b rest2]; [reflexivity |].
  destruct (white_space_2 a b); [reflexivity |].
  destruct rest2 as [| c rest3]; [reflexivity |].
  destruct (white_space_3 a b c); reflexivity.
Qed.

Lemma white_space_length (s rest : string) :
  white_space s = Some rest -> String.length rest < String.length s.
Proof.
  destruct s as [| a rest1]; [discriminate |]. cbn [white_space].
  destruct (white_space_1 a); [intros [= <-]; cbn; lia |].
  destruct (negb (white_space_lead a)); [discriminate |].
  destruct rest1 as [| b rest2]; [discriminate |].
  destruct (white_space_2 a b); [intros [= <-]; cbn; lia |].
  destruct rest2 as [| c rest3]; [discriminate |].
  destruct (white_space_3 a b c); [intros [= <-]; cbn; lia | discriminate].
Qed.

Lemma white_space_app (s rest tail : string) :
  white_space s = Some rest -> white_space (s ++ tail) = Some (rest ++ tail).
Proof.
  destruct s as [| a rest1]; [discriminate |].
  rewrite string_cons_app. cbn [white_space].
  destruct (white_space_1 a); [now intros [= <-] |].
  destruct (negb (white_space_lead a)); [discriminate |].
  destruct rest1 as [| b rest2]; [discriminate |]. rewrite string_cons_app.
  destruct (white_space_2 a b); [now intros [= <-] |].
  destruct rest2 as [| c rest3]; [discriminate |]. rewrite string_cons_app.
  destruct (white_space_3 a b c); [now intros [= <-] | discriminate].
Qed.

(** A byte that continues a character is neither a white-space character
    nor the first byte of one. *)
Lemma white_space_2_continues (a b : ascii) :
  white_space_2 a b = true -> white_space_1 b = false /\ white_space_lead b = false.
Proof.
  unfold white_space_2, white_space_1, white_space_lead. cbv zeta.
  generalize (nat_of_ascii a) (nat_of_ascii b). intros x y.
  rewrite andb_true_iff, !Nat.eqb_eq. intros [_ ->]. split; reflexivity.
Qed.

Lemma white_space_3_continues (a b c : ascii) :
  white_space_3 a b c = true ->
  (white_space_1 b = false /\ white_space_lead b = false)
  /\ (white_space_1 c = false /\ white_space_lead c = false).
Proof.
  unfold white_space_3, white_space_1, white_space_lead. cbv zeta.
  generalize (nat_of_ascii a) (nat_of_ascii b) (nat_of_ascii c). intros x y z Hws.
  assert (Hy : 128 <= y <= 191 /\ 128 <= z <= 191).
  { rewrite !orb_true_iff, !andb_true_iff, !orb_true_iff, !andb_true_iff,
      !Nat.eqb_eq, !Nat.leb_le in Hws. lia. }
  repeat split; apply not_true_iff_false;
    rewrite !orb_true_iff, ?andb_true_iff, !Nat.eqb_eq, ?Nat.leb_le; lia.
Qed.

Lemma trimStart_other_byte (a : ascii) (rest : string) :
  white_space_1 a = false -> white_space_lead a = false ->
  trimStart (String a rest) = String a rest.
Proof. intros H1 Hlead. cbn [trimStart]. now rewrite H1, Hlead. Qed.

Lemma white_space_trimStart (s : string) : white_space (trimStart s) = None.
Proof.
  remember (String.length s) as n eqn:Hn. revert s Hn.
  induction n as [n IH] using lt_wf_ind. intros s ->.
  rewrite trimStart_eq. destruct (white_space s) as [rest |] eqn:Hs; [| exact Hs].
  eapply IH; [eapply white_space_length, Hs | reflexivity].
Qed.

Lemma trimStart_idempotent (s : string) : trimStart (trimStart s) = trimStart s.
Proof. rewrite (trimStart_eq (trimStart s)), white_space_trimStart. reflexivity. Qed.

Lemma trimEnd_cons (c : ascii) (rest : string) :
  trimEnd (String c rest)
  = if String.eqb (trimStart (String c rest)) "" then "" else String c (trimEnd rest).
Proof. reflexivity. Qed.

Lemma trimEnd_empty (s : string) : trimEnd s = "" <-> trimStart s = "".
Proof.
  destruct s as [| c rest]; [tauto |]. rewrite trimEnd_cons.
  destruct (String.eqb_spec (trimStart (String c rest)) "") as [E | E]; [tauto |].
  split; [discriminate | contradiction].
Qed.

Lemma trimEnd_prefix (s : string) : exists tail, s = trimEnd s ++ tail.
Proof.
  induction s as [| c rest [tail IH]]; [now exists "" |]. rewrite trimEnd_cons.
  destruct (String.eqb (trimStart (String c rest)) ""); [now exists (String c rest) |].
  exists tail. rewrite string_cons_app. now f_equal.
Qed.

Lemma white_space_trimEnd_none (s : string) :
  white_space s = None -> white_space (trimEnd s) = None.
Proof.
  intros Hs. destruct (white_space (trimEnd s)) as [rest |] eqn:Hcut; [| reflexivity].
  destruct (trimEnd_prefix s) as [tail Htail].
  apply white_space_app with (tail := tail) in Hcut. rewrite <- Htail, Hs in Hcut.
  discriminate.
Qed.

Lemma white_space_trimEnd_some (s rest : string) :
  white_space s = Some rest ->
  trimStart rest <> "" ->
  white_space (trimEnd s) = Some (trimEnd rest).
Proof.
  intros Hs Hrest.
  assert (Hfull : String.eqb (trimStart s) "" = false).
  { apply String.eqb_neq. now rewrite trimStart_eq, Hs. }
  destruct s as [| a rest1]; [discriminate |].
  rewrite trimEnd_cons, Hfull. cbn [white_space] in *.
  destruct (white_space_1 a); [now injection Hs as -> |].
  destruct (negb (white_space_lead a)); [discriminate |].
  destruct rest1 as [| b rest2]; [discriminate |].
  destruct (white_space_2 a b) eqn:H2.
  - injection Hs as ->. destruct (white_space_2_continues _ _ H2) as [Hb Hlead].
    rewrite trimEnd_cons, trimStart_other_byte by assumption. cbn [String.eqb].
    rewrite H2. reflexivity.
  - destruct rest2 as [| c rest3]; [discriminate |].
    destruct (white_space_3 a b c) eqn:H3; [| discriminate].
    injection Hs as ->. pose proof H3 as Hcont.
    apply white_space_3_continues in Hcont as [[Hb Hbl] [Hc Hcl]].
    rewrite trimEnd_cons, trimStart_other_byte by assumption. cbn [String.eqb].
    rewrite trimEnd_cons, trimStart_other_byte by assumption. cbn [String.eqb].
    rewrite H2, H3. reflexivity.
Qed.

Lemma trimStart_trimEnd (s : string) : trimStart (trimEnd s) = trimEnd (trimStart s).
Proof.
  remember (String.length s) as n eqn:Hn. revert s Hn.
  induction n as [n IH] using lt_wf_ind. intros s ->.
  rewrite (trimStart_eq s). destruct (white_space s) as [rest |] eqn:Hs.
  - destruct (String.eqb_spec (trimStart rest) "") as [Hblank | Hfull].
    + assert (Hcut : trimEnd s = "") by (apply trimEnd_empty; now rewrite trimStart_eq, Hs).
      now rewrite Hcut, Hblank.
    + rewrite trimStart_eq, (white_space_trimEnd_some _ _ Hs Hfull).
      eapply IH; [eapply white_space_length, Hs | reflexivity].
  - now rewrite trimStart_eq, white_space_trimEnd_none.
Qed.

Lemma trimEnd_idempotent (s : string) : trimEnd (trimEnd s) = trimEnd s.
Proof.
  induction s as [| c rest IH]; [reflexivity |].
  pose proof (trimEnd_cons c rest) as Hcut.
  destruct (String.eqb_spec (trimStart (String c rest)) "") as [Hblank | Hfull];
    rewrite Hcut; [reflexivity |].
  rewrite trimEnd_cons, IH.
  destruct (String.eqb_spec (trimStart (String c (trimEnd rest))) "") as [Hblank | _];
    [| reflexivity].
  exfalso. apply Hfull. rewrite <- Hcut, trimStart_trimEnd in Hblank.
  apply trimEnd_empty in Hblank. now rewrite trimStart_idempotent in Hblank.
Qed.

Lemma trim_empty (s : string) : trim s = "" <-> trimStart s = "".
Proof.
  unfold trim. rewrite trimEnd_empty, trimStart_idempotent. reflexivity.
Qed.

(** X20: a legacy todo line made of a check box, one white-space
    character (a blank, a tab, a no-break space or any other one) and a
    text is read back as that text, trimmed, checked exactly when the box
    holds an "x" or an "X"; when the text is blank the line gives no
    item. *)
Theorem X20_legacy_todo_line (item_index : nat) (mark : ascii) (sep text : string) :
  mark = " "%char \/ mark = "x"%char \/ mark = "X"%char ->
  white_space sep = Some "" ->
  legacy_todo_item item_index
    (JStr (String "[" (String mark (String "]" (sep ++ text)))))
  = if String.eqb (trim text) "" then None
    else Some {| TodoItemTemplate.item_index := item_index;
                 TodoItemTemplate.text := trim text;
                 TodoItemTemplate.checked := negb (Ascii.eqb mark " ") |}.
Proof.
  intros Hmark Hsep. unfold legacy_todo_item.
  apply white_space_app with (tail := text) in Hsep. change ("" ++ text) with text in Hsep.
  set (rest := sep ++ text) in *. clearbody rest. clear sep.
  set (line := String "[" (String mark (String "]" rest))).
  assert (Hline : trim line = String "[" (String mark (String "]" (trimEnd rest)))).
  { unfold trim, line.
    destruct Hmark as [-> | [-> | ->]];
      (rewrite (trimStart_other_byte "[") by reflexivity;
       rewrite 3!trimEnd_cons;
       rewrite (trimStart_other_byte "[") by reflexivity;
       cbn [String.eqb];
       rewrite ?(trimStart_other_byte "x"), ?(trimStart_other_byte "X") by reflexivity;
       rewrite ?(trimStart_eq (String " " (String "]" _)));
       cbn [white_space]; change (white_space_1 " ") with true; cbn iota;
       rewrite !(trimStart_other_byte "]") by reflexivity;
       cbn [String.eqb]; reflexivity). }
  rewrite Hline. unfold todo_item_match.
  rewrite (trimStart_other_byte "[") by reflexivity.
  assert (Hbox : Ascii.eqb mark " " || Ascii.eqb mark "x" || Ascii.eqb mark "X" = true)
    by (destruct Hmark as [-> | [-> | ->]]; reflexivity).
  rewrite Hbox.
  assert (Hchecked : Ascii.eqb (lower_ascii mark) "x" = negb (Ascii.eqb mark " "))
    by (destruct Hmark as [-> | [-> | ->]]; reflexivity).
  destruct (String.eqb_spec (trimStart text) "") as [Hblank | Hfull].
  - rewrite (proj2 (trim_empty text) Hblank). cbn [String.eqb].
    assert (Hcut : trimEnd rest = "").
    { apply trimEnd_empty. now rewrite trimStart_eq, Hsep. }
    rewrite Hcut. reflexivity.
  - assert (Htext : trim text <> "") by (rewrite trim_empty; exact Hfull).
    rewrite (proj2 (String.eqb_neq _ _) Htext).
    rewrite (white_space_trimEnd_some _ _ Hsep Hfull).
    assert (Hrest : trim (trimStart (trimEnd rest)) = trim text).
    { rewrite (trimStart_eq (trimEnd rest)), (white_space_trimEnd_some _ _ Hsep Hfull).
      unfold trim. rewrite trimStart_idempotent, trimStart_trimEnd, trimEnd_idempotent.
      reflexivity. }
    rewrite Hrest, (proj2 (String.eqb_neq _ _) Htext), Hchecked. reflexivity.
Qed.

(** ** Blocks of a kind the widget does not know *)

(** A branch that lays the block out, and one that dumps it. *)
Ltac laid_out :=
  cbn [negb orb andb];
  repeat match goal with
         | |- context [match ?x with _ => _ end] => destruct x
         end;
  cbn; rewrite ?orb_true_r; (split; [reflexivity | discriminate]).

Ltac dumped :=
  cbn -[stringify_unknown];
  match goal with Hdump : stringify_unknown _ = _ |- _ => rewrite ?Hdump end; auto.

Section UnknownBlocks.
Context `{Host}.

(** X21: the generic pass flags a block as unknown exactly when its kind
    (the string "unknown" when the block has no string kind) is none of the
    kinds it lays out and not a stream on stdout or stderr.  Such a block is
    not dropped and never lacks its text: it keeps its kind, and its text
    and its copy text are the JSON dump of the whole block. *)
Theorem X21_unknown_kinds_are_dumped (index : nat) (block : jsv) :
  is_block_entry block = true ->
  let kind := string_or (get block "kind") "unknown" in
  let b := turn_block index block in
  Block.is_unknown b = negb (is_known_kind kind block)
  /\ (Block.is_unknown b = true ->
      Block.kind b = kind
      /\ Block.text b = Some (JSON_stringify block)
      /\ Block.copy_text b = Some (JSON_stringify block)).
Proof.
  intros Hentry. cbv zeta.
  assert (Hdump : stringify_unknown block = Some (JSON_stringify block)).
  { unfold is_block_entry in Hentry. apply andb_prop in Hentry as [_ Hobject].
    destruct block; try discriminate; reflexivity. }
  unfold turn_block, is_known_kind, has_stream_channel, includes, known_kinds.
  cbn [existsb]. cbv zeta.
  set (kind := string_or (get block "kind") "unknown"). clearbody kind.
  destruct (String.eqb kind "table"); [laid_out |].
  destruct (String.eqb kind "markdown"); [laid_out |].
  destruct (String.eqb kind "text"); [laid_out |].
  destruct (String.eqb_spec kind "stream") as [Hstream | _].
  - rewrite Hstream. clear Hstream.
    destruct (get block "channel") as [| | | | c | |];
      [dumped | dumped | dumped | dumped | | dumped | dumped].
    destruct (String.eqb c "stdout"); [cbn; split; [reflexivity | discriminate] |].
    destruct (String.eqb c "stderr"); [cbn; split; [reflexivity | discriminate] |].
    dumped.
  - cbn [orb andb negb]. rewrite ?andb_false_r, ?orb_false_r.
    destruct (String.eqb kind "code"); [laid_out |].
    destruct (String.eqb kind "diff"); [laid_out |].
    destruct (String.eqb kind "json"); [laid_out |].
    destruct (String.eqb kind "context_usage"); [laid_out |].
    destruct (String.eqb kind "file_tree"); [laid_out |].
    destruct (String.eqb kind "memory_blocks"); [laid_out |].
    destruct (String.eqb kind "subagent_group"); [laid_out |].
    destruct (String.eqb kind "queue"); [laid_out |].
    destruct (String.eqb kind "plan"); [laid_out |].
    destruct (String.eqb kind "todo"); [laid_out |].
    dumped.
Qed.
End UnknownBlocks.


(** ** Activation on a payload that passes the schema *)

Lemma groups_loop_returns {G} (body : nat -> jsv -> js (option G)) (blocks : list jsv)
    (i g : nat) :
  Forall (fun block => forall k, exists pushed, body k block = Normal pushed) blocks ->
  exists r, groups_loop body i g blocks = Normal r.
Proof.
  revert i g. induction blocks as [| block rest IH]; intros i g Hblocks;
    cbn [groups_loop]; [eauto |].
  apply Forall_cons in Hblocks as [Hblock Hrest].
  destruct (Hblock g) as [pushed ->]. cbn [mbind js_bind].
  destruct pushed as [group |]; [| apply IH, Hrest].
  destruct (IH (S i) (S g) Hrest) as [[groups skip] ->]. cbn. eauto.
Qed.

Lemma js_sequence_returns {A T} (f : nat -> A -> js T) (l : list A) :
  Forall (fun x => forall i, exists r, f i x = Normal r) l ->
  exists rows, js_sequence (imap f l) = Normal rows.
Proof.
  unfold js_sequence. revert f. induction l as [| x l IH]; intros f Hl; cbn [imap js_map];
    [eauto |].
  apply Forall_cons in Hl as [Hx Hl].
  change (id (f 0 x)) with (f 0 x). destruct (Hx 0) as [r ->]. cbn [mbind js_bind].
  destruct (IH (f ∘ S)) as [rows ->]; [| cbn; eauto].
  eapply Forall_impl; [exact Hl |]. intros y Hy i. apply Hy.
Qed.

Lemma text_or_absent_or_else (v : jsv) (d : string) :
  text_or_absent v = true -> exists s, or_else v (JStr d) = JStr s.
Proof.
  destruct v; try discriminate; intros _; unfold or_else; cbn [truthy]; eauto.
  destruct (negb _); eauto.
Qed.

Lemma valid_block_kind (block : jsv) :
  sp_ai_turn_block_schema block = true -> text_or_absent (get block "kind") = true.
Proof.
  unfold sp_ai_turn_block_schema, sp_ai_known_turn_block_schema,
    sp_ai_unknown_turn_block_schema, known_block, sp_ai_subagent_group_block_schema,
    sp_ai_background_tasks_block_schema.
  destruct (get block "kind"); try reflexivity;
    cbn [z_literal z_optional_string is_some orb andb];
    rewrite ?andb_false_r; cbn [is_some orb andb];
    rewrite ?andb_false_r; cbn [is_some orb andb]; discriminate.
Qed.

Lemma valid_payload_block_schemas (extra_data : jsv) :
  sp_ai_widget_extra_data_schema extra_data = true ->
  Forall (fun block => sp_ai_turn_block_schema block = true) (payload_blocks extra_data).
Proof.
  unfold sp_ai_widget_extra_data_schema, payload_blocks. intros Hvalid.
  apply andb_prop in Hvalid as [_ Hturn].
  destruct (get extra_data "turn") as [| | b | x | s | xs | props] eqn:Eturn;
    try (cbn; constructor).
  unfold sp_ai_turn_schema in Hturn. apply andb_prop in Hturn as [_ Hblocks].
  cbn [opt_get is_nullish].
  destruct (get (JObj props) "blocks") as [| | b | x | s | blocks | props'];
    try discriminate; try constructor.
  cbn [array_or_empty]. rewrite forallb_forall in Hblocks.
  apply Forall_forall. intros block Hin. apply Hblocks, list_elem_of_In, Hin.
Qed.

Section Activation.
Context `{Host}.

Lemma plan_group_of_block_returns (k : nat) (block : jsv) :
  plan_rows_print ->
  text_or_absent (get block "kind") = true ->
  exists pushed, plan_group_of_block k block = Normal pushed.
Proof.
  intros Hrows Hkind. unfold plan_group_of_block.
  destruct (sp_ai_plan_v2_block_schema block) as [data |] eqn:Hparsed.
  - cbv zeta. destruct (length _ =? 0)%nat; [eauto |].
    destruct (js_sequence_returns plan_step_of_row (default [] (PlanV2.steps data)))
      as [rows ->].
    + eapply Forall_impl; [exact (Hrows _ _ Hparsed) |].
      intros row [[step Hstep] [status Hstatus]] i. unfold plan_step_of_row.
      rewrite Hstep, Hstatus. cbn [mbind js_bind].
      destruct (normalize_plan_step_status status). eauto.
    + cbn [mbind js_bind]. destruct (length _ =? 0)%nat; eauto.
  - cbv zeta. rewrite !get_as_record.
    destruct (text_or_absent_or_else _ "" Hkind) as [kind ->]. cbn [ToString mbind js_bind].
    destruct (negb (String.eqb kind "plan")); [eauto |].
    destruct (length _ =? 0)%nat; eauto.
Qed.

Lemma todo_group_of_block_returns (k : nat) (block : jsv) :
  todo_rows_print ->
  text_or_absent (get block "kind") = true ->
  exists pushed, todo_group_of_block k block = Normal pushed.
Proof.
  intros Hrows Hkind. unfold todo_group_of_block.
  destruct (sp_ai_todo_v2_block_schema block) as [data |] eqn:Hparsed.
  - cbv zeta. destruct (length _ =? 0)%nat; [eauto |].
    destruct (js_sequence_returns todo_item_of_row (default [] (TodoV2.items data)))
      as [rows ->].
    + eapply Forall_impl; [exact (Hrows _ _ Hparsed) |].
      intros row [text Htext] i. unfold todo_item_of_row.
      rewrite Htext. cbn [mbind js_bind]. eauto.
    + cbn [mbind js_bind]. destruct (length _ =? 0)%nat; eauto.
  - cbv zeta. rewrite !get_as_record.
    destruct (text_or_absent_or_else _ "" Hkind) as [kind ->]. cbn [ToString mbind js_bind].
    destruct (negb (String.eqb kind "todo")); [eauto |].
    destruct (length _ =? 0)%nat; eauto.
Qed.

Lemma valid_payload_prepares (extra_data : jsv) :
  plan_rows_print ->
  todo_rows_print ->
  sp_ai_widget_extra_data_schema extra_data = true ->
  exists prepared, prepare extra_data = Normal prepared.
Proof.
  intros Hplan Htodo Hvalid.
  pose proof (valid_payload_block_schemas _ Hvalid) as Hblocks.
  assert (Hvalue : is_nullish extra_data = false).
  { unfold sp_ai_widget_extra_data_schema in Hvalid.
    destruct extra_data; try reflexivity; discriminate. }
  assert (Hstatus : text_or_absent (get extra_data "status") = true).
  { unfold sp_ai_widget_extra_data_schema in Hvalid.
    repeat match type of Hvalid with
           | _ && _ = true => let Hfield := fresh "Hfield" in
                              apply andb_prop in Hvalid as [Hvalid Hfield]
           end.
    destruct (get extra_data "status"); try reflexivity; discriminate. }
  assert (Hturn : (get extra_data "turn" = JUndefined)
                  \/ (exists props, get extra_data "turn" = JObj props
                                    /\ text_or_absent (get (JObj props) "kind") = true
                                    /\ text_or_absent (get (JObj props) "status") = true)).
  { unfold sp_ai_widget_extra_data_schema in Hvalid.
    apply andb_prop in Hvalid as [_ Hturn].
    destruct (get extra_data "turn") as [| | b | x | s | xs | props]; try discriminate;
      [now left | right].
    exists props. split; [reflexivity |].
    unfold sp_ai_turn_schema in Hturn.
    repeat match type of Hturn with
           | _ && _ = true => let Hfield := fresh "Hfield" in
                              apply andb_prop in Hturn as [Hturn Hfield]
           end.
    split.
    - destruct (get (JObj props) "kind"); try reflexivity; discriminate.
    - destruct (get (JObj props) "status"); try reflexivity; discriminate. }
  unfold prepare. cbv zeta. rewrite !get_or_else_empty.
  assert (Hkind' : exists kindRaw,
             ToString (or_else (opt_get (if truthy (get extra_data "turn")
                                            && typeof_object (get extra_data "turn")
                                         then get extra_data "turn" else JNull) "kind")
                         (JStr "")) = Normal kindRaw).
  { destruct Hturn as [-> | (props & -> & Hk & _)]; cbn [truthy typeof_object andb opt_get
                                                          is_nullish].
    - eexists. reflexivity.
    - destruct (text_or_absent_or_else _ "" Hk) as [s ->]. eexists. reflexivity. }
  assert (Hstatus' : exists statusRaw,
             ToString (or_else (or_else (opt_get (if truthy (get extra_data "turn")
                                                     && typeof_object (get extra_data "turn")
                                                  then get extra_data "turn" else JNull)
                                           "status")
                                  (get extra_data "status"))
                         (JStr "running")) = Normal statusRaw).
  { assert (Hinner : forall a b, text_or_absent a = true -> text_or_absent b = true ->
                                 text_or_absent (or_else a b) = true).
    { intros a b Ha Hb. unfold or_else. destruct (truthy a); assumption. }
    destruct Hturn as [-> | (props & -> & _ & Hs)]; cbn [truthy typeof_object andb opt_get
                                                          is_nullish].
    - destruct (text_or_absent_or_else _ "running" (Hinner JUndefined _ eq_refl Hstatus))
        as [s ->]. eexists. reflexivity.
    - destruct (text_or_absent_or_else _ "running" (Hinner _ _ Hs Hstatus)) as [s ->].
      eexists. reflexivity. }
  destruct Hkind' as [kindRaw ->]. destruct Hstatus' as [statusRaw ->].
  cbn [mbind js_bind].
  destruct (normalizers_run_loops extra_data Hvalue) as [(sub & -> & _) (bg & -> & _)].
  cbn [mbind js_bind].
  assert (Hplan' : exists plan, normalize_plan_blocks extra_data = Normal plan).
  { unfold normalize_plan_blocks, turn_blocks_of, member. rewrite Hvalue.
    cbn [mbind js_bind]. fold (payload_blocks extra_data).
    rewrite <- plan_groups_loop_generic.
    destruct (groups_loop_returns plan_group_of_block (payload_blocks extra_data) 0 0)
      as [[groups skip] ->]; [| cbn; eauto].
    eapply Forall_impl; [exact Hblocks |]. intros block Hblock k.
    apply plan_group_of_block_returns; [exact Hplan | now apply valid_block_kind]. }
  assert (Htodo' : exists todo, normalize_todo_blocks extra_data = Normal todo).
  { unfold normalize_todo_blocks, turn_blocks_of, member. rewrite Hvalue.
    cbn [mbind js_bind]. fold (payload_blocks extra_data).
    rewrite <- todo_groups_loop_generic.
    destruct (groups_loop_returns todo_group_of_block (payload_blocks extra_data) 0 0)
      as [[groups skip] ->]; [| cbn; eauto].
    eapply Forall_impl; [exact Hblocks |]. intros block Hblock k.
    apply todo_group_of_block_returns; [exact Htodo | now apply valid_block_kind]. }
  destruct Hplan' as [plan ->]. destruct Htodo' as [todo ->]. cbn [mbind js_bind]. eauto.
Qed.

(** X22: activation on a payload that passes the creation schema never
    throws, provided the rows that the v2 plan and todo schemas accept can
    be turned into strings: [activate] returns a handler over a state,
    paints that state exactly once, and logs at most the one warning of the
    fallback. *)
Theorem X22_valid_payload_activates (extra_data : jsv) :
  plan_rows_print ->
  todo_rows_print ->
  sp_ai_widget_extra_data_schema extra_data = true ->
  exists (state : WidgetState) (warnings : list effect),
    activate {| widget_type := "sp_ai"; extra_data := extra_data |}
    = mkEff (warnings ++ [Render state])%list (Normal (handle_events_over state))
    /\ (warnings = [] \/ warnings = [Warn "sp_ai widget: invalid extra_data"]).
Proof.
  intros Hplan Htodo Hvalid.
  destruct (valid_payload_prepares _ Hplan Htodo Hvalid)
    as [[[[[candidate sub] bg] plan] todo] Hprepared].
  assert (Hnormal : exists state warnings,
             normalize_extra_data extra_data = mkEff warnings (Normal state)
             /\ (warnings = [] \/ warnings = [Warn "sp_ai widget: invalid extra_data"])).
  { unfold normalize_extra_data, mbind at 1, Eff_bind, lift. cbn [completion trace].
    rewrite Hprepared. cbn.
    destruct (widget_state_schema candidate); cbn; eauto. }
  destruct Hnormal as (state & warnings & Hnormal & Hwarnings).
  exists state, warnings. split; [| exact Hwarnings].
  assert (Hobject : exists props, extra_data = JObj props).
  { unfold sp_ai_widget_extra_data_schema in Hvalid.
    destruct extra_data; try discriminate. eauto. }
  destruct Hobject as [props ->].
  unfold activate. cbn -[normalize_extra_data]. rewrite Hnormal. reflexivity.
Qed.
End Activation.


(** ** Fields the widget does not know *)

Section UnknownFields.
Context `{Host}.

(** X23: the normalization reads nothing but the nine fields it knows:
    two payloads (neither [null] nor [undefined]) that agree on version,
    display, title, caption, status, tool, input, output and turn give the
    same state and the same log, whatever else they carry. *)
Theorem X23_unrecognised_fields_are_ignored (extra_data other : jsv) :
  is_nullish extra_data = false ->
  is_nullish other = false ->
  (forall k, In k recognised_fields -> get extra_data k = get other k) ->
  normalize_extra_data extra_data = normalize_extra_data other.
Proof.
  intros Hvalue Hother Hsame.
  unfold normalize_extra_data, prepare, candidate_state, normalize_subagent_groups,
    normalize_background_tasks, normalize_plan_blocks, normalize_todo_blocks,
    turn_blocks_of, member.
  rewrite !get_or_else_empty, Hvalue, Hother.
  rewrite !(Hsame "version"), !(Hsame "display"), !(Hsame "title"), !(Hsame "caption"),
    !(Hsame "status"), !(Hsame "tool"), !(Hsame "input"), !(Hsame "output"),
    !(Hsame "turn") by (unfold recognised_fields; simpl; tauto).
  reflexivity.
Qed.
End UnknownFields.


(** ** Blocks that pass the known-block schema *)

Lemma is_json_own_property (props : list (string * jsv)) (k : string) (v : jsv) :
  forallb (fun p => is_json p.2) props = true ->
  own_property props k = Some v ->
  is_json v = true.
Proof.
  induction props as [| [k' v'] props IH]; cbn [forallb own_property]; [discriminate |].
  intros Hprops. apply andb_prop in Hprops as [Hv Hprops].
  destruct (String.eqb k' k); [intros [= <-]; exact Hv | now apply IH].
Qed.

Lemma is_json_get (block : jsv) (k : string) :
  is_json block = true -> get block k = JUndefined \/ is_json (get block k) = true.
Proof.
  destruct block as [| | | | | | props]; try (intros _; now left).
  cbn [is_json get]. intros Hprops.
  destruct (own_property props k) as [v |] eqn:Hv; [right | now left].
  eapply is_json_own_property; eassumption.
Qed.

Lemma is_json_has_own (block : jsv) (k : string) :
  is_json block = true -> hasOwn block k = true -> is_json (get block k) = true.
Proof.
  destruct block as [| | | | | | props]; try discriminate.
  cbn [is_json get hasOwn]. intros Hprops Hown. apply bool_decide_eq_true in Hown as [v Hv].
  rewrite Hv. eapply is_json_own_property; eassumption.
Qed.

Section KnownBlocks.
Context `{Host}.

Lemma stringify_json (v : jsv) :
  is_json v = true -> exists s, stringify_unknown v = Some s.
Proof. destruct v; try discriminate; intros _; cbn; eauto. Qed.

Lemma stringify_json_items (items : list jsv) :
  forallb is_json items = true ->
  exists texts, mapM id (map stringify_unknown items) = Some texts.
Proof.
  induction items as [| item items IH]; cbn [forallb map]; [eauto |].
  intros Hitems. apply andb_prop in Hitems as [Hitem Hitems].
  destruct (stringify_json item Hitem) as [s Hs]. destruct (IH Hitems) as [texts Htexts].
  exists (s :: texts). cbn. rewrite Hs. cbn. rewrite Htexts. reflexivity.
Qed.

Lemma generic_block_passes (index : nat) (kind title : string) (text : option string)
    (language : string) (channel : Channel.t) (is_unknown : bool)
    (list_items : list (option string)) :
  is_Some text ->
  is_Some (mapM id list_items) ->
  is_Some (block_schema (generic_block index kind title text language channel is_unknown
                           list_items false 0)).
Proof.
  intros [t ->] [items Hitems]. unfold block_schema, generic_block.
  cbn [Block.text Block.columns Block.rows Block.copy_text Block.context_usage_percent
       Block.list_items mbind option_bind mapM].
  rewrite Hitems. cbn. eauto.
Qed.

Lemma json_items_pass (items : list jsv) :
  forallb is_json items = true -> is_Some (mapM id (map stringify_unknown items)).
Proof. intros Hitems. destruct (stringify_json_items items Hitems). eauto. Qed.

Lemma table_block_passes (index : nat) (kind title : string) (block : jsv) :
  is_json block = true ->
  is_Some (block_schema (table_block index kind title block)).
Proof.
  intros Hjson. unfold block_schema, table_block.
  cbn [Block.text Block.columns Block.rows Block.copy_text Block.context_usage_percent
       Block.list_items mbind option_bind].
  assert (Hcolumns : is_Some (mapM id match get block "columns" with
                                      | JArr values => map stringify_unknown values
                                      | _ => []
                                      end)).
  { destruct (is_json_get block "columns" Hjson) as [-> | Hc]; [cbn; eauto |].
    destruct (get block "columns"); try (cbn; eauto). now apply json_items_pass. }
  assert (Hrows : is_Some (mapM (mapM id)
                             match get block "rows" with
                             | JArr rs =>
                                 map (fun row => match row with
                                                 | JArr values => map stringify_unknown values
                                                 | _ => [stringify_unknown row]
                                                 end) rs
                             | _ => []
                             end)).
  { destruct (is_json_get block "rows" Hjson) as [-> | Hr]; [cbn; eauto |].
    destruct (get block "rows") as [| | | | | rs |]; try (cbn; eauto).
    cbn [is_json] in Hr. induction rs as [| row rs IH]; [cbn; eauto |].
    cbn [forallb] in Hr. apply andb_prop in Hr as [Hrow Hrs].
    destruct (IH Hrs) as [rest Hrest].
    assert (Hhead : is_Some (mapM id match row with
                                     | JArr values => map stringify_unknown values
                                     | _ => [stringify_unknown row]
                                     end)).
    { destruct row as [| | b | x | s | values | props]; try discriminate;
        [ apply (json_items_pass [JNull]) | apply (json_items_pass [JBool b])
        | apply (json_items_pass [JNum x]) | apply (json_items_pass [JStr s])
        | apply json_items_pass | apply (json_items_pass [JObj props]) ];
        cbn [forallb]; rewrite ?andb_true_r; exact Hrow. }
    destruct Hhead as [head Hhead]. cbn [map mapM]. rewrite Hhead. cbn.
    cbn [mapM] in Hrest. rewrite Hrest. cbn. eauto. }
  destruct Hcolumns as [columns ->]. cbn [mbind option_bind].
  destruct Hrows as [rows ->]. cbn. eauto.
Qed.

(** X24: a JSON block that passes [sp_ai_known_turn_block_schema]
    (markdown, text, code, diff, json, table, stream, subagent group or
    background tasks) always gives a generic block that passes the state
    schema: each of its texts is a string.  So only a block let in by the
    permissive unknown-block schema can force the fallback. *)
Theorem X24_known_blocks_pass_the_state_schema (index : nat) (block : jsv) :
  is_json block = true ->
  sp_ai_known_turn_block_schema block = true ->
  is_Some (block_schema (turn_block index block)).
Proof.
  intros Hjson Hknown. unfold sp_ai_known_turn_block_schema in Hknown.
  assert (Hdump : is_Some (stringify_unknown block)).
  { destruct (stringify_json block Hjson). eauto. }
  repeat (apply orb_prop in Hknown as [Hknown | Hknown]).
  1-7: unfold known_block in Hknown;
       apply andb_prop in Hknown as [Hknown Hfields];
       apply andb_prop in Hknown as [Hknown _];
       apply andb_prop in Hknown as [_ Hkind];
       destruct (get block "kind") as [| | | | kind | |] eqn:Ekind; try discriminate;
       apply String.eqb_eq in Hkind; subst kind;
       unfold turn_block; rewrite Ekind; cbn [string_or];
       cbn [String.eqb Ascii.eqb Bool.eqb andb orb negb].
  - (* markdown *)
    apply generic_block_passes; [| cbn; eauto].
    destruct (get block "text"); try discriminate; cbn; eauto.
  - (* text *)
    apply generic_block_passes; [| cbn; eauto].
    destruct (get block "text"); try discriminate; cbn; eauto.
  - (* code *)
    apply andb_prop in Hfields as [Hcode _].
    apply generic_block_passes; [| cbn; eauto].
    destruct (get block "code") as [| | | | code | |]; try discriminate. cbn.
    destruct (String.eqb _ "json"); [| eauto].
    destruct (try_pretty_json code); eauto.
  - (* diff *)
    apply andb_prop in Hfields as [Hdiff _].
    apply generic_block_passes; [| cbn; eauto].
    destruct (get block "diff"); try discriminate; cbn; eauto.
  - (* json *)
    apply generic_block_passes; [| cbn; eauto].
    destruct (get block "text") as [| | | | text | |]; try discriminate; [| eauto].
    destruct (hasOwn block "json") eqn:Hown; [| exact Hdump].
    destruct (stringify_json _ (is_json_has_own _ _ Hjson Hown)). eauto.
  - (* table *)
    now apply table_block_passes.
  - (* stream *)
    apply andb_prop in Hfields as [Hchannel Htext].
    destruct (get block "channel") as [| | | | c | |]; try discriminate.
    cbn [z_literal] in Hchannel.
    assert (Htext' : is_Some (stringify_unknown (get block "text"))).
    { destruct (get block "text"); try discriminate; cbn; eauto. }
    destruct (String.eqb c "stdout"); [apply generic_block_passes; cbn; eauto |].
    destruct (String.eqb c "stderr"); [apply generic_block_passes; cbn; eauto |].
    discriminate.
  - (* subagent group *)
    unfold sp_ai_subagent_group_block_schema in Hknown.
    destruct (is_plain_object block && z_literal "subagent_group" (get block "kind"))
      eqn:Hhead; [| discriminate].
    apply andb_prop in Hhead as [_ Hkind].
    destruct (get block "kind") as [| | | | kind | |] eqn:Ekind; try discriminate.
    apply String.eqb_eq in Hkind. subst kind.
    unfold turn_block. rewrite Ekind. cbn [string_or].
    cbn [String.eqb Ascii.eqb Bool.eqb andb orb negb].
    assert (Hlist : forall k, match get block k with
                              | JArr items => forallb is_json items = true
                              | _ => True
                              end).
    { intros k. destruct (is_json_get block k Hjson) as [-> | Hk]; [exact I |].
      destruct (get block k); try exact I. exact Hk. }
    pose proof (Hlist "items") as Hitems. pose proof (Hlist "rows") as Hrows.
    destruct (get block "items") as [| | | | | items |];
      [ | | | | | apply generic_block_passes; [eauto | now apply json_items_pass] | ];
      (destruct (get block "rows") as [| | | | | rows |];
       [ | | | | | apply generic_block_passes; [eauto | now apply json_items_pass] | ]);
      (apply generic_block_passes; [destruct (get block "text"); eauto | cbn; eauto]).
  - (* background tasks *)
    unfold sp_ai_background_tasks_block_schema in Hknown.
    destruct (is_plain_object block
              && (z_literal "background_tasks" (get block "kind")
                  || z_literal "bash_tasks" (get block "kind")))
      eqn:Hhead; [| discriminate].
    apply andb_prop in Hhead as [_ Hkind].
    destruct (get block "kind") as [| | | | kind | |] eqn:Ekind; try discriminate.
    cbn [z_literal] in Hkind.
    unfold turn_block. rewrite Ekind. cbn [string_or].
    apply orb_prop in Hkind as [Hkind | Hkind]; apply String.eqb_eq in Hkind; subst kind;
      cbn [String.eqb Ascii.eqb Bool.eqb andb orb negb];
      apply generic_block_passes; cbn; eauto.
Qed.
End KnownBlocks.


(** ** Which field wins *)

Lemma is_some_optional_string (v : jsv) :
  is_some (z_optional_string v) = true -> text_or_absent v = true.
Proof. destruct v; try discriminate; reflexivity. Qed.

Lemma text_precedence (a b : jsv) (d : string) :
  text_or_absent a = true ->
  text_or_absent b = true ->
  z_string (a ?? b ?? JStr d) = Some (string_or a (string_or b d)).
Proof. destruct a; try discriminate; destruct b; try discriminate; reflexivity. Qed.

Lemma kind_of_string_not_empty (s : string) :
  Kind.of_string s <> None -> String.eqb s "" = false.
Proof. destruct s; [intros Habs; now contradiction Habs | reflexivity]. Qed.

Section Precedence.
Context `{Host}.

Lemma prepare_candidate (extra_data : jsv) candidate sub bg plan todo :
  prepare extra_data = Normal (candidate, sub, bg, plan, todo) ->
  let ed := or_else extra_data (JObj []) in
  let turn := if truthy (get ed "turn") && typeof_object (get ed "turn")
              then get ed "turn" else JNull in
  exists kindRaw statusRaw,
    ToString (or_else (opt_get turn "kind") (JStr "")) = Normal kindRaw
    /\ ToString (or_else (or_else (opt_get turn "status") (get ed "status"))
                   (JStr "running")) = Normal statusRaw
    /\ candidate = candidate_state ed turn kindRaw statusRaw (skipped sub bg plan todo).
Proof.
  unfold prepare. cbv zeta.
  destruct (ToString (or_else _ (JStr ""))) as [kindRaw | msg];
    cbn [mbind js_bind]; [| discriminate].
  destruct (ToString (or_else _ (JStr "running"))) as [statusRaw | msg];
    cbn [mbind js_bind]; [| discriminate].
  destruct (normalize_subagent_groups extra_data) as [sub' | msg];
    cbn [mbind js_bind]; [| discriminate].
  destruct (normalize_background_tasks extra_data) as [bg' | msg];
    cbn [mbind js_bind]; [| discriminate].
  destruct (normalize_plan_blocks extra_data) as [plan' | msg];
    cbn [mbind js_bind]; [| discriminate].
  destruct (normalize_todo_blocks extra_data) as [todo' | msg];
    cbn [mbind js_bind]; [| discriminate].
  intros [= <- <- <- <- <-]. exists kindRaw, statusRaw. repeat split.
Qed.

(** X25: in a payload that passes the creation schema and carries a turn,
    the turn wins over the v1 fields: unless the state falls back, its kind,
    status and title are those of the turn, its caption is the turn's
    subtitle, its tool and input are the name and the arguments of the
    turn's tool, its output is the turn's output, and a v1 field is used
    only where the turn leaves its own out. *)
Theorem X25_turn_fields_win (extra_data : jsv) (props : list (string * jsv))
    (state : WidgetState) :
  sp_ai_widget_extra_data_schema extra_data = true ->
  get extra_data "turn" = JObj props ->
  normalize_extra_data extra_data = mkEff [] (Normal state) ->
  let turn := JObj props in
  z_kind (get turn "kind") = Some (kind state)
  /\ z_status (get turn "status") = Some (status state)
  /\ get turn "title" = JStr (title state)
  /\ caption state = string_or (get turn "subtitle") (string_or (get extra_data "caption") "")
  /\ tool state
     = string_or (opt_get (get turn "tool") "name") (string_or (get extra_data "tool") "")
  /\ input state
     = string_or (opt_get (get turn "tool") "argsText")
         (string_or (get extra_data "input") "")
  /\ output state = string_or (get turn "output") (string_or (get extra_data "output") "").
Proof.
  intros Hvalid Hturn Hnormal. cbv zeta.
  unfold sp_ai_widget_extra_data_schema in Hvalid. rewrite Hturn in Hvalid.
  repeat match type of Hvalid with
         | _ && _ = true => let Hfield := fresh "Hfield" in
                            apply andb_prop in Hvalid as [Hvalid Hfield]
         end.
  unfold sp_ai_turn_schema in Hfield.
  repeat match type of Hfield with
         | _ && _ = true => let Hturn := fresh "Hturn" in
                            apply andb_prop in Hfield as [Hfield Hturn]
         end.
  clear Hturn0 Hturn1.
  assert (Htool : text_or_absent (opt_get (get (JObj props) "tool") "name") = true
                  /\ text_or_absent (opt_get (get (JObj props) "tool") "argsText") = true).
  { destruct (get (JObj props) "tool") as [| | | | | | tool] eqn:Etool;
      try discriminate; [split; reflexivity |].
    unfold sp_ai_turn_tool_schema in Hturn2.
    repeat match type of Hturn2 with
           | _ && _ = true => let Htool := fresh "Htool" in
                              apply andb_prop in Hturn2 as [Hturn2 Htool]
           end.
    cbn [opt_get is_nullish]. split.
    - destruct (get (JObj tool) "name"); try discriminate; reflexivity.
    - now apply is_some_optional_string. }
  destruct Htool as [Hname Hargs].
  unfold normalize_extra_data, mbind at 1, Eff_bind, lift in Hnormal.
  cbn [completion trace] in Hnormal.
  destruct (prepare extra_data) as [[[[[candidate sub] bg] plan] todo] | msg] eqn:Hprepared;
    [| discriminate].
  cbn [completion trace] in Hnormal.
  destruct (widget_state_schema candidate) as [base |] eqn:Hbase; [| discriminate].
  cbn in Hnormal. injection Hnormal as <-.
  apply prepare_candidate in Hprepared as (kindRaw & statusRaw & HkindRaw & HstatusRaw & ->).
  rewrite !get_or_else_empty, Hturn in HkindRaw, HstatusRaw, Hbase.
  cbn [truthy typeof_object andb opt_get is_nullish] in HkindRaw, HstatusRaw, Hbase.
  unfold widget_state_schema, candidate_state in Hbase.
  cbn [Candidate.version Candidate.display Candidate.kind Candidate.title Candidate.caption
       Candidate.status Candidate.tool Candidate.input Candidate.output Candidate.blocks
       Candidate.parallel] in Hbase.
  rewrite !get_or_else_empty in Hbase. rewrite ?get_or_else_empty in HstatusRaw.
  change (opt_get (JObj props) "title") with (get (JObj props) "title") in Hbase.
  change (opt_get (JObj props) "subtitle") with (get (JObj props) "subtitle") in Hbase.
  change (opt_get (JObj props) "tool") with (get (JObj props) "tool") in Hbase.
  change (opt_get (JObj props) "output") with (get (JObj props) "output") in Hbase.
  rewrite (text_precedence _ _ "" (is_some_optional_string _ Hturn4)
             (is_some_optional_string _ Hfield4)),
    (text_precedence _ _ "" Hname (is_some_optional_string _ Hfield2)),
    (text_precedence _ _ "" Hargs (is_some_optional_string _ Hfield1)),
    (text_precedence _ _ "" (is_some_optional_string _ Hturn3)
       (is_some_optional_string _ Hfield0)) in Hbase.
  destruct (get (JObj props) "title") as [| | | | title | |] eqn:Etitle; try discriminate.
  destruct (get (JObj props) "kind") as [| | | | k | |] eqn:Ekind; try discriminate.
  destruct (get (JObj props) "status") as [| | | | s | |] eqn:Estatus; try discriminate.
  cbn [z_kind z_status] in *.
  destruct (Kind.of_string k) as [K |] eqn:HK; [| discriminate].
  destruct (Status.of_string s) as [S |] eqn:HS; [| discriminate].
  unfold or_else in HkindRaw, HstatusRaw. cbn [truthy] in HkindRaw, HstatusRaw.
  rewrite kind_of_string_not_empty in HkindRaw by congruence.
  rewrite (status_of_string_not_empty s) in HstatusRaw by congruence.
  cbn [negb truthy] in HstatusRaw.
  rewrite (status_of_string_not_empty s) in HstatusRaw by congruence.
  cbn in HkindRaw, HstatusRaw. injection HkindRaw as <-. injection HstatusRaw as <-.
  rewrite HK, HS in Hbase. cbn [default] in Hbase.
  change (JStr title ?? ?x) with (JStr title) in Hbase.
  simplify_option_eq. cbn. repeat split.
Qed.
End Precedence.


(** * Closed instances

    Each lemma below applies one of the theorems above at a concrete input,
    on [sample_host]. *)

(** C4, as the spec words it, fails: with an empty skip set and the array
    ["note", {kind: "text", text: "hello"}] the only emitted index is 1, so
    index 0 is left out although no extractor consumed it.  A
    [set_extra_data] event can carry such an array, and the state it leaves
    has the one block of index 1. *)
Lemma C4_counterexample :
  let raw_blocks := [JStr "note"; hello_text_block] in
  let emitted :=
    map Block.index (@normalize_turn_blocks sample_host (JArr raw_blocks) ∅) in
  emitted = [1]
  /\ ~ (forall i : nat, i ∈ emitted <-> i < length raw_blocks /\ (i ∉ (∅ : gset nat)))
  /\ (exists state : WidgetState,
        next (@handle_events sample_host documented_default_state
                [set_extra_data_event (payload_with_blocks raw_blocks)])
        = handle_events_over state
        /\ map Block.index (blocks state) = [1]
        /\ has_subagent_groups state = false
        /\ has_background_tasks state = false
        /\ has_plan_blocks state = false
        /\ has_todo_blocks state = false).
Proof.
  cbv zeta. split; [reflexivity | split].
  - intros Hclaim. destruct (Hclaim 0) as [_ Hin].
    assert (H0 : 0 ∈ [1]).
    { apply Hin. split; [cbn; lia | apply not_elem_of_empty]. }
    apply list_elem_of_singleton in H0. discriminate.
  - eexists. split; [vm_compute; reflexivity |]. repeat split.
Qed.

(** The fallback of C1 keeps what the extractors found: the payload with a
    text-less markdown block and a subagent group falls back to the default
    base fields, and still shows its subagent group. *)
Example fallback_keeps_groups :
  exists state : WidgetState,
    @normalize_extra_data sample_host payload_markdown_without_text
    = mkEff [Warn "sp_ai widget: invalid extra_data"] (Normal state)
    /\ blocks state = []
    /\ has_subagent_groups state = true
    /\ turn_kind state = JStr "tool".
Proof. eexists. split; [vm_compute; reflexivity |]. repeat split. Qed.

Lemma C1_witness :
  (exists state : WidgetState,
     @normalize_extra_data sample_host payload_markdown_without_text
     = mkEff [Warn "sp_ai widget: invalid extra_data"] (Normal state)
     /\ kind state = Kind.final
     /\ status state = Status.running
     /\ title state = "Agent output"
     /\ blocks state = [])
  /\ @normalize_extra_data sample_host (JObj [("future_field", JStr "x")])
     = mkEff [] (Normal documented_default_state).
Proof.
  split.
  - edestruct (proj1 (@C1_malformed_payload_falls_back sample_host
                        payload_markdown_without_text))
      as (state & Hrun & _ & Hkind & Hstatus & _ & _ & Htitle & _ & _ & _ & _ & Hblocks & _).
    + vm_compute. reflexivity.
    + vm_compute. reflexivity.
    + exists state. auto.
  - apply (proj2 (@C1_malformed_payload_falls_back sample_host
                    (JObj [("future_field", JStr "x")]))).
    + reflexivity.
    + intros k Hk. simpl in Hk.
      repeat (destruct Hk as [<- | Hk]; [reflexivity |]). contradiction.
Defined.

Lemma C2_witness :
  @handle_events sample_host
    (with_output (with_status documented_default_state Status.ok) "X")
    [set_extra_data_event (JObj [("status", JStr "running")])]
  = {| next := handle_events_over documented_default_state;
       effects := [Render documented_default_state];
       thrown := None |}.
Proof.
  exact (proj1 (proj2 (@C2_set_extra_data_replaces_state sample_host
                         (with_output (with_status documented_default_state Status.ok) "X")))
           (JObj [("status", JStr "running")]) documented_default_state eq_refl).
Defined.

Lemma C3_witness :
  @handle_events sample_host documented_default_state
    [set_status_event "ok"; set_status_event "bogus"; append_output_event "x"]
  = @handle_events sample_host documented_default_state
      [set_status_event "ok"; append_output_event "x"].
Proof.
  exact (proj1 (proj2 (proj2 (@C3_invalid_events_leave_state_unchanged sample_host
                                documented_default_state)))
           [set_status_event "ok"] [append_output_event "x"] (set_status_event "bogus")
           eq_refl).
Defined.

Lemma C5_witness :
  @format_duration_ms sample_host 1500 = @fixed sample_host (1500 / 1000)%float 1 ++ "s"
  /\ @format_duration_ms sample_host (whole_number 59999) = "60s".
Proof.
  pose proof (@C5_format_duration_ms_boundaries sample_host)
    as (_ & _ & _ & _ & _ & Hranges & Hwhole).
  split.
  - apply (Hranges 1500%float eq_refl eq_refl); reflexivity.
  - apply (Hwhole 59999%Z); [right; right |]; lia.
Defined.


(** A no-break space, U+00A0, is trimmed like a blank. *)
Example no_break_space_is_trimmed :
  let nbsp := String (ascii_of_nat 194) (String (ascii_of_nat 160) "") in
  @normalize_subagent_status sample_host (nbsp ++ "ok" ++ nbsp)
  = (SubagentStatusClass.ok, "OK")
  /\ @normalize_background_task_status sample_host (nbsp ++ "Queued")
     = (BackgroundTaskStatusClass.pending, "Pending")
  /\ @normalize_plan_step_status sample_host (nbsp ++ "done" ++ nbsp)
     = (PlanStepStatusClass.ok, "Done")
  /\ legacy_todo_item 0 (JStr ("[x] " ++ nbsp)) = None.
Proof. vm_compute. repeat split. Qed.

Lemma C7_witness :
  exists final : WidgetState,
    @handle_events sample_host documented_default_state
      [append_output_event "a"; append_output_event "b"]
    = {| next := handle_events_over final; effects := [Render final]; thrown := None |}
    /\ output final = "ab"
    /\ fields_but_output final = fields_but_output documented_default_state.
Proof.
  exact (proj2 (proj2 (proj2 (proj2 (@C7_append_output_is_concatenation sample_host
                                       documented_default_state)))) eq_refl).
Defined.

Lemma C8_witness :
  (@subagent_group_of_block sample_host empty_subagent_group_block = None
   /\ (@subagent_groups_loop sample_host 0 [hello_text_block; empty_subagent_group_block]).1
      = (@subagent_groups_loop sample_host 0 [hello_text_block]).1
   /\ 1 ∉ (@subagent_groups_loop sample_host 0
              [hello_text_block; empty_subagent_group_block]).2)
  /\ (forall group_index,
        @background_group_of_block sample_host group_index blank_background_tasks_block
        = None).
Proof.
  split.
  - eapply (proj1 (@C8_empty_groups_are_suppressed sample_host [hello_text_block] []
                     empty_subagent_group_block));
      reflexivity.
  - eapply (proj2 (@C8_empty_groups_are_suppressed sample_host [] []
                     blank_background_tasks_block)).
    + reflexivity.
    + repeat constructor.
Defined.

Lemma C10_witness :
  (@format_duration_ms sample_host (-1) = ""
   /\ @format_tokens sample_host (-1) = ""
   /\ @format_runtime_sec sample_host (-1) = "")
  /\ (@format_duration_ms sample_host infinity = ""
      /\ @format_tokens sample_host infinity = ""
      /\ @format_runtime_sec sample_host infinity = "").
Proof.
  split.
  - apply (@C10_formatters_reject_negative_and_non_finite sample_host (-1)%float).
    right. reflexivity.
  - apply (@C10_formatters_reject_negative_and_non_finite sample_host infinity).
    left. reflexivity.
Defined.
Lemma X3_witness :
  @handle_events sample_host documented_default_state
    ([set_status_event "ok"] ++ [append_output_event "x"])
  = {| next := handle_events_over
                 (with_output (with_status documented_default_state Status.ok) "x");
       effects := [Render (with_output (with_status documented_default_state Status.ok) "x")];
       thrown := None |}.
Proof.
  exact (proj1 (@X3_batches_compose sample_host documented_default_state
                  [set_status_event "ok"] [append_output_event "x"]) eq_refl).
Defined.

Lemma X4_witness :
  exists (s : Status.t) (o : string),
    @handle_events sample_host documented_default_state
      [set_status_event "ok"; set_status_event "bogus"; set_output_event "done";
       append_output_event "!"]
    = {| next := handle_events_over (with_output (with_status documented_default_state s) o);
         effects := [Render (with_output (with_status documented_default_state s) o)];
         thrown := None |}.
Proof.
  apply (@X4_direct_mutations_keep_the_frame sample_host documented_default_state).
  reflexivity.
Defined.

Lemma X5_witness :
  @handle_events sample_host documented_default_state
    ([set_status_event "ok"] ++ set_extra_data_event_without_payload
       :: [append_output_event "late"])
  = {| next := handle_events_over (with_status documented_default_state Status.ok);
       effects := [];
       thrown := Some "TypeError: Cannot read properties of null or undefined" |}.
Proof.
  exact (@X5_missing_payload_aborts_the_batch sample_host documented_default_state
           [set_status_event "ok"] [append_output_event "late"]
           set_extra_data_event_without_payload JUndefined eq_refl eq_refl eq_refl).
Defined.


Lemma sample_state_reachable : @reachable sample_host sample_state.
Proof.
  apply (@reachable_activate sample_host
           {| widget_type := "sp_ai"; extra_data := sample_payload |}).
  vm_compute. reflexivity.
Qed.

Lemma X6_witness :
  map BackgroundTasksGroupTemplate.group_index (background_task_groups sample_state) = [0]
  /\ map PlanGroupTemplate.group_index (plan_groups sample_state) = [0]
  /\ map TodoGroupTemplate.group_index (todo_groups sample_state) = [0].
Proof.
  destruct (@X6_groups_are_numbered_in_order sample_host sample_state sample_state_reachable)
    as ((Hbg & _) & (Hplan & _) & (Htodo & _)).
  rewrite Hbg, Hplan, Htodo. vm_compute. repeat split.
Defined.

Lemma X7_witness :
  exists candidate sub bg plan todo,
    @prepare sample_host sample_payload = Normal (candidate, sub, bg, plan, todo)
    /\ size (BackgroundTasks.skip_block_indexes bg) = 1
    /\ size (PlanBlocks.skip_block_indexes plan) = 1.
Proof.
  destruct (@prepare sample_host sample_payload)
    as [[[[[candidate sub] bg] plan] todo] | msg] eqn:Hprepared.
  - exists candidate, sub, bg, plan, todo. split; [reflexivity |].
    destruct (@X7_one_skipped_block_per_group sample_host sample_payload
                candidate sub bg plan todo Hprepared) as (_ & Hbg & Hplan & _).
    rewrite Hbg, Hplan. clear Hbg Hplan.
    vm_compute in Hprepared. injection Hprepared as <- <- <- <- <-. split; reflexivity.
  - vm_compute in Hprepared. discriminate.
Defined.

Lemma X8_witness :
  Forall background_group_has_content (background_task_groups sample_state)
  /\ has_background_tasks sample_state = true.
Proof.
  destruct (@X8_shown_groups_have_content sample_host sample_state sample_state_reachable)
    as (_ & Hbg & _ & _ & _ & Hflag & _).
  split; [exact Hbg | exact Hflag].
Defined.

Lemma sample_widget_running : @running sample_host sample_widget_after_a_chunk.
Proof.
  apply running_called.
  apply (@running_activated sample_host
           {| widget_type := "sp_ai"; extra_data := sample_payload |}).
  vm_compute. reflexivity.
Qed.

Lemma X9_witness :
  option_map output (Widget.painted sample_widget_after_a_chunk) = Some "!"
  /\ copy_block (Widget.state sample_widget_after_a_chunk) 0 = Some "hello"
  /\ copy_block (Widget.state sample_widget_after_a_chunk) 1 = None.
Proof.
  destruct (@X9_copy_block_finds_its_block sample_host sample_widget_after_a_chunk
              sample_widget_running) as (_ & Hmissing & Hshown).
  destruct (Hshown eq_refl) as [Hstep Hbutton].
  split; [| split].
  - rewrite Hstep. reflexivity.
  - apply (Hbutton (Widget.state sample_widget_after_a_chunk)
             (Block.Build_t _ 0 "text" "Text" "" "hello" "" Channel.none [] [] false
                "hello" false false false false false 0 false [] false) Hstep).
    vm_compute. apply list_elem_of_here.
  - apply Hmissing. vm_compute. intros Hin.
    apply list_elem_of_singleton in Hin. discriminate.
Defined.

Lemma X10_witness :
  copy_background_task_command (Widget.state sample_widget_after_a_chunk) 0 1 = Some "make".
Proof.
  destruct (@X10_copy_command_finds_its_task sample_host sample_widget_after_a_chunk
              sample_widget_running) as [_ Hshown].
  pose proof (Hshown eq_refl (Widget.state sample_widget_after_a_chunk)) as Hcopy.
  destruct (background_task_groups (Widget.state sample_widget_after_a_chunk))
    as [| group groups] eqn:Hgroups; [vm_compute in Hgroups; discriminate |].
  destruct (BackgroundTasksGroupTemplate.tasks group) as [| task tasks] eqn:Htasks;
    [vm_compute in Hgroups; injection Hgroups as <- <-; discriminate |].
  specialize (Hcopy group task eq_refl (list_elem_of_here _ _)).
  rewrite Htasks in Hcopy. specialize (Hcopy (list_elem_of_here _ _)).
  vm_compute in Hgroups. injection Hgroups as <- <-.
  vm_compute in Htasks. injection Htasks as <- <-.
  exact Hcopy.
Defined.

(** The hypothesis that the last call returned cannot be dropped: when the
    second event of a call throws, the variable holds the state of the
    first event and nothing is painted, so the button painted for the block
    "old" copies "new". *)
Lemma a_throw_leaves_the_screen_stale :
  let w0 := default sample_widget
              (@activated sample_host
                 {| widget_type := "sp_ai"; extra_data := payload_with_text "old" |}) in
  let w := @called sample_host w0
             [set_extra_data_event (payload_with_text "new"); set_extra_data_event JNull] in
  @running sample_host w
  /\ Widget.returned w = false
  /\ option_map (fun shown => map Block.copy_text (blocks shown)) (Widget.painted w)
     = Some ["old"]
  /\ copy_block (Widget.state w) 0 = Some "new".
Proof.
  cbv zeta. split; [| vm_compute; repeat split].
  apply running_called.
  apply (@running_activated sample_host
           {| widget_type := "sp_ai"; extra_data := payload_with_text "old" |}).
  vm_compute. reflexivity.
Qed.


Lemma X11_witness :
  exists candidate,
    map Block.index (Candidate.blocks candidate) = [0]
    /\ forall i : nat, i ∈ map Block.index (Candidate.blocks candidate) -> i < 4.
Proof.
  destruct (@prepare sample_host sample_payload)
    as [[[[[candidate sub] bg] plan] todo] | msg] eqn:Hprepared;
    [| vm_compute in Hprepared; discriminate].
  exists candidate.
  pose proof (@X11_valid_blocks_are_shown_once sample_host sample_payload
                candidate sub bg plan todo eq_refl Hprepared) as [_ Hshown].
  split.
  - vm_compute in Hprepared. injection Hprepared as <- _ _ _ _. reflexivity.
  - intros i Hi. apply Hshown in Hi as [Hi _]. exact Hi.
Defined.

Lemma X12_witness :
  @normalize_extra_data sample_host sample_v1_payload
  = mkEff [] (Normal (v1_state sample_v1_payload))
  /\ title (v1_state sample_v1_payload) = "Search"
  /\ status (v1_state sample_v1_payload) = Status.ok
  /\ version (v1_state sample_v1_payload) = 2%float.
Proof.
  split; [| repeat split].
  apply (@X12_valid_v1_payload_is_kept sample_host sample_v1_payload); reflexivity.
Defined.

Lemma X13_witness :
  sp_ai_widget_extra_data_schema payload_markdown_without_text = true
  /\ exists state : WidgetState,
       @normalize_extra_data sample_host payload_markdown_without_text
       = mkEff [Warn "sp_ai widget: invalid extra_data"] (Normal state)
       /\ blocks state = [].
Proof.
  split; [reflexivity |].
  destruct (@prepare sample_host payload_markdown_without_text)
    as [[[[[candidate sub] bg] plan] todo] | msg] eqn:Hprepared;
    [| vm_compute in Hprepared; discriminate].
  exists (with_groups fallback_base sub bg plan todo). split; [| reflexivity].
  apply (@X13_block_without_text_forces_fallback sample_host payload_markdown_without_text
           candidate sub bg plan todo 0 (JObj [("kind", JStr "markdown")]) Hprepared);
    [reflexivity | reflexivity |].
  vm_compute in Hprepared. injection Hprepared as _ <- <- <- <-.
  vm_compute. set_solver.
Defined.


Lemma X14_witness :
  TemplateContext.tool_open
    (template_context (fun text => text)
       (with_status sample_state Status.approval_requested)) = true
  /\ TemplateContext.is_tool_kind
       (template_context (fun text => text)
          (with_status sample_state Status.approval_requested)) = true.
Proof.
  apply (proj1 (proj2 (proj2 (proj2
           (X14_template_flags_are_consistent (fun text => text)
              (with_status sample_state Status.approval_requested)))))).
  reflexivity.
Defined.


Lemma X16_witness :
  (ends_in "ms" (@format_duration_ms sample_host 250)
   \/ ends_in "s" (@format_duration_ms sample_host 250))
  /\ (ends_in " tok" (@format_tokens sample_host 250)
      \/ ends_in "k tok" (@format_tokens sample_host 250)
      \/ ends_in "M tok" (@format_tokens sample_host 250))
  /\ ends_in "s" (@format_runtime_sec sample_host 250).
Proof.
  apply (proj2 (proj2 (proj2
           (@X16_formatters_are_empty_only_on_rejected_input sample_host 250))));
    reflexivity.
Defined.

Lemma X17_witness :
  @format_tokens sample_host (whole_number 999) = "999 tok"
  /\ @format_tokens sample_host (whole_number 999950) = "1000.0k tok"
  /\ @format_tokens sample_host (whole_number 1000000) = "1.0M tok".
Proof.
  split; [| split].
  - apply (@X17_format_tokens_digits sample_host 999); [left |]; lia.
  - apply (proj1 (proj2 (@X17_format_tokens_digits sample_host 999950 ltac:(right; lia)))).
    lia.
  - apply (proj2 (proj2 (@X17_format_tokens_digits sample_host 1000000 ltac:(right; lia)))).
    lia.
Defined.

Lemma X18_witness :
  @format_runtime_sec sample_host (whole_number 1195 / 10)%float = "1m 60s"
  /\ @format_runtime_sec sample_host (whole_number 15 / 10)%float = "1.5s".
Proof.
  split.
  - apply (@X18_format_runtime_sec_digits sample_host 1195); lia.
  - apply (@X18_format_runtime_sec_digits sample_host 15); lia.
Defined.


Lemma X19_witness :
  @normalize_plan_step_status sample_host " Done " = (PlanStepStatusClass.ok, "Done")
  /\ @normalize_plan_step_status sample_host "blocked"
     = (PlanStepStatusClass.unknown, "blocked").
Proof.
  split.
  - apply (proj1 (@X19_plan_step_status sample_host " Done ")). vm_compute. tauto.
  - apply (proj1 (proj2 (proj2 (proj2 (proj2
             (@X19_plan_step_status sample_host "blocked")))))).
    vm_compute. intros Hin.
    repeat (destruct Hin as [Hin | Hin]; [discriminate |]). exact Hin.
Defined.


(** A no-break space, U+00A0. *)
Lemma X20_witness :
  legacy_todo_item 3
    (JStr (String "[" (String "X" (String "]"
       (String (ascii_of_nat 194) (String (ascii_of_nat 160) "") ++ " ship it ")))))
  = Some {| TodoItemTemplate.item_index := 3;
            TodoItemTemplate.text := "ship it";
            TodoItemTemplate.checked := true |}.
Proof.
  exact (X20_legacy_todo_line 3 "X"
           (String (ascii_of_nat 194) (String (ascii_of_nat 160) "")) " ship it "
           (or_intror (or_intror eq_refl)) eq_refl).
Defined.



Lemma X21_witness :
  Block.is_unknown
    (@turn_block sample_host 0 (JObj [("kind", JStr "chart"); ("points", JArr [])])) = true
  /\ Block.text
       (@turn_block sample_host 0 (JObj [("kind", JStr "chart"); ("points", JArr [])]))
     = Some "<json>".
Proof.
  destruct (@X21_unknown_kinds_are_dumped sample_host 0
              (JObj [("kind", JStr "chart"); ("points", JArr [])]) eq_refl)
    as [Hflag Hdump].
  split; [exact Hflag | exact (proj1 (proj2 (Hdump Hflag)))].
Defined.


Lemma sample_plan_rows_print : @plan_rows_print sample_host.
Proof.
  intros block data Hparsed. cbn in Hparsed. unfold plan_v2_block_schema_model in Hparsed.
  destruct (is_plain_object block && z_literal "plan" (get block "kind")); [| discriminate].
  destruct (z_optional_string (get block "title")); [| discriminate].
  cbn [mbind option_bind] in Hparsed.
  destruct (get block "steps") as [| | | | | rows |]; cbn in Hparsed; try discriminate.
  - injection Hparsed as <-. constructor.
  - destruct (mapM _ rows) as [parsed |] eqn:Hrows; [| discriminate].
    cbn in Hparsed. injection Hparsed as <-. cbn [PlanV2.steps default].
    apply mapM_Some in Hrows.
    induction Hrows as [| row parsed_row rows parsed Hrow _ IH]; constructor; [| exact IH].
    destruct (is_plain_object row); [| discriminate].
    destruct (get row "step") as [| | | | step | |] eqn:Hstep; try discriminate;
      destruct (get row "status") as [| | | | status | |] eqn:Hstatus; try discriminate;
      cbn in Hrow; injection Hrow as <-; cbn; rewrite ?Hstep, ?Hstatus;
      split; eexists; reflexivity.
Qed.

Lemma sample_todo_rows_print : @todo_rows_print sample_host.
Proof.
  intros block data Hparsed. cbn in Hparsed. unfold todo_v2_block_schema_model in Hparsed.
  destruct (is_plain_object block && z_literal "todo" (get block "kind")); [| discriminate].
  destruct (z_optional_string (get block "title")); [| discriminate].
  cbn [mbind option_bind] in Hparsed.
  destruct (get block "items") as [| | | | | rows |]; cbn in Hparsed; try discriminate.
  - injection Hparsed as <-. constructor.
  - destruct (mapM _ rows) as [parsed |] eqn:Hrows; [| discriminate].
    cbn in Hparsed. injection Hparsed as <-. cbn [TodoV2.items default].
    apply mapM_Some in Hrows.
    induction Hrows as [| row parsed_row rows parsed Hrow _ IH]; constructor; [| exact IH].
    destruct (is_plain_object row); [| discriminate].
    destruct (get row "text") as [| | | | text | |] eqn:Htext; try discriminate;
      destruct (get row "checked") as [| | checked | | | |] eqn:Hchecked; try discriminate;
      cbn in Hrow; injection Hrow as <-; cbn; rewrite ?Htext;
      eexists; reflexivity.
Qed.

Lemma X22_witness :
  exists (state : WidgetState) (warnings : list effect),
    @activate sample_host {| widget_type := "sp_ai"; extra_data := sample_payload |}
    = mkEff (warnings ++ [Render state])%list (Normal (handle_events_over state))
    /\ (warnings = [] \/ warnings = [Warn "sp_ai widget: invalid extra_data"]).
Proof.
  apply (@X22_valid_payload_activates sample_host sample_payload
           sample_plan_rows_print sample_todo_rows_print).
  reflexivity.
Defined.


Lemma X23_witness :
  @normalize_extra_data sample_host sample_v1_payload
  = @normalize_extra_data sample_host
      (JObj [("output", JStr "3 hits"); ("status", JStr "ok"); ("title", JStr "Search");
             ("display", JStr "card_with_caption"); ("trace_id", JStr "abc")]).
Proof.
  apply (@X23_unrecognised_fields_are_ignored sample_host); [reflexivity | reflexivity |].
  intros k Hk. simpl in Hk.
  repeat (destruct Hk as [<- | Hk]; [reflexivity |]). contradiction.
Defined.


Lemma X24_witness :
  is_Some (block_schema
             (@turn_block sample_host 2
                (JObj [("kind", JStr "table"); ("columns", JArr [JStr "file"; JStr "size"]);
                       ("rows", JArr [JArr [JStr "a.ts"; JStr "12"]])]))).
Proof.
  apply (@X24_known_blocks_pass_the_state_schema sample_host); reflexivity.
Defined.


Lemma X25_witness :
  z_kind (JStr "tool") = Some (kind sample_state)
  /\ title sample_state = "Build".
Proof.
  destruct (@X25_turn_fields_win sample_host sample_payload sample_turn sample_state
              eq_refl eq_refl)
    as (Hkind & _ & Htitle & _).
  - vm_compute. reflexivity.
  - split; [exact Hkind |].
    exact (f_equal (fun v => string_or v "") (eq_sym Htitle)).
Defined.


